(** * Responsive Stretch RTD provider: a shallow embedding

    The development follows [modules/responsiveStretchProvider.js].  That file
    holds two revisions of the provider, one after the other, and then its
    unit tests (lines 700-995):

    - lines 1-351: the width-only revision ([RevA] below), whose measurement
      keeps the slot size, the viewport size and [maxAvailableWidth], and
      whose impression payload also carries [banner.wmax];
    - lines 353-698: the full-geometry revision ([RevB] below), whose
      measurement keeps every gap around the slot and whose global and bidder
      payloads carry the viewport.

    JavaScript numbers are modelled as exact rationals extended with
    [+Infinity], [-Infinity] and [NaN]: the rounding error of binary floating
    point and the sign of zero are not represented.  JavaScript objects are
    association lists in insertion order, read at the first entry of a key and
    written in place (or appended when the key is new); only own properties
    are modelled.  The request object is taken to be a tree: no object of it
    is reachable along two paths, so that a mutation in place is an update of
    the value at that path.  An exception is [Throws], whatever it carries;
    logging has no effect.

    The resize function of the integration example
    ([integrationExamples/responsiveStretch/customResizeFn.js]) is embedded
    in [Resize], over the layout of the browser as a parameter. *)

From Stdlib Require Import ZArith QArith Qround Qminmax Lqa List String Bool Lia.
Import ListNotations.

Set Implicit Arguments.

Open Scope string_scope.

(* ================================================================== *)
(** * Numbers *)
(* ================================================================== *)

Module JS.

Inductive num : Type :=
| Fin (q : Q)
| PInf
| NInf
| NaN.

Definition of_Z (z : Z) : num := Fin (inject_Z z).

Definition neg (a : num) : num :=
  match a with
  | Fin q => Fin (Qopp q)
  | PInf => NInf
  | NInf => PInf
  | NaN => NaN
  end.

(** [a + b] *)
Definition add (a b : num) : num :=
  match a, b with
  | NaN, _ | _, NaN => NaN
  | Fin x, Fin y => Fin (Qplus x y)
  | PInf, NInf | NInf, PInf => NaN
  | PInf, _ | _, PInf => PInf
  | NInf, _ | _, NInf => NInf
  end.

(** [a - b] *)
Definition sub (a b : num) : num := add a (neg b).

(** The sign of an infinite product or quotient; a zero factor counts as
    positive zero. *)
Definition inf_of_sign (c : comparison) : num :=
  match c with
  | Lt => NInf
  | _ => PInf
  end.

Definition flip (c : comparison) : comparison :=
  match c with
  | Lt => Gt
  | Gt => Lt
  | Eq => Eq
  end.

(** [a * b] *)
Definition mul (a b : num) : num :=
  match a, b with
  | NaN, _ | _, NaN => NaN
  | Fin x, Fin y => Fin (Qmult x y)
  | Fin x, PInf | PInf, Fin x =>
      match Qcompare x 0 with Eq => NaN | c => inf_of_sign c end
  | Fin x, NInf | NInf, Fin x =>
      match Qcompare x 0 with Eq => NaN | c => inf_of_sign (flip c) end
  | PInf, PInf | NInf, NInf => PInf
  | PInf, NInf | NInf, PInf => NInf
  end.

(** [a / b]: a finite number over zero is an infinity of the sign of the
    numerator, zero over zero is [NaN]. *)
Definition div (a b : num) : num :=
  match a, b with
  | NaN, _ | _, NaN => NaN
  | Fin x, Fin y =>
      match Qcompare y 0 with
      | Eq => match Qcompare x 0 with Eq => NaN | c => inf_of_sign c end
      | _ => Fin (Qdiv x y)
      end
  | Fin _, (PInf | NInf) => Fin 0
  | PInf, Fin y => inf_of_sign (Qcompare y 0)
  | NInf, Fin y =>
      inf_of_sign (flip (match Qcompare y 0 with Eq => Gt | c => c end))
  | (PInf | NInf), (PInf | NInf) => NaN
  end.

(** [a < b]; any comparison with [NaN] is false. *)
Definition lt (a b : num) : bool :=
  match a, b with
  | NaN, _ | _, NaN => false
  | Fin x, Fin y => match Qcompare x y with Lt => true | _ => false end
  | NInf, (Fin _ | PInf) => true
  | Fin _, PInf => true
  | _, _ => false
  end.

(** [a > b] *)
Definition gt (a b : num) : bool := lt b a.

(** [a <= b] *)
Definition le (a b : num) : bool :=
  match a, b with
  | NaN, _ | _, NaN => false
  | Fin x, Fin y => match Qcompare x y with Gt => false | _ => true end
  | NInf, _ => true
  | _, PInf => true
  | _, _ => false
  end.

(** [a >= b] *)
Definition ge (a b : num) : bool := le b a.

(** [Math.round]: the nearest integer, a tie going towards [+Infinity]. *)
Definition Math_round (a : num) : num :=
  match a with
  | Fin q => of_Z (Qfloor (Qplus q (1 # 2)))
  | other => other
  end.

(** [Math.min] of two numbers. *)
Definition Math_min (a b : num) : num :=
  match a, b with
  | NaN, _ | _, NaN => NaN
  | _, _ => if lt b a then b else a
  end.

(** [Number.isFinite] *)
Definition isFinite (a : num) : bool :=
  match a with
  | Fin _ => true
  | _ => false
  end.

(** [a === b] on numbers. *)
Definition strict_eq (a b : num) : bool :=
  match a, b with
  | Fin x, Fin y => Qeq_bool x y
  | PInf, PInf | NInf, NInf => true
  | _, _ => false
  end.

(* ------------------------------------------------------------------ *)
(** ** Values *)

Unset Elimination Schemes.

Inductive value : Type :=
| VUndefined
| VNull
| VBool (b : bool)
| VNum (n : num)
| VStr (s : string)
| VArr (items : list value)
| VObj (fields : list (string * value)).

Set Elimination Schemes.

Definition obj : Type := list (string * value).

(** Own-property lookup: the first entry of the key. *)
Fixpoint get (k : string) (o : obj) : option value :=
  match o with
  | [] => None
  | (k', v) :: rest => if String.eqb k k' then Some v else get k rest
  end.

(** Property assignment [o[k] = v]: in place when the key exists, appended
    otherwise. *)
Fixpoint set (k : string) (v : value) (o : obj) : obj :=
  match o with
  | [] => [(k, v)]
  | (k', v') :: rest =>
      if String.eqb k k' then (k, v) :: rest else (k', v') :: set k v rest
  end.

(** [o[k]] as an expression: [undefined] when the key is absent. *)
Definition prop (o : obj) (k : string) : value :=
  match get k o with
  | Some v => v
  | None => VUndefined
  end.

(** [v[k]] on any value that is neither [null] nor [undefined]; only plain
    objects have own properties in this model. *)
Definition member (v : value) (k : string) : value :=
  match v with
  | VObj o => prop o k
  | _ => VUndefined
  end.

(** Reading along a path of keys; [None] is [undefined]. *)
Fixpoint get_path (p : list string) (v : value) : option value :=
  match p with
  | [] => Some v
  | k :: p' =>
      match v with
      | VObj o => match get k o with
                  | Some v' => get_path p' v'
                  | None => None
                  end
      | _ => None
      end
  end.

Definition keys (o : obj) : list string := map fst o.

(** Truthiness ([!!v]). *)
Definition truthy (v : value) : bool :=
  match v with
  | VUndefined | VNull => false
  | VBool b => b
  | VNum (Fin q) => negb (Qeq_bool q 0)
  | VNum NaN => false
  | VNum _ => true
  | VStr s => negb (String.eqb s EmptyString)
  | VArr _ | VObj _ => true
  end.

(** [a || b] *)
Definition or_else (a b : value) : value := if truthy a then a else b.

Definition isPlainObject (v : value) : bool :=
  match v with
  | VObj _ => true
  | _ => false
  end.

(** Computations that may throw. *)
Inductive outcome (A : Type) : Type :=
| Returns (a : A)
| Throws.

Arguments Throws {A}.

Definition bind {A B : Type} (m : outcome A) (f : A -> outcome B) : outcome B :=
  match m with
  | Returns a => f a
  | Throws => Throws
  end.

(** [try { body } catch (error) { handler }] *)
Definition try_catch {A : Type} (body handler : outcome A) : outcome A :=
  match body with
  | Returns a => Returns a
  | Throws => handler
  end.

(** Computations that may throw and that mutate a store [S]; the store a
    throwing computation leaves behind is kept. *)
Definition action (S A : Type) : Type := S -> outcome A * S.

Definition ret {S A : Type} (a : A) : action S A := fun s => (Returns a, s).

Definition throw {S A : Type} : action S A := fun s => (Throws, s).

Definition seq {S A B : Type} (m : action S A) (f : A -> action S B)
  : action S B :=
  fun s =>
    match m s with
    | (Returns a, s') => f a s'
    | (Throws, s') => (Throws, s')
    end.

(** [try { body } catch (error) { handler }] on actions. *)
Definition attempt {S A : Type} (body handler : action S A) : action S A :=
  fun s =>
    match body s with
    | (Returns a, s') => (Returns a, s')
    | (Throws, s') => handler s'
    end.

Definition read {S : Type} : action S S := fun s => (Returns s, s).

Definition lift {S A : Type} (o : outcome A) : action S A := fun s => (o, s).

End JS.

Declare Scope js_scope.
Delimit Scope js_scope with js.
Notation "x <- m ;; k" := (JS.bind m (fun x => k))
  (at level 61, m at next level, right associativity) : js_scope.

Declare Scope action_scope.
Delimit Scope action_scope with act.
Notation "x <~ m ;; k" := (JS.seq m (fun x => k))
  (at level 61, m at next level, right associativity) : action_scope.
Notation "m ;;; k" := (JS.seq m (fun _ => k))
  (at level 61, right associativity) : action_scope.

(* ================================================================== *)
(** * The host environment: layout and document *)
(* ================================================================== *)

(** The rectangle [getBoundingClientRect] yields. *)
Module DOMRect.
Record t : Type := make {
  width : JS.num;
  height : JS.num;
  top : JS.num;
  left : JS.num;
  right : JS.num;
  bottom : JS.num
}.
End DOMRect.

(** What [getViewportSize] yields. *)
Module Viewport.
Record t : Type := make {
  width : JS.num;
  height : JS.num
}.
End Viewport.

(** The two computed-style properties the provider reads. *)
Module Style.
Record t : Type := make {
  display : string;
  position : string
}.
End Style.

Unset Elimination Schemes.

(** An element with the chain of its ancestors.  Reading its rectangle or
    its computed style may throw (a detached node, a stubbed host);
    [isBody] tells whether the element is [document.body]. *)
Inductive Element : Type :=
| mkElement (boundingClientRect : JS.outcome DOMRect.t)
            (computedStyle : JS.outcome Style.t)
            (isBody : bool)
            (parentElement : option Element).

Set Elimination Schemes.

Definition getBoundingClientRect (el : Element) : JS.outcome DOMRect.t :=
  match el with mkElement r _ _ _ => r end.

Definition getComputedStyle (el : Element) : JS.outcome Style.t :=
  match el with mkElement _ s _ _ => s end.

Definition parentElement (el : Element) : option Element :=
  match el with mkElement _ _ _ p => p end.

(** The two lookups of [document] the provider uses; a query the host does
    not support throws. *)
Module Document.
Record t : Type := make {
  getElementById : string -> JS.outcome (option Element);
  querySelector : string -> JS.outcome (option Element)
}.
End Document.

(** An ad unit of the request: its [code] ([None] when the property is
    absent), its [ortb2Imp] ([VUndefined] when absent) and its other
    properties. *)
Module AdUnit.
Record t : Type := make {
  code : option string;
  ortb2Imp : JS.value;
  others : JS.obj
}.
End AdUnit.

(** The ambient host of one call: the document, the viewport
    ([getViewportSize()]), the clock ([Date.now()], epoch milliseconds) and
    the ad units of the global object ([getGlobal().adUnits]). *)
Module Host.
Record t : Type := make {
  document : Document.t;
  viewportSize : Viewport.t;
  now : Z;
  globalAdUnits : option (list (option AdUnit.t))
}.
End Host.

(** [!adUnit.code] *)
Definition code_is_falsy (c : option string) : bool :=
  match c with
  | None => true
  | Some s => String.eqb s EmptyString
  end.

(** The property key [adUnit.code] denotes in [stretchData[adUnit.code]]. *)
Definition code_key (c : option string) : string :=
  match c with
  | None => "undefined"
  | Some s => s
  end.

(** A list of ad units as the host hands it over: an entry may be [null]. *)
Definition AdUnits : Type := list (option AdUnit.t).

Definition dquote : string := String (Ascii.ascii_of_nat 34) EmptyString.

(* ================================================================== *)
(** * Element lookup (identical in both revisions) *)
(* ================================================================== *)

Section Lookup.

Variable document : Document.t.

(** Lines 77-84 and 454-461: the six lookups, in order. *)
Definition strategies (adUnitCode : string)
  : list (JS.outcome (option Element)) :=
  [ Document.getElementById document adUnitCode;
    Document.querySelector document
      ("[id=" ++ dquote ++ adUnitCode ++ dquote ++ "]");
    Document.querySelector document
      ("[data-ad-unit-code=" ++ dquote ++ adUnitCode ++ dquote ++ "]");
    Document.querySelector document
      ("[data-adunitcode=" ++ dquote ++ adUnitCode ++ dquote ++ "]");
    Document.querySelector document
      ("div[id*=" ++ dquote ++ adUnitCode ++ dquote ++ "]");
    Document.querySelector document
      ("div[class*=" ++ dquote ++ adUnitCode ++ dquote ++ "]") ].

(** The loop of lines 86-95: a strategy that throws or finds nothing hands
    over to the next one. *)
Fixpoint first_found (l : list (JS.outcome (option Element)))
  : option Element :=
  match l with
  | [] => None
  | strategy :: rest =>
      match JS.try_catch strategy (JS.Returns None) with
      | JS.Returns (Some element) => Some element
      | _ => first_found rest
      end
  end.

Definition findAdSlotElement (adUnitCode : string) : option Element :=
  first_found (strategies adUnitCode).

(** Lines 106-128 and 483-505, over the [calculateAdSlotSpace] of the
    revision.  A [null] entry of the array throws at [adUnit.code]. *)
Section Collect.

Variable calculateAdSlotSpace : option Element -> JS.outcome (option JS.value).

Fixpoint collect_each (adUnits : AdUnits) (stretchData : JS.obj)
  : JS.outcome JS.obj :=
  match adUnits with
  | [] => JS.Returns stretchData
  | None :: _ => JS.Throws
  | Some adUnit :: rest =>
      if code_is_falsy (AdUnit.code adUnit) then collect_each rest stretchData
      else
        let key := code_key (AdUnit.code adUnit) in
        let element := findAdSlotElement key in
        (spaceData <- calculateAdSlotSpace element ;;
         match spaceData with
         | Some data => collect_each rest (JS.set key data stretchData)
         | None => collect_each rest stretchData
         end)%js
  end.

(** [adUnits] is [None] when the argument is missing. *)
Definition collect (adUnits : option AdUnits)
  : JS.outcome JS.obj :=
  match adUnits with
  | None => JS.Returns []
  | Some l => collect_each l []
  end.

End Collect.

End Lookup.

(* ================================================================== *)
(** * Helpers of the host library *)
(* ================================================================== *)

(** [mergeDeep], [isEmpty] and [isArray] are imported from the host library's
    [src/utils.js], which is not among the sources of the provider. *)
Module Utils.

(** Modelled from the spec: the equality under which [mergeDeep] tells
    whether a list already holds an entry, which is not among the sources
    ("lists must not duplicate entries on repeated merge"); numbers compare
    as [===] does. *)
Fixpoint deepEqual (a b : JS.value) : bool :=
  match a, b with
  | JS.VUndefined, JS.VUndefined => true
  | JS.VNull, JS.VNull => true
  | JS.VBool x, JS.VBool y => Bool.eqb x y
  | JS.VNum x, JS.VNum y => JS.strict_eq x y
  | JS.VStr x, JS.VStr y => String.eqb x y
  | JS.VArr xs, JS.VArr ys =>
      (fix all2 (xs ys : list JS.value) : bool :=
         match xs, ys with
         | [], [] => true
         | x :: xs', y :: ys' => deepEqual x y && all2 xs' ys'
         | _, _ => false
         end) xs ys
  | JS.VObj xs, JS.VObj ys =>
      Nat.eqb (List.length xs) (List.length ys)
      && (fix all_in (xs : list (string * JS.value)) : bool :=
            match xs with
            | [] => true
            | (k, v) :: xs' =>
                match JS.get k ys with
                | Some w => deepEqual v w
                | None => false
                end && all_in xs'
            end) xs
  | _, _ => false
  end.

(** Modelled from the spec: what [mergeDeep] makes of two lists, which is
    not among the sources ("collections are concatenated", "lists must not
    duplicate entries on repeated merge"): the entries of [source] that
    [target] does not hold yet are pushed, in order. *)
Definition push_new (source target : list JS.value) : list JS.value :=
  fold_left
    (fun acc item =>
       if existsb (fun held => deepEqual held item) acc then acc
       else (acc ++ [item])%list)
    source target.

(** Modelled from the spec: one key of the source of [mergeDeep] merged into
    the fields of the target; [recur] is the merge of the value of that key
    into the value the target holds.  Under an object of the source a falsy
    value of the target gives way to an empty object and any other value
    that is not an object is left as it is; a list of the source is
    concatenated to a list of the target and replaces anything else; any
    other value of the source wins. *)
Definition merge_entry (recur : JS.value -> JS.value) (key : string)
  (val : JS.value) (target : JS.obj) : JS.obj :=
  match val with
  | JS.VObj _ =>
      let target' :=
        if JS.truthy (JS.prop target key) then target
        else JS.set key (JS.VObj []) target in
      JS.set key (recur (JS.prop target' key)) target'
  | JS.VArr items =>
      match JS.prop target key with
      | JS.VArr held => JS.set key (JS.VArr (push_new items held)) target
      | _ => JS.set key (JS.VArr items) target
      end
  | _ => JS.set key val target
  end.

(** Modelled from the spec: the recursive part of [mergeDeep(target,
    source)], which is not among the sources ("recursively union nested
    key/value structures; when both sides define the same scalar leaf, the
    new value wins; collections are concatenated/replaced").  The result is
    the target after the merge; a target or a source that is not a plain
    object leaves the target as it is. *)
Fixpoint mergeDeepHelper (source target : JS.value) {struct source}
  : JS.value :=
  match source, target with
  | JS.VObj sfields, JS.VObj tfields =>
      JS.VObj
        ((fix each (l : list (string * JS.value)) (acc : JS.obj) : JS.obj :=
            match l with
            | [] => acc
            | (key, val) :: rest =>
                each rest (merge_entry (mergeDeepHelper val) key val acc)
            end) sfields tfields)
  | _, _ => target
  end.

(** Modelled from the spec: [mergeDeep(target, source)] of [src/utils.js],
    which is not among the sources; a source that is not a plain object is
    skipped. *)
Definition mergeDeep (target source : JS.value) : JS.value :=
  if JS.isPlainObject source then mergeDeepHelper source target else target.

(** Modelled from the spec: the loop of [mergeDeep] over the keys of the
    source, as a fold (it is the local loop of [mergeDeepHelper], see
    [mergeDeepHelper_obj]). *)
Definition merge_fields (sfields : JS.obj) (tfields : JS.obj) : JS.obj :=
  fold_left
    (fun acc kv => merge_entry (mergeDeepHelper (snd kv)) (fst kv) (snd kv) acc)
    sfields tfields.

(** Modelled from the spec: [isArray] of [src/utils.js], which is not among
    the sources. *)
Definition isArray (v : JS.value) : bool :=
  match v with
  | JS.VArr _ => true
  | _ => false
  end.

(** Modelled from the spec: [isEmpty] of [src/utils.js], which is not among
    the sources ("targetBidders is empty", "no slots configured"): a falsy
    value, an array or a string of length zero, or a value without own
    keys. *)
Definition isEmpty (v : JS.value) : bool :=
  if negb (JS.truthy v) then true
  else
    match v with
    | JS.VArr items => match items with [] => true | _ => false end
    | JS.VStr s => String.eqb s EmptyString
    | JS.VObj fields => match fields with [] => true | _ => false end
    | _ => true
    end.

End Utils.

(* ================================================================== *)
(** * Configuration and request *)
(* ================================================================== *)

(** The value of [params.bidders]: an array of bidder codes, or any value
    that is not an array ([undefined] when the parameter is not set). *)
Inductive BiddersParam : Type :=
| BiddersArray (codes : list string)
| BiddersOther (v : JS.value).

(** [!!bidders] *)
Definition bidders_truthy (b : BiddersParam) : bool :=
  match b with
  | BiddersArray _ => true
  | BiddersOther v => JS.truthy v
  end.

(** [isArray(bidders)] *)
Definition bidders_isArray (b : BiddersParam) : bool :=
  match b with
  | BiddersArray codes => Utils.isArray (JS.VArr (map JS.VStr codes))
  | BiddersOther _ => false
  end.

(** [isEmpty(bidders)] *)
Definition bidders_isEmpty (b : BiddersParam) : bool :=
  match b with
  | BiddersArray codes => Utils.isEmpty (JS.VArr (map JS.VStr codes))
  | BiddersOther v => Utils.isEmpty v
  end.

(** The bidder codes when [bidders] is an array. *)
Definition bidders_codes (b : BiddersParam) : list string :=
  match b with
  | BiddersArray codes => codes
  | BiddersOther _ => []
  end.

Module Params.
Record t : Type := make {
  bidders : BiddersParam;
  global : JS.value;
  impLevel : JS.value
}.
End Params.

Module ModuleConfig.
Record t : Type := make {
  params : option Params.t
}.
End ModuleConfig.

Module Fragments.
Record t : Type := make {
  global : JS.value;
  bidder : JS.value
}.
End Fragments.

(** [reqBidsConfigObj]: [ortb2Fragments] and [adUnits] are [None] when the
    property is absent. *)
Module ReqBidsConfig.
Record t : Type := make {
  ortb2Fragments : option Fragments.t;
  adUnits : option AdUnits
}.
End ReqBidsConfig.

(** [v !== false] *)
Definition is_not_false (v : JS.value) : bool :=
  match v with
  | JS.VBool false => false
  | _ => true
  end.

(** Lines 137-139 and 514-516. *)
Definition bidders_of (moduleConfig : ModuleConfig.t) : BiddersParam :=
  match ModuleConfig.params moduleConfig with
  | Some p =>
      if bidders_truthy (Params.bidders p) then Params.bidders p
      else BiddersArray []
  | None => BiddersArray []
  end.

Definition globalEnabled (moduleConfig : ModuleConfig.t) : bool :=
  match ModuleConfig.params moduleConfig with
  | Some p => is_not_false (Params.global p)
  | None => true
  end.

Definition impLevelEnabled (moduleConfig : ModuleConfig.t) : bool :=
  match ModuleConfig.params moduleConfig with
  | Some p => is_not_false (Params.impLevel p)
  | None => true
  end.

(** The condition of lines 142 and 519. *)
Definition global_scope_fires (moduleConfig : ModuleConfig.t) : bool :=
  let bidders := bidders_of moduleConfig in
  globalEnabled moduleConfig
  && (bidders_isEmpty bidders || negb (bidders_isArray bidders)).

(** The condition of lines 161 and 539. *)
Definition bidder_scope_fires (moduleConfig : ModuleConfig.t) : bool :=
  let bidders := bidders_of moduleConfig in
  bidders_isArray bidders && (0 <? List.length (bidders_codes bidders))%nat.

(** [{site: {ext: {data: {responsiveStretch: payload}}}}] *)
Definition site_ext_data (payload : JS.value) : JS.value :=
  JS.VObj
    [("site",
      JS.VObj
        [("ext",
          JS.VObj [("data", JS.VObj [("responsiveStretch", payload)])])])].

(** [Object.fromEntries(bidders.map(bidder => [bidder, bidderData]))] *)
Definition bidderConfig_of (codes : list string) (bidderData : JS.value)
  : JS.value :=
  JS.VObj (fold_left (fun o bidder => JS.set bidder bidderData o) codes []).

(** The body both revisions share, over the payload of the global and bidder
    scopes and over the impression payload of a measurement. *)
Section Merge.

Variable scope_payload : JS.value.
Variable impData_of : JS.value -> JS.value.
Variable stretchData : JS.obj.
Variable moduleConfig : ModuleConfig.t.

(** [mergeDeep(reqBidsConfigObj.ortb2Fragments.global, globalData)]; reading
    [.global] of an absent [ortb2Fragments] throws. *)
Definition merge_global : JS.action ReqBidsConfig.t unit :=
  fun req =>
    match ReqBidsConfig.ortb2Fragments req with
    | None => (JS.Throws, req)
    | Some f =>
        (JS.Returns tt,
         ReqBidsConfig.make
           (Some
              (Fragments.make
                 (Utils.mergeDeep (Fragments.global f)
                    (site_ext_data scope_payload))
                 (Fragments.bidder f)))
           (ReqBidsConfig.adUnits req))
    end.

(** [mergeDeep(reqBidsConfigObj.ortb2Fragments.bidder, bidderConfig)] *)
Definition merge_bidder (codes : list string)
  : JS.action ReqBidsConfig.t unit :=
  fun req =>
    match ReqBidsConfig.ortb2Fragments req with
    | None => (JS.Throws, req)
    | Some f =>
        (JS.Returns tt,
         ReqBidsConfig.make
           (Some
              (Fragments.make (Fragments.global f)
                 (Utils.mergeDeep (Fragments.bidder f)
                    (bidderConfig_of codes (site_ext_data scope_payload)))))
           (ReqBidsConfig.adUnits req))
    end.

(** The body of the [forEach] callback on one ad unit.  [stretchData] is
    read among its own properties: an ad unit whose code is a key of
    [Object.prototype] ([toString], [constructor], ...), under which the
    code finds an inherited value, is outside the model. *)
Definition merge_imp (adUnit : AdUnit.t) : AdUnit.t :=
  let stretchInfo := JS.prop stretchData (code_key (AdUnit.code adUnit)) in
  if JS.truthy stretchInfo then
    AdUnit.make (AdUnit.code adUnit)
      (Utils.mergeDeep (JS.or_else (AdUnit.ortb2Imp adUnit) (JS.VObj []))
         (impData_of stretchInfo))
      (AdUnit.others adUnit)
  else adUnit.

(** [adUnits.forEach(...)]: a [null] entry throws at [adUnit.code], the
    entries before it having been merged. *)
Fixpoint merge_imps (adUnits : AdUnits) : JS.outcome unit * AdUnits :=
  match adUnits with
  | [] => (JS.Returns tt, [])
  | None :: rest => (JS.Throws, None :: rest)
  | Some adUnit :: rest =>
      let (o, rest') := merge_imps rest in
      (o, Some (merge_imp adUnit) :: rest')
  end.

Definition merge_impressions : JS.action ReqBidsConfig.t unit :=
  fun req =>
    match ReqBidsConfig.adUnits req with
    | None => (JS.Returns tt, req)
    | Some adUnits =>
        let (o, adUnits') := merge_imps adUnits in
        (o, ReqBidsConfig.make (ReqBidsConfig.ortb2Fragments req)
              (Some adUnits'))
    end.

Definition addStretchData : JS.action ReqBidsConfig.t unit :=
  ((if global_scope_fires moduleConfig then merge_global else JS.ret tt) ;;;
   (if bidder_scope_fires moduleConfig
    then merge_bidder (bidders_codes (bidders_of moduleConfig))
    else JS.ret tt) ;;;
   (if impLevelEnabled moduleConfig then merge_impressions else JS.ret tt))%act.

End Merge.

(** [getViewportSize()] as the object it is. *)
Definition viewport_value (v : Viewport.t) : JS.value :=
  JS.VObj
    [("width", JS.VNum (Viewport.width v));
     ("height", JS.VNum (Viewport.height v))].


(* ================================================================== *)
(** * The completion callback and the timer queue *)
(* ================================================================== *)

(** What the caller's [callback] does when it is invoked for the [n]-th time
    (counting from zero): [true] when that invocation throws. *)
Definition Callback : Type := nat -> bool.

(** The closure handed to [setTimeout] (lines 636-651), with what it
    captures. *)
Inductive Task : Type :=
| DeferredMeasure (adUnits : AdUnits) (callback : Callback)
    (moduleConfig : option ModuleConfig.t).

(** What a call can change: the request object ([None] when the caller
    passed [null]), the number of invocations of the callback so far, and the
    pending timers. *)
Module World.
Record t : Type := make {
  request : option ReqBidsConfig.t;
  calls : nat;
  timers : list Task
}.
End World.

(** [callback()] *)
Definition invoke (callback : Callback) : JS.action World.t unit :=
  fun w =>
    (if callback (World.calls w) then JS.Throws else JS.Returns tt,
     World.make (World.request w) (S (World.calls w)) (World.timers w)).

(** [setTimeout(task, 0)] *)
Definition setTimeout (task : Task) : JS.action World.t unit :=
  fun w =>
    (JS.Returns tt,
     World.make (World.request w) (World.calls w)
       (World.timers w ++ [task])%list).

(** A call that mutates the request object. *)
Definition on_request (f : ReqBidsConfig.t -> JS.outcome unit * ReqBidsConfig.t)
  : JS.action World.t unit :=
  fun w =>
    match World.request w with
    | None => (JS.Throws, w)
    | Some req =>
        let (o, req') := f req in
        (o, World.make (Some req') (World.calls w) (World.timers w))
    end.

(** [isEmpty(adUnits)] on an array of ad units. *)
Definition adUnits_isEmpty (adUnits : AdUnits) : bool :=
  match adUnits with
  | [] => true
  | _ => false
  end.

(** [reqBidsConfigObj.adUnits || getGlobal().adUnits || []] *)
Definition adUnits_of (host : Host.t) (req : ReqBidsConfig.t) : AdUnits :=
  match ReqBidsConfig.adUnits req with
  | Some l => l
  | None =>
      match Host.globalAdUnits host with
      | Some l => l
      | None => []
      end
  end.

(** [moduleConfig || _moduleConfig] *)
Definition config_or (moduleConfig : option ModuleConfig.t)
  (_moduleConfig : ModuleConfig.t) : ModuleConfig.t :=
  match moduleConfig with
  | Some c => c
  | None => _moduleConfig
  end.

(** The inner [try] of [getBidRequestData] (lines 267-278 and 637-648), over
    the [collectResponsiveStretchData] and [addStretchDataToORTB2] of the
    revision. *)
Definition measure_and_merge
  (collect : option AdUnits -> JS.outcome JS.obj)
  (add : ReqBidsConfig.t -> JS.obj -> ModuleConfig.t ->
         JS.outcome unit * ReqBidsConfig.t)
  (adUnits : AdUnits) (moduleConfig : ModuleConfig.t)
  : JS.action World.t unit :=
  JS.attempt
    (stretchData <~ JS.lift (collect (Some adUnits)) ;;
     if negb (Utils.isEmpty (JS.VObj stretchData))
     then on_request (fun req => add req stretchData moduleConfig)
     else JS.ret tt)%act
    (JS.ret tt).

(* ================================================================== *)
(** * The width-only revision (lines 1-351) *)
(* ================================================================== *)

Module RevA.

(** The loop of lines 296-305, from [current] with the bound found so far. *)
Fixpoint walk (current : Element) (maxWidth : JS.num) : JS.outcome JS.num :=
  match current with
  | mkElement rect style isBody parent =>
      if isBody then JS.Returns maxWidth
      else
        (style <- style ;;
         rect <- rect ;;
         let width := DOMRect.width rect in
         let maxWidth' :=
           if negb (String.eqb (Style.display style) "contents")
              && negb (String.eqb (Style.position style) "absolute")
           then JS.Math_min maxWidth width
           else maxWidth in
         match parent with
         | Some p => walk p maxWidth'
         | None => JS.Returns maxWidth'
         end)%js
  end.

(** Lines 292-308. *)
Definition getMaxAvailableWidth (el : option Element) : JS.outcome JS.num :=
  match el with
  | None => JS.Returns JS.PInf
  | Some current => walk current JS.PInf
  end.

Section WithHost.

Variable host : Host.t.

(** Lines 35-68. *)
Definition calculateAdSlotSpace (element : option Element)
  : JS.outcome (option JS.value) :=
  match element with
  | None => JS.Returns None
  | Some el =>
      JS.try_catch
        (rect <- getBoundingClientRect el ;;
         let viewportSize := Host.viewportSize host in
         maxAvailableWidth <- getMaxAvailableWidth (Some el) ;;
         let availableSpace :=
           JS.VObj
             [ ("width", JS.VNum (JS.Math_round (DOMRect.width rect)));
               ("height", JS.VNum (JS.Math_round (DOMRect.height rect)));
               ("viewportWidth",
                JS.VNum (JS.Math_round (Viewport.width viewportSize)));
               ("viewportHeight",
                JS.VNum (JS.Math_round (Viewport.height viewportSize)));
               ("maxAvailableWidth",
                JS.VNum (JS.Math_round maxAvailableWidth)) ] in
         JS.Returns (Some availableSpace))%js
        (JS.Returns None)
  end.

(** Lines 106-128. *)
Definition collectResponsiveStretchData (adUnits : option AdUnits)
  : JS.outcome JS.obj :=
  collect (Host.document host) calculateAdSlotSpace adUnits.

(** Lines 147-150 and 166-169. *)
Definition responsiveStretch (stretchData : JS.obj) : JS.value :=
  JS.VObj
    [("adUnits", JS.VObj stretchData);
     ("timestamp", JS.VNum (JS.of_Z (Host.now host)))].

(** [stretchInfo.maxAvailableWidth && stretchInfo.maxAvailableWidth !==
    Infinity] *)
Definition has_wmax (stretchInfo : JS.value) : bool :=
  let w := JS.member stretchInfo "maxAvailableWidth" in
  JS.truthy w
  && match w with
     | JS.VNum JS.PInf => false
     | _ => true
     end.

(** Lines 188-201. *)
Definition impData (stretchInfo : JS.value) : JS.value :=
  let impData :=
    [("ext", JS.VObj [("data", JS.VObj [("responsiveStretch", stretchInfo)])])]
  in
  if has_wmax stretchInfo then
    JS.VObj
      (JS.set "banner"
         (JS.VObj [("wmax", JS.member stretchInfo "maxAvailableWidth")])
         impData)
  else JS.VObj impData.

(** Lines 136-211; the result is the request after the call and whether the
    call returned or threw. *)
Definition addStretchDataToORTB2 (reqBidsConfigObj : ReqBidsConfig.t)
  (stretchData : JS.obj) (moduleConfig : ModuleConfig.t)
  : JS.outcome unit * ReqBidsConfig.t :=
  addStretchData (responsiveStretch stretchData) impData stretchData
    moduleConfig reqBidsConfigObj.

(** Lines 255-285; [_moduleConfig] is the configuration [init] kept. *)
Definition getBidRequestData (_moduleConfig : ModuleConfig.t)
  (callback : Callback) (moduleConfig : option ModuleConfig.t)
  : JS.action World.t unit :=
  JS.attempt
    (w <~ JS.read ;;
     match World.request w with
     | None => JS.throw
     | Some req =>
         let adUnits := adUnits_of host req in
         if adUnits_isEmpty adUnits then invoke callback
         else
           measure_and_merge collectResponsiveStretchData
             addStretchDataToORTB2 adUnits
             (config_or moduleConfig _moduleConfig) ;;;
           invoke callback
     end)%act
    (invoke callback).

End WithHost.

End RevA.

(* ================================================================== *)
(** * The full-geometry revision (lines 353-698) *)
(* ================================================================== *)

Module RevB.

Section WithHost.

Variable host : Host.t.

(** Lines 387-445. *)
Definition calculateAdSlotSpace (element : option Element)
  : JS.outcome (option JS.value) :=
  match element with
  | None => JS.Returns None
  | Some el =>
      JS.try_catch
        (rect <- getBoundingClientRect el ;;
         parentRect <-
           match parentElement el with
           | Some parent =>
               (r <- getBoundingClientRect parent ;; JS.Returns (Some r))
           | None => JS.Returns None
           end ;;
         let viewportSize := Host.viewportSize host in
         let vw := Viewport.width viewportSize in
         let vh := Viewport.height viewportSize in
         let w := DOMRect.width rect in
         let h := DOMRect.height rect in
         let availableSpace :=
           JS.VObj
             [ ("width", JS.VNum (JS.Math_round w));
               ("height", JS.VNum (JS.Math_round h));
               ("top", JS.VNum (JS.Math_round (DOMRect.top rect)));
               ("left", JS.VNum (JS.Math_round (DOMRect.left rect)));
               ("right",
                JS.VNum (JS.Math_round (JS.sub vw (DOMRect.right rect))));
               ("bottom",
                JS.VNum (JS.Math_round (JS.sub vh (DOMRect.bottom rect))));
               ("maxWidth", JS.VNum (JS.Math_round vw));
               ("maxHeight", JS.VNum (JS.Math_round vh));
               ("stretchLeft", JS.VNum (JS.Math_round (DOMRect.left rect)));
               ("stretchRight",
                JS.VNum (JS.Math_round (JS.sub vw (DOMRect.right rect))));
               ("stretchUp", JS.VNum (JS.Math_round (DOMRect.top rect)));
               ("stretchDown",
                JS.VNum (JS.Math_round (JS.sub vh (DOMRect.bottom rect))));
               ("totalAvailableWidth",
                JS.VNum
                  (JS.Math_round
                     (JS.add (JS.add w (DOMRect.left rect))
                        (JS.sub vw (DOMRect.right rect)))));
               ("totalAvailableHeight",
                JS.VNum
                  (JS.Math_round
                     (JS.add (JS.add h (DOMRect.top rect))
                        (JS.sub vh (DOMRect.bottom rect)))));
               ("viewportWidth", JS.VNum (JS.Math_round vw));
               ("viewportHeight", JS.VNum (JS.Math_round vh));
               ("isVisible",
                JS.VBool
                  (JS.gt w (JS.of_Z 0) && JS.gt h (JS.of_Z 0)
                   && JS.gt (DOMRect.bottom rect) (JS.of_Z 0)
                   && JS.gt (DOMRect.right rect) (JS.of_Z 0)
                   && JS.lt (DOMRect.top rect) vh
                   && JS.lt (DOMRect.left rect) vw));
               ("viewportWidthPercentage",
                JS.VNum
                  (JS.Math_round (JS.mul (JS.div w vw) (JS.of_Z 100))));
               ("viewportHeightPercentage",
                JS.VNum
                  (JS.Math_round (JS.mul (JS.div h vh) (JS.of_Z 100))));
               ("parentWidth",
                match parentRect with
                | Some r => JS.VNum (JS.Math_round (DOMRect.width r))
                | None => JS.VNull
                end);
               ("parentHeight",
                match parentRect with
                | Some r => JS.VNum (JS.Math_round (DOMRect.height r))
                | None => JS.VNull
                end) ] in
         JS.Returns (Some availableSpace))%js
        (JS.Returns None)
  end.

(** Lines 483-505. *)
Definition collectResponsiveStretchData (adUnits : option AdUnits)
  : JS.outcome JS.obj :=
  collect (Host.document host) calculateAdSlotSpace adUnits.

(** Lines 524-528 and 544-548. *)
Definition responsiveStretch (stretchData : JS.obj) : JS.value :=
  JS.VObj
    [("viewport", viewport_value (Host.viewportSize host));
     ("adUnits", JS.VObj stretchData);
     ("timestamp", JS.VNum (JS.of_Z (Host.now host)))].

(** Lines 567-573. *)
Definition impData (stretchInfo : JS.value) : JS.value :=
  JS.VObj
    [("ext", JS.VObj [("data", JS.VObj [("responsiveStretch", stretchInfo)])])].

(** Lines 513-583; the result is the request after the call and whether the
    call returned or threw. *)
Definition addStretchDataToORTB2 (reqBidsConfigObj : ReqBidsConfig.t)
  (stretchData : JS.obj) (moduleConfig : ModuleConfig.t)
  : JS.outcome unit * ReqBidsConfig.t :=
  addStretchData (responsiveStretch stretchData) impData stretchData
    moduleConfig reqBidsConfigObj.

(** Lines 623-656: the measurement is deferred to a timer. *)
Definition getBidRequestData (_moduleConfig : ModuleConfig.t)
  (callback : Callback) (moduleConfig : option ModuleConfig.t)
  : JS.action World.t unit :=
  JS.attempt
    (w <~ JS.read ;;
     match World.request w with
     | None => JS.throw
     | Some req =>
         let adUnits := adUnits_of host req in
         if adUnits_isEmpty adUnits then invoke callback
         else setTimeout (DeferredMeasure adUnits callback moduleConfig)
     end)%act
    (invoke callback).

(** The body of the timer, lines 636-651.  An exception that leaves it is
    not caught by the [try] around [setTimeout]. *)
Definition run_task (_moduleConfig : ModuleConfig.t) (task : Task)
  : JS.action World.t unit :=
  match task with
  | DeferredMeasure adUnits callback moduleConfig =>
      (measure_and_merge collectResponsiveStretchData addStretchDataToORTB2
         adUnits (config_or moduleConfig _moduleConfig) ;;;
       invoke callback)%act
  end.

(** The host runs the pending timers, in the order they were set. *)
Definition run_timers (_moduleConfig : ModuleConfig.t) (w : World.t)
  : World.t :=
  fold_left (fun w task => snd (run_task _moduleConfig task w))
    (World.timers w)
    (World.make (World.request w) (World.calls w) []).

End WithHost.

End RevB.

(* ================================================================== *)
(** * Vocabulary of the statements, and concrete inputs *)
(* ================================================================== *)

Definition box_C1 : DOMRect.t :=
  DOMRect.make (JS.of_Z 300) (JS.of_Z 250) (JS.of_Z 100) (JS.of_Z 50)
    (JS.of_Z 350) (JS.of_Z 350).

Definition viewport_C1 : Viewport.t :=
  Viewport.make (JS.of_Z 1920) (JS.of_Z 1080).

Definition empty_document : Document.t :=
  Document.make (fun _ => JS.Returns None) (fun _ => JS.Returns None).

Definition host_C1 : Host.t :=
  Host.make empty_document viewport_C1 1640995200000 None.

Definition static_style : Style.t := Style.make "block" "static".

(** The element of the provider's unit test: the slot and its 1200 x 800
    container. *)
Definition parent_C1 : Element :=
  mkElement
    (JS.Returns
       (DOMRect.make (JS.of_Z 1200) (JS.of_Z 800) (JS.of_Z 0) (JS.of_Z 0)
          (JS.of_Z 1200) (JS.of_Z 800)))
    (JS.Returns static_style) true None.

Definition element_C1 : Element :=
  mkElement (JS.Returns box_C1) (JS.Returns static_style) false
    (Some parent_C1).

(** The rectangle of the parent, when there is one, can be read. *)
Definition parent_readable (el : Element) : Prop :=
  forall p, parentElement el = Some p ->
            exists r, getBoundingClientRect p = JS.Returns r.

(** A field of the measurement of an element; [undefined] when there is no
    measurement. *)
Definition measured (host : Host.t) (el : Element) (field : string)
  : JS.value :=
  match RevB.calculateAdSlotSpace host (Some el) with
  | JS.Returns (Some m) => JS.member m field
  | _ => JS.VUndefined
  end.

(** A rectangle of finite coordinates. *)
Definition finite_rect (w h t l r b : Q) : DOMRect.t :=
  DOMRect.make (JS.Fin w) (JS.Fin h) (JS.Fin t) (JS.Fin l) (JS.Fin r)
    (JS.Fin b).

Definition host_with_viewport (vw vh : JS.num) : Host.t :=
  Host.make empty_document (Viewport.make vw vh) 1640995200000 None.

Definition slot_with_rect (rect : DOMRect.t) : Element :=
  mkElement (JS.Returns rect) (JS.Returns static_style) false None.

(** What [width / 0 * 100] rounds to. *)
Definition percentage_over_zero (w : Q) : JS.num :=
  match Qcompare w 0 with
  | Eq => JS.NaN
  | Lt => JS.NInf
  | Gt => JS.PInf
  end.

Definition unreadable_slot : Element :=
  mkElement JS.Throws (JS.Returns static_style) false (Some parent_C1).

Definition document_C5 : Document.t :=
  Document.make
    (fun id =>
       if String.eqb id "slot-1" then JS.Returns (Some unreadable_slot)
       else if String.eqb id "slot-2" then JS.Returns (Some element_C1)
       else JS.Returns None)
    (fun _ => JS.Throws).

Definition host_C5 : Host.t :=
  Host.make document_C5 viewport_C1 1640995200000 None.

Definition adUnit_of_code (code : string) : AdUnit.t :=
  AdUnit.make (Some code) JS.VUndefined [].

(** The measurement of the slot of C1. *)
Definition measurement_C1 : JS.value :=
  Eval vm_compute in
    match RevB.calculateAdSlotSpace host_C1 (Some element_C1) with
    | JS.Returns (Some m) => m
    | _ => JS.VUndefined
    end.

(** The elements the loop of [getMaxAvailableWidth] visits from [e]: [e]
    itself and its ancestors, up to and excluding [document.body]. *)
Fixpoint walked (e : Element) : list Element :=
  match e with
  | mkElement _ _ isBody parent =>
      if isBody then []
      else e :: match parent with
                | Some p => walked p
                | None => []
                end
  end.

(** The ancestors of an element, up to and excluding [document.body]. *)
Definition ancestors (el : Element) : list Element :=
  match parentElement el with
  | Some p => walked p
  | None => []
  end.

(** Neither [display: contents] nor [position: absolute]. *)
Definition in_flow (s : Style.t) : bool :=
  negb (String.eqb (Style.display s) "contents")
  && negb (String.eqb (Style.position s) "absolute").

(** The width an element contributes: its own when it is in flow. *)
Definition constraint (e : Element) : list JS.num :=
  match getComputedStyle e, getBoundingClientRect e with
  | JS.Returns s, JS.Returns r => if in_flow s then [DOMRect.width r] else []
  | _, _ => []
  end.

Definition constraints (els : list Element) : list JS.num :=
  flat_map constraint els.

(** Style and rectangle can be read, and the width is a number. *)
Definition readable (e : Element) : Prop :=
  exists s r,
    getComputedStyle e = JS.Returns s
    /\ getBoundingClientRect e = JS.Returns r
    /\ DOMRect.width r <> JS.NaN.

(** [r] is the least of [ws], or unbounded when nothing is below it. *)
Definition is_minimum_of (r : JS.num) (ws : list JS.num) : Prop :=
  (r = JS.PInf \/ In r ws) /\ (forall w, In w ws -> JS.le r w = true).

Definition rect_of_width (w : JS.num) : DOMRect.t :=
  DOMRect.make w (JS.of_Z 250) (JS.of_Z 0) (JS.of_Z 0) w (JS.of_Z 250).

Definition document_body : Element :=
  mkElement (JS.Returns (rect_of_width (JS.of_Z 1920)))
    (JS.Returns static_style) true None.

Definition absolute_style : Style.t := Style.make "block" "absolute".

(** A slot, its parent and its grandparent below [document.body]; the
    parent is absolutely positioned. *)
Definition chain3 (slot middle outer : JS.num) : Element :=
  mkElement (JS.Returns (rect_of_width slot)) (JS.Returns static_style) false
    (Some
       (mkElement (JS.Returns (rect_of_width middle))
          (JS.Returns absolute_style) false
          (Some
             (mkElement (JS.Returns (rect_of_width outer))
                (JS.Returns static_style) false (Some document_body))))).

(** A slot 300 wide in a container 1200 wide, itself in [document.body]. *)
Definition slot_in_container : Element :=
  mkElement (JS.Returns (rect_of_width (JS.of_Z 300)))
    (JS.Returns static_style) false
    (Some
       (mkElement (JS.Returns (rect_of_width (JS.of_Z 1200)))
          (JS.Returns static_style) false (Some document_body))).

(** The global fragment and the bidder fragment of a request. *)
Definition global_fragment (req : ReqBidsConfig.t) : option JS.value :=
  option_map Fragments.global (ReqBidsConfig.ortb2Fragments req).

Definition bidder_fragment (req : ReqBidsConfig.t) : option JS.value :=
  option_map Fragments.bidder (ReqBidsConfig.ortb2Fragments req).

Definition config_appnexus : ModuleConfig.t :=
  ModuleConfig.make
    (Some (Params.make (BiddersArray ["appnexus"]) (JS.VBool true)
             (JS.VBool true))).

Definition request_C10 : ReqBidsConfig.t :=
  ReqBidsConfig.make (Some (Fragments.make (JS.VObj []) (JS.VObj [])))
    (Some [Some (AdUnit.make (Some "slot-2") (JS.VObj []) [])]).

Definition stretchData_C10 : JS.obj := [("slot-2", measurement_C1)].

(** A callback that throws the first time it is invoked. *)
Definition throws_once : Callback := fun n => Nat.eqb n 0.

Definition request_without_adUnits : ReqBidsConfig.t :=
  ReqBidsConfig.make (Some (Fragments.make (JS.VObj []) (JS.VObj [])))
    (Some []).

Definition request_slot_2 : ReqBidsConfig.t :=
  ReqBidsConfig.make (Some (Fragments.make (JS.VObj []) (JS.VObj [])))
    (Some [Some (adUnit_of_code "slot-2")]).

Definition world_of (req : ReqBidsConfig.t) : World.t :=
  World.make (Some req) 0 [].

Definition empty_config : ModuleConfig.t := ModuleConfig.make None.

(** No key twice. *)
Fixpoint distinct (l : list string) : bool :=
  match l with
  | [] => true
  | k :: rest => negb (existsb (String.eqb k) rest) && distinct rest
  end.

(** A value as the provider builds them: objects without a repeated key,
    nested at will, whose leaves are neither objects nor arrays.  A
    measurement, a map of measurements and the payloads made of them are
    of this kind. *)
Fixpoint is_plain (v : JS.value) : bool :=
  match v with
  | JS.VObj fields =>
      distinct (map fst fields)
      && (fix all (l : list (string * JS.value)) : bool :=
            match l with
            | [] => true
            | (_, x) :: rest => is_plain x && all rest
            end) fields
  | JS.VArr _ => false
  | _ => true
  end.

(** Two values of the same keys, in the same order, down to their leaves. *)
Fixpoint same_shape (a b : JS.value) : bool :=
  match a, b with
  | JS.VObj fa, JS.VObj fb =>
      (fix all2 (la lb : list (string * JS.value)) : bool :=
         match la, lb with
         | [], [] => true
         | (ka, xa) :: ra, (kb, xb) :: rb =>
             String.eqb ka kb && same_shape xa xb && all2 ra rb
         | _, _ => false
         end) fa fb
  | JS.VObj _, _ | _, JS.VObj _ => false
  | JS.VArr _, _ | _, JS.VArr _ => false
  | _, _ => true
  end.

(** The value [merge_entry] leaves at a key of the target that held [old]. *)
Definition entry_value (recur : JS.value -> JS.value) (val old : JS.value)
  : JS.value :=
  match val with
  | JS.VObj _ => recur (if JS.truthy old then old else JS.VObj [])
  | JS.VArr items =>
      match old with
      | JS.VArr held => JS.VArr (Utils.push_new items held)
      | _ => JS.VArr items
      end
  | _ => val
  end.

(** [{k1: {k2: ... leaf}}] *)
Fixpoint spine (path : list string) (leaf : JS.value) : JS.value :=
  match path with
  | [] => leaf
  | k :: rest => JS.VObj [(k, spine rest leaf)]
  end.

(** The path [p] leaves the path [w] at some key: neither is a prefix of the
    other. *)
Fixpoint diverges (p w : list string) : bool :=
  match p, w with
  | k :: p', k' :: w' => if String.eqb k k' then diverges p' w' else true
  | _, _ => false
  end.

(** The path [p] leaves the source [s] at a key [s] does not have. *)
Fixpoint misses (p : list string) (s : JS.value) : bool :=
  match p, s with
  | k :: p', JS.VObj fields =>
      match JS.get k fields with
      | None => true
      | Some v =>
          distinct (map fst fields) && JS.isPlainObject v && misses p' v
      end
  | _, _ => false
  end.

Definition scope_path : list string :=
  ["site"; "ext"; "data"; "responsiveStretch"].

Definition imp_path : list string := ["ext"; "data"; "responsiveStretch"].

(** What the impression step makes of the ad units of the request. *)
Definition merged_units (imp : JS.value -> JS.value) (sd : JS.obj)
  (au : option AdUnits) : JS.outcome unit * option AdUnits :=
  match au with
  | None => (JS.Returns tt, None)
  | Some l => let (o, l') := merge_imps imp sd l in (o, Some l')
  end.

(** Reading a fragment of the request along a path. *)
Definition read_fragment (fragment : option JS.value) (q : list string)
  : option JS.value :=
  match fragment with
  | Some v => JS.get_path q v
  | None => None
  end.

(** The path of the map of measurements in the global scope. *)
Definition adUnits_path : list string := (scope_path ++ ["adUnits"])%list.

Definition later_host (host : Host.t) : Host.t :=
  Host.make (Host.document host) (Host.viewportSize host)
    (Host.now host + 250) (Host.globalAdUnits host).

Definition request_C3 : ReqBidsConfig.t :=
  ReqBidsConfig.make
    (Some
       (Fragments.make
          (JS.VObj [("site", JS.VObj [("page", JS.VStr "index.html")])])
          (JS.VObj [])))
    (Some [Some (AdUnit.make (Some "slot-2") JS.VUndefined
                   [("mediaTypes", JS.VObj [])])]).

(** The path the width-only revision writes besides the scope paths. *)
Definition wmax_path : list string := ["banner"; "wmax"].

(** An ad unit keeps its [code], its other properties and every path of its
    [ortb2Imp] that leaves the written ones. *)
Definition unit_kept (written : list (list string))
  (before after : option AdUnit.t) : Prop :=
  match before, after with
  | None, None => True
  | Some u, Some u' =>
      AdUnit.code u' = AdUnit.code u
      /\ AdUnit.others u' = AdUnit.others u
      /\ (forall q,
            (forall w, In w written -> diverges q w = true) ->
            JS.get_path q (AdUnit.ortb2Imp u')
            = JS.get_path q (AdUnit.ortb2Imp u))
  | _, _ => False
  end.

Definition units_kept (written : list (list string))
  (before after : option AdUnits) : Prop :=
  match before, after with
  | None, None => True
  | Some l, Some l' => Forall2 (unit_kept written) l l'
  | _, _ => False
  end.

(** The measurement the width-only revision takes of the slot 300 wide in
    its container 1200 wide. *)
Definition measurement_A : JS.value :=
  Eval vm_compute in
    match RevA.calculateAdSlotSpace host_C1 (Some slot_in_container) with
    | JS.Returns (Some m) => m
    | _ => JS.VUndefined
    end.

Definition stretchData_A : JS.obj := [("slot-2", measurement_A)].

Definition adUnits_after (r : JS.outcome unit * ReqBidsConfig.t)
  : option AdUnits :=
  ReqBidsConfig.adUnits (snd r).

Definition request_C9 : ReqBidsConfig.t :=
  ReqBidsConfig.make
    (Some
       (Fragments.make
          (JS.VObj [("site", JS.VObj [("page", JS.VStr "index.html")])])
          (JS.VObj [("rubicon", JS.VObj [("user", JS.VObj [])])])))
    (Some [Some (AdUnit.make (Some "slot-2")
                   (JS.VObj [("ext", JS.VObj [("gpid", JS.VStr "/1/slot")])])
                   [("mediaTypes", JS.VObj [])])]).

(** The fixtures of the unit tests of [addStretchDataToORTB2] (lines
    883-904). *)
Definition test_request : ReqBidsConfig.t :=
  ReqBidsConfig.make (Some (Fragments.make (JS.VObj []) (JS.VObj [])))
    (Some [Some (AdUnit.make (Some "ad-unit-1") (JS.VObj []) [])]).

Definition test_stretchData : JS.obj :=
  [("ad-unit-1",
    JS.VObj [("width", JS.VNum (JS.of_Z 300));
             ("height", JS.VNum (JS.of_Z 250))])].

Definition test_config (bidders : list string) (impLevel : bool)
  : ModuleConfig.t :=
  ModuleConfig.make
    (Some (Params.make (BiddersArray bidders) (JS.VBool true)
             (JS.VBool impLevel))).

(** [adUnits[0].ortb2Imp] of a request. *)
Definition first_ortb2Imp (req : ReqBidsConfig.t) : option JS.value :=
  match ReqBidsConfig.adUnits req with
  | Some (Some adUnit :: _) => Some (AdUnit.ortb2Imp adUnit)
  | _ => None
  end.

(** A value that is an integer, a boolean or [null]. *)
Definition integral (v : JS.value) : Prop :=
  match v with
  | JS.VNum n => exists z, n = JS.of_Z z
  | JS.VBool _ | JS.VNull => True
  | _ => False
  end.

(** The rectangle of the parent, when there is one, can be read and has a
    finite width and height. *)
Definition parent_finite (el : Element) : Prop :=
  forall p, parentElement el = Some p ->
            exists r, getBoundingClientRect p = JS.Returns r
                      /\ JS.isFinite (DOMRect.width r) = true
                      /\ JS.isFinite (DOMRect.height r) = true.

(** A lookup that throws or finds nothing. *)
Definition gives_up (s : JS.outcome (option Element)) : Prop :=
  s = JS.Throws \/ s = JS.Returns None.

(** The style or the rectangle of an element cannot be read. *)
Definition unreadable (e : Element) : Prop :=
  getComputedStyle e = JS.Throws \/ getBoundingClientRect e = JS.Throws.

(** The chain of an element with [document.body] replaced by a node that
    has no parent and whose layout cannot be read. *)
Fixpoint cut_at_body (e : Element) : Element :=
  match e with
  | mkElement rect style isBody parent =>
      if isBody then mkElement JS.Throws JS.Throws true None
      else mkElement rect style false
             match parent with
             | Some p => Some (cut_at_body p)
             | None => None
             end
  end.

(** A field of the measurement the width-only revision takes of an
    element. *)
Definition measured_A (host : Host.t) (el : Element) (field : string)
  : JS.value :=
  match RevA.calculateAdSlotSpace host (Some el) with
  | JS.Returns (Some m) => JS.member m field
  | _ => JS.VUndefined
  end.

(** A slot whose parent cannot be measured. *)
Definition chain_with_unreadable_parent : Element :=
  mkElement (JS.Returns (rect_of_width (JS.of_Z 300)))
    (JS.Returns static_style) false
    (Some (mkElement JS.Throws (JS.Returns static_style) false
             (Some document_body))).

(** The target of a merge has room along a path: walking the path, it
    reaches a key the target does not hold, or holds with a falsy value,
    after passing through objects only. *)
Fixpoint vacant (q : list string) (t : JS.value) : bool :=
  match q, t with
  | k :: q', JS.VObj fields =>
      match JS.get k fields with
      | None => true
      | Some old =>
          if JS.truthy old then JS.isPlainObject old && vacant q' old
          else true
      end
  | _, _ => false
  end.

(** The keys every object inherits from [Object.prototype], under which
    [stretchData[key]] is not [undefined] in a map that has no such key
    of its own. *)
Definition inherited (key : string) : bool :=
  existsb (String.eqb key)
    ["constructor"; "hasOwnProperty"; "isPrototypeOf";
     "propertyIsEnumerable"; "toLocaleString"; "toString"; "valueOf";
     "__proto__"; "__defineGetter__"; "__defineSetter__";
     "__lookupGetter__"; "__lookupSetter__"].

(** No ad unit is coded with an inherited key: the map of lines 107 and
    484 then holds each measurement as a property of its own, and the
    lookup of lines 186 and 565 reads the measurements the map holds and
    nothing else, as [merge_imp] does. *)
Definition own_codes (adUnits : AdUnits) : bool :=
  forallb
    (fun entry =>
       match entry with
       | Some adUnit => negb (inherited (code_key (AdUnit.code adUnit)))
       | None => true
       end)
    adUnits.

(** An ad unit after the impression step, against the unit before it:
    [code] and the other properties are kept; a unit without a measurement
    under its code is left as it is, and one with a measurement reads it
    back under [ext.data.responsiveStretch] when its [ortb2Imp] had room
    there. *)
Definition unit_served (sd : JS.obj) (before after : option AdUnit.t)
  : Prop :=
  match before, after with
  | Some u, Some u' =>
      let m := JS.prop sd (code_key (AdUnit.code u)) in
      AdUnit.code u' = AdUnit.code u
      /\ AdUnit.others u' = AdUnit.others u
      /\ (JS.truthy m = false -> u' = u)
      /\ (JS.truthy m = true ->
          vacant imp_path (JS.or_else (AdUnit.ortb2Imp u) (JS.VObj []))
          = true ->
          JS.get_path imp_path (AdUnit.ortb2Imp u') = Some m)
  | _, _ => False
  end.

(* ------------------------------------------------------------------ *)
(** ** [init] and the module configuration it keeps *)

(** The warnings [init] logs. *)
Inductive Warning : Type :=
| bidders_should_be_an_array
| global_should_be_a_boolean
| impLevel_should_be_a_boolean.

(** [v !== undefined && typeof v !== 'boolean'] *)
Definition defined_not_boolean (v : JS.value) : bool :=
  match v with
  | JS.VUndefined | JS.VBool _ => false
  | _ => true
  end.

(** Lines 591-614 (and 219-246, which check [adUnitLevel] as well, a
    parameter nothing reads): the value returned, the configuration kept in
    [_moduleConfig] and the warnings logged, in order. *)
Definition init (moduleConfig : option ModuleConfig.t)
  : bool * ModuleConfig.t * list Warning :=
  let _moduleConfig := config_or moduleConfig (ModuleConfig.make None) in
  let warnings :=
    match ModuleConfig.params _moduleConfig with
    | Some p =>
        ((if bidders_truthy (Params.bidders p)
             && negb (bidders_isArray (Params.bidders p))
          then [bidders_should_be_an_array] else [])
         ++ (if defined_not_boolean (Params.global p)
             then [global_should_be_a_boolean] else [])
         ++ (if defined_not_boolean (Params.impLevel p)
             then [impLevel_should_be_a_boolean] else []))%list
    | None => []
    end in
  (true, _moduleConfig, warnings).

(** The request a call of [getBidRequestData] leaves once the measurement
    has run, over the [collectResponsiveStretchData] and the
    [addStretchDataToORTB2] of the revision. *)
Definition request_after
  (collect : option AdUnits -> JS.outcome JS.obj)
  (add : ReqBidsConfig.t -> JS.obj -> ModuleConfig.t ->
         JS.outcome unit * ReqBidsConfig.t)
  (host : Host.t) (req : ReqBidsConfig.t) (moduleConfig : ModuleConfig.t)
  : ReqBidsConfig.t :=
  if adUnits_isEmpty (adUnits_of host req) then req
  else
    match collect (Some (adUnits_of host req)) with
    | JS.Returns stretchData =>
        if Utils.isEmpty (JS.VObj stretchData) then req
        else snd (add req stretchData moduleConfig)
    | JS.Throws => req
    end.

(** A callback that returns. *)
Definition returns : Callback := fun _ => false.

(** A request whose second ad unit is [null], on which the impression step
    throws. *)
Definition request_with_null_unit : ReqBidsConfig.t :=
  ReqBidsConfig.make (Some (Fragments.make (JS.VObj []) (JS.VObj [])))
    (Some [Some (adUnit_of_code "slot-2"); None]).

(* ================================================================== *)
(** * The resize function of the integration example
      ([integrationExamples/responsiveStretch/customResizeFn.js]) *)
(* ================================================================== *)

Module Resize.

(** The value of a property of an inline style: a text, or the text
    [v + 'px'] of line 10, kept as the value it is made of. *)
Inductive Css : Type :=
| Text (s : string)
| Px (v : JS.value).

(** The properties of [element.style] the function reads or writes. *)
Record InlineStyle : Type := mkStyle {
  width : Css;
  maxWidth : Css;
  boxSizing : Css;
  height : Css
}.

(** An ancestor of the frame: whether it is [document.body], and its inline
    style. *)
Record Node : Type := mkNode {
  isBody : bool;
  style : InlineStyle
}.

(** The frame: its [height] attribute and its inline style. *)
Record Frame : Type := mkFrame {
  heightAttribute : JS.value;
  frameStyle : InlineStyle
}.

(** The part of the document the function can touch: the frame ([None]
    when the caller passes [null]) and its ancestors, from
    [frame.parentElement] upwards; the last one has no [parentElement]. *)
Record Page : Type := mkPage {
  frame : option Frame;
  ancestors : list Node
}.

(** [scrollHeight], [scrollWidth] and [clientHeight] of
    [document.documentElement]. *)
Record Metrics : Type := mkMetrics {
  scrollHeight : Z;
  scrollWidth : Z;
  clientHeight : Z
}.

(** Lines 14-16 and 38-40. *)
Definition stretched (s : InlineStyle) : InlineStyle :=
  mkStyle (Text "100%") (Text "100%") (Text "border-box") (height s).

Definition stretch (node : Node) : Node :=
  mkNode (isBody node) (stretched (style node)).

(** Lines 60-62: the three properties are given their original values. *)
Definition restore (original : InlineStyle) (node : Node) : Node :=
  mkNode (isBody node)
    (mkStyle (width original) (maxWidth original) (boxSizing original)
       (height (style node))).

(** Lines 51-58. *)
Definition disrupted (original new : Metrics) : bool :=
  let heightChanged :=
    (Z.abs (scrollHeight new - scrollHeight original) >? 50)%Z in
  let widthOverflow :=
    (scrollWidth new >? scrollWidth original + 100)%Z in
  let viewportChanged :=
    (Z.abs (clientHeight new - clientHeight original) >? 50)%Z in
  heightChanged || widthOverflow || viewportChanged.

(** Lines 8-16: what the function does to the frame itself. *)
Definition style_frame (height : JS.value) (fr : Frame) : Frame :=
  let fr1 :=
    if JS.truthy height
    then mkFrame height
           (mkStyle (width (frameStyle fr)) (maxWidth (frameStyle fr))
              (boxSizing (frameStyle fr)) (Px height))
    else fr in
  mkFrame (heightAttribute fr1) (stretched (frameStyle fr1)).

Section WithLayout.

(** The layout of the browser: the metrics of the document for a state of
    the page. *)
Variable layout : Page -> Metrics.

(** The loop of lines 22-78, at [currentElement], the first of [rest];
    [below] are the ancestors already passed. *)
Fixpoint traverse (fr : Frame) (below rest : list Node) (depth : nat)
  : list Node :=
  match rest with
  | [] => below
  | currentElement :: above =>
      if isBody currentElement || negb (depth <? 10)%nat
      then (below ++ rest)%list
      else
        let original :=
          layout (mkPage (Some fr) (below ++ currentElement :: above)) in
        let originalStyle := style currentElement in
        let new :=
          layout (mkPage (Some fr) (below ++ stretch currentElement :: above))
        in
        if disrupted original new
        then (below ++ restore originalStyle (stretch currentElement)
                :: above)%list
        else traverse fr (below ++ [stretch currentElement]) above (S depth)
  end.

(** Lines 1-86; [width], [doc] and [bid] are not read. *)
Definition customResizeFn (height : JS.value) (page : Page) : Page :=
  match frame page with
  | None => page
  | Some fr =>
      let fr' := style_frame height fr in
      mkPage (Some fr') (traverse fr' [] (ancestors page) 0)
  end.

End WithLayout.

End Resize.

(** A layout where an element 100% wide adds 40 to the height of the
    document and 90 to its width. *)
Definition layout_growing (page : Resize.Page) : Resize.Metrics :=
  let n :=
    Z.of_nat
      (List.length
         (filter
            (fun node =>
               match Resize.width (Resize.style node) with
               | Resize.Text s => String.eqb s "100%"
               | Resize.Px _ => false
               end)
            (Resize.ancestors page))) in
  Resize.mkMetrics (2000 + 40 * n) (1280 + 90 * n) 800.

Definition plain_node (body : bool) : Resize.Node :=
  Resize.mkNode body
    (Resize.mkStyle (Resize.Text "300px") (Resize.Text "") (Resize.Text "")
       (Resize.Text "250px")).

(** A frame twelve elements below [document.body]. *)
Definition page_12 : Resize.Page :=
  Resize.mkPage
    (Some
       (Resize.mkFrame JS.VUndefined
          (Resize.mkStyle (Resize.Text "") (Resize.Text "") (Resize.Text "")
             (Resize.Text ""))))
    (repeat (plain_node false) 12 ++ [plain_node true])%list.

(* ================================================================== *)
(** * Properties *)
(* ================================================================== *)

(** The measurement of an element whose layout can be read, field by
    field. *)
Lemma calculateAdSlotSpace_readable host el rect :
  getBoundingClientRect el = JS.Returns rect ->
  parent_readable el ->
  exists m,
    RevB.calculateAdSlotSpace host (Some el)
    = JS.Returns (Some (JS.VObj m))
    /\ JS.get "stretchLeft" m
       = Some (JS.VNum (JS.Math_round (DOMRect.left rect)))
    /\ JS.get "stretchRight" m
       = Some (JS.VNum (JS.Math_round
                 (JS.sub (Viewport.width (Host.viewportSize host))
                    (DOMRect.right rect))))
    /\ JS.get "stretchUp" m = Some (JS.VNum (JS.Math_round (DOMRect.top rect)))
    /\ JS.get "stretchDown" m
       = Some (JS.VNum (JS.Math_round
                 (JS.sub (Viewport.height (Host.viewportSize host))
                    (DOMRect.bottom rect))))
    /\ JS.get "totalAvailableWidth" m
       = Some (JS.VNum (JS.Math_round
                 (JS.add (JS.add (DOMRect.width rect) (DOMRect.left rect))
                    (JS.sub (Viewport.width (Host.viewportSize host))
                       (DOMRect.right rect)))))
    /\ JS.get "totalAvailableHeight" m
       = Some (JS.VNum (JS.Math_round
                 (JS.add (JS.add (DOMRect.height rect) (DOMRect.top rect))
                    (JS.sub (Viewport.height (Host.viewportSize host))
                       (DOMRect.bottom rect)))))
    /\ JS.get "isVisible" m
       = Some (JS.VBool
                 (JS.gt (DOMRect.width rect) (JS.of_Z 0)
                  && JS.gt (DOMRect.height rect) (JS.of_Z 0)
                  && JS.gt (DOMRect.bottom rect) (JS.of_Z 0)
                  && JS.gt (DOMRect.right rect) (JS.of_Z 0)
                  && JS.lt (DOMRect.top rect)
                       (Viewport.height (Host.viewportSize host))
                  && JS.lt (DOMRect.left rect)
                       (Viewport.width (Host.viewportSize host))))
    /\ JS.get "viewportWidthPercentage" m
       = Some (JS.VNum (JS.Math_round
                 (JS.mul (JS.div (DOMRect.width rect)
                            (Viewport.width (Host.viewportSize host)))
                    (JS.of_Z 100))))
    /\ JS.get "viewportHeightPercentage" m
       = Some (JS.VNum (JS.Math_round
                 (JS.mul (JS.div (DOMRect.height rect)
                            (Viewport.height (Host.viewportSize host)))
                    (JS.of_Z 100))))
    /\ JS.get "stretchPotential" m = None.
Proof.
  intros Hrect Hparent. destruct el as [r s b p]. simpl in Hrect. subst r.
  unfold RevB.calculateAdSlotSpace.
  cbn [getBoundingClientRect parentElement JS.bind].
  destruct p as [p|].
  - destruct (Hparent p eq_refl) as [pr Hpr]. rewrite Hpr.
    cbn [JS.bind JS.try_catch]. eexists. split; [reflexivity|].
    repeat split; reflexivity.
  - cbn [JS.bind JS.try_catch]. eexists. split; [reflexivity|].
    repeat split; reflexivity.
Qed.

(** C1: the slot 300 x 250 at (50, 100) in a 1920 x 1080 viewport is
    measured with stretchLeft 50, stretchRight 1570, stretchUp 100,
    stretchDown 730, viewportWidthPercentage 16, viewportHeightPercentage 23
    and isVisible true. *)
Theorem C1_measurement_of_the_example_box :
  forall host el,
    Host.viewportSize host = viewport_C1 ->
    getBoundingClientRect el = JS.Returns box_C1 ->
    parent_readable el ->
    exists m,
      RevB.calculateAdSlotSpace host (Some el) = JS.Returns (Some m)
      /\ JS.member m "stretchLeft" = JS.VNum (JS.of_Z 50)
      /\ JS.member m "stretchRight" = JS.VNum (JS.of_Z 1570)
      /\ JS.member m "stretchUp" = JS.VNum (JS.of_Z 100)
      /\ JS.member m "stretchDown" = JS.VNum (JS.of_Z 730)
      /\ JS.member m "viewportWidthPercentage" = JS.VNum (JS.of_Z 16)
      /\ JS.member m "viewportHeightPercentage" = JS.VNum (JS.of_Z 23)
      /\ JS.member m "isVisible" = JS.VBool true.
Proof.
  intros host el Hvp Hrect Hparent.
  destruct (calculateAdSlotSpace_readable host Hrect Hparent)
    as (m & Hm & HL & HR & HU & HD & _ & _ & HV & HWP & HHP & _).
  exists (JS.VObj m). split; [exact Hm|].
  unfold JS.member, JS.prop.
  rewrite HL, HR, HU, HD, HV, HWP, HHP, Hvp.
  repeat split; reflexivity.
Qed.

Lemma C1_witness :
  exists m,
    RevB.calculateAdSlotSpace host_C1 (Some element_C1) = JS.Returns (Some m)
    /\ JS.member m "stretchLeft" = JS.VNum (JS.of_Z 50)
    /\ JS.member m "stretchRight" = JS.VNum (JS.of_Z 1570)
    /\ JS.member m "stretchUp" = JS.VNum (JS.of_Z 100)
    /\ JS.member m "stretchDown" = JS.VNum (JS.of_Z 730)
    /\ JS.member m "viewportWidthPercentage" = JS.VNum (JS.of_Z 16)
    /\ JS.member m "viewportHeightPercentage" = JS.VNum (JS.of_Z 23)
    /\ JS.member m "isVisible" = JS.VBool true.
Proof.
  apply (@C1_measurement_of_the_example_box host_C1 element_C1).
  - reflexivity.
  - reflexivity.
  - intros p Hp. simpl in Hp. injection Hp as <-. eexists. reflexivity.
Defined.

(* ------------------------------------------------------------------ *)
(** ** Rounding *)

Lemma Math_round_Qeq (x y : Q) :
  Qeq x y -> JS.Math_round (JS.Fin x) = JS.Math_round (JS.Fin y).
Proof.
  intros H. unfold JS.Math_round, JS.of_Z. do 2 f_equal.
  apply Qfloor_comp. rewrite H. reflexivity.
Qed.

Lemma Math_round_of_Z (z : Z) : JS.Math_round (JS.of_Z z) = JS.of_Z z.
Proof.
  unfold JS.Math_round, JS.of_Z. do 2 f_equal.
  assert (Hlo : (z <= Qfloor (inject_Z z + (1 # 2)))%Z).
  { rewrite <- (Qfloor_Z z) at 1. apply Qfloor_resp_le.
    rewrite <- (Qplus_0_r (inject_Z z)) at 1.
    apply Qplus_le_r. discriminate. }
  assert (Hhi : (Qfloor (inject_Z z + (1 # 2)) < z + 1)%Z).
  { rewrite Zlt_Qlt. eapply Qle_lt_trans; [apply Qfloor_le|].
    rewrite inject_Z_plus. apply Qplus_lt_r. reflexivity. }
  lia.
Qed.

(* ------------------------------------------------------------------ *)
(** ** Total available space *)

(** For a finite box whose width is [right - left] and whose height is
    [bottom - top], [totalAvailableWidth] is [Math.round(viewport.width)]
    and [totalAvailableHeight] is [Math.round(viewport.height)], wherever
    the box lies. *)
Lemma total_available_is_rounded_viewport :
  forall host el (w h t l r b vw vh : Q),
    Host.viewportSize host = Viewport.make (JS.Fin vw) (JS.Fin vh) ->
    getBoundingClientRect el = JS.Returns (finite_rect w h t l r b) ->
    parent_readable el ->
    Qeq w (r - l) ->
    Qeq h (b - t) ->
    measured host el "totalAvailableWidth"
    = JS.VNum (JS.Math_round (JS.Fin vw))
    /\ measured host el "totalAvailableHeight"
       = JS.VNum (JS.Math_round (JS.Fin vh)).
Proof.
  intros host el w h t l r b vw vh Hvp Hrect Hparent Hw Hh.
  destruct (calculateAdSlotSpace_readable host Hrect Hparent)
    as (m & Hm & _ & _ & _ & _ & HTW & HTH & _).
  unfold measured. rewrite Hm. unfold JS.member, JS.prop.
  rewrite HTW, HTH, Hvp. cbn [DOMRect.width DOMRect.height DOMRect.top
    DOMRect.left DOMRect.right DOMRect.bottom finite_rect Viewport.width
    Viewport.height JS.add JS.sub JS.neg].
  assert (EW : JS.Math_round (JS.Fin (w + l + (vw + - r)))
               = JS.Math_round (JS.Fin vw)).
  { apply Math_round_Qeq. rewrite Hw. ring. }
  assert (EH : JS.Math_round (JS.Fin (h + t + (vh + - b)))
               = JS.Math_round (JS.Fin vh)).
  { apply Math_round_Qeq. rewrite Hh. ring. }
  now rewrite EW, EH.
Qed.

(** C2: for a box inside the viewport, [totalAvailableWidth] is the width
    of the viewport and [totalAvailableHeight] its height, exactly.  The box
    is one [getBoundingClientRect] delivers, whose width is [right - left]
    and whose height is [bottom - top], with finite coordinates that need
    not be integers; the viewport is one [getViewportSize] delivers, a whole
    number of pixels each way. *)
Theorem C2_total_available_is_the_viewport :
  forall host el (w h t l r b : Q) (vw vh : Z),
    Host.viewportSize host = Viewport.make (JS.of_Z vw) (JS.of_Z vh) ->
    getBoundingClientRect el = JS.Returns (finite_rect w h t l r b) ->
    parent_readable el ->
    Qeq w (r - l) ->
    Qeq h (b - t) ->
    JS.le (JS.Fin r) (JS.of_Z vw) = true ->
    JS.le (JS.Fin b) (JS.of_Z vh) = true ->
    JS.ge (JS.Fin l) (JS.of_Z 0) = true ->
    JS.ge (JS.Fin t) (JS.of_Z 0) = true ->
    measured host el "totalAvailableWidth" = JS.VNum (JS.of_Z vw)
    /\ measured host el "totalAvailableHeight" = JS.VNum (JS.of_Z vh).
Proof.
  intros host el w h t l r b vw vh Hvp Hrect Hparent Hw Hh _ _ _ _.
  destruct (@total_available_is_rounded_viewport host el w h t l r b
              (inject_Z vw) (inject_Z vh) Hvp Hrect Hparent Hw Hh)
    as [HW HH].
  rewrite HW, HH. fold (JS.of_Z vw). fold (JS.of_Z vh).
  now rewrite !Math_round_of_Z.
Qed.

Lemma C2_witness :
  measured host_C1 element_C1 "totalAvailableWidth"
  = JS.VNum (JS.of_Z 1920)
  /\ measured host_C1 element_C1 "totalAvailableHeight"
     = JS.VNum (JS.of_Z 1080).
Proof.
  apply (@C2_total_available_is_the_viewport host_C1 element_C1
           300 250 100 50 350 350 1920 1080).
  - reflexivity.
  - reflexivity.
  - intros p Hp. simpl in Hp. injection Hp as <-. eexists. reflexivity.
  - reflexivity.
  - reflexivity.
  - reflexivity.
  - reflexivity.
  - reflexivity.
  - reflexivity.
Defined.

(** The same holds of a box that is not on whole pixels. *)
Example total_available_of_a_fractional_box :
  let rect := finite_rect (601 # 2) 250 (401 # 4) (101 # 2) 351 (1401 # 4) in
  let host := host_with_viewport (JS.of_Z 1920) (JS.of_Z 1080) in
  measured host (slot_with_rect rect) "totalAvailableWidth"
  = JS.VNum (JS.of_Z 1920)
  /\ measured host (slot_with_rect rect) "totalAvailableHeight"
     = JS.VNum (JS.of_Z 1080).
Proof. split; reflexivity. Qed.

(* ------------------------------------------------------------------ *)
(** ** Stretch potential *)

(** C7: the measurement the code builds has no [stretchPotential] field,
    neither on the element of the unit test that asks for it (lines 796-802)
    nor on any other element, in either revision. *)
Theorem C7_measurement_has_no_stretchPotential :
  measured host_C1 element_C1 "stretchPotential" = JS.VUndefined
  /\ measured host_C1 element_C1 "width" = JS.VNum (JS.of_Z 300)
  /\ (forall host element,
        match RevB.calculateAdSlotSpace host element with
        | JS.Returns (Some m) => JS.member m "stretchPotential" = JS.VUndefined
        | _ => True
        end)
  /\ (forall host element,
        match RevA.calculateAdSlotSpace host element with
        | JS.Returns (Some m) => JS.member m "stretchPotential" = JS.VUndefined
        | _ => True
        end).
Proof.
  split; [reflexivity|]. split; [reflexivity|]. split.
  - intros host [el|]; [|exact I].
    unfold RevB.calculateAdSlotSpace.
    destruct (getBoundingClientRect el) as [rect|]; [|exact I].
    destruct (parentElement el) as [p|]; cbn [JS.bind JS.try_catch].
    + destruct (getBoundingClientRect p); cbn [JS.bind JS.try_catch];
        [reflexivity|exact I].
    + reflexivity.
  - intros host [el|]; [|exact I].
    unfold RevA.calculateAdSlotSpace.
    destruct (getBoundingClientRect el) as [rect|]; [|exact I].
    cbn [JS.bind].
    destruct (RevA.getMaxAvailableWidth (Some el)); cbn [JS.bind JS.try_catch];
      [reflexivity|exact I].
Qed.

(* ------------------------------------------------------------------ *)
(** ** Percentages *)

(** C8, as amended: with a viewport dimension of zero no fallback is
    applied; the percentage of a finite size is [Infinity] for a positive
    size, [-Infinity] for a negative one and [NaN] for zero, none of which is
    finite.  With a non-zero finite viewport dimension the percentage of a
    finite size is an integer. *)
Theorem C8_percentage_of_a_zero_viewport :
  forall host el (w h t l r b vw vh : Q),
    Host.viewportSize host = Viewport.make (JS.Fin vw) (JS.Fin vh) ->
    getBoundingClientRect el = JS.Returns (finite_rect w h t l r b) ->
    parent_readable el ->
    (Qeq vw 0 ->
       measured host el "viewportWidthPercentage"
       = JS.VNum (percentage_over_zero w)
       /\ JS.isFinite (percentage_over_zero w) = false)
    /\ (Qeq vh 0 ->
          measured host el "viewportHeightPercentage"
          = JS.VNum (percentage_over_zero h)
          /\ JS.isFinite (percentage_over_zero h) = false)
    /\ (~ Qeq vw 0 ->
          exists z, measured host el "viewportWidthPercentage"
                    = JS.VNum (JS.of_Z z))
    /\ (~ Qeq vh 0 ->
          exists z, measured host el "viewportHeightPercentage"
                    = JS.VNum (JS.of_Z z)).
Proof.
  intros host el w h t l r b vw vh Hvp Hrect Hparent.
  destruct (calculateAdSlotSpace_readable host Hrect Hparent)
    as (m & Hm & _ & _ & _ & _ & _ & _ & _ & HWP & HHP & _).
  unfold measured. rewrite Hm. unfold JS.member, JS.prop.
  rewrite HWP, HHP, Hvp.
  cbn [DOMRect.width DOMRect.height finite_rect Viewport.width
       Viewport.height].
  assert (Z0 : forall x y : Q, Qeq y 0 ->
            JS.Math_round (JS.mul (JS.div (JS.Fin x) (JS.Fin y)) (JS.of_Z 100))
            = percentage_over_zero x
            /\ JS.isFinite (percentage_over_zero x) = false).
  { intros x y Hy. unfold JS.div, percentage_over_zero.
    rewrite (proj1 (Qeq_alt y 0) Hy).
    destruct (Qcompare x 0); split; reflexivity. }
  assert (NZ : forall x y : Q, ~ Qeq y 0 ->
            exists z,
              JS.Math_round
                (JS.mul (JS.div (JS.Fin x) (JS.Fin y)) (JS.of_Z 100))
              = JS.of_Z z).
  { intros x y Hy. unfold JS.div.
    destruct (Qcompare y 0) eqn:E.
    - exfalso. apply Hy. apply Qeq_alt. exact E.
    - eexists. reflexivity.
    - eexists. reflexivity. }
  split; [|split; [|split]].
  - intros H0. destruct (Z0 w vw H0) as [E1 E2]. now rewrite E1.
  - intros H0. destruct (Z0 h vh H0) as [E1 E2]. now rewrite E1.
  - intros H0. destruct (NZ w vw H0) as [z Hz]. exists z. now rewrite Hz.
  - intros H0. destruct (NZ h vh H0) as [z Hz]. exists z. now rewrite Hz.
Qed.

Lemma C8_witness :
  (Qeq 0 0 ->
     measured (host_with_viewport (JS.Fin 0) (JS.Fin 1080)) element_C1
       "viewportWidthPercentage"
     = JS.VNum (percentage_over_zero 300)
     /\ JS.isFinite (percentage_over_zero 300) = false)
  /\ (Qeq 1080 0 ->
        measured (host_with_viewport (JS.Fin 0) (JS.Fin 1080)) element_C1
          "viewportHeightPercentage"
        = JS.VNum (percentage_over_zero 250)
        /\ JS.isFinite (percentage_over_zero 250) = false)
  /\ (~ Qeq 0 0 ->
        exists z,
          measured (host_with_viewport (JS.Fin 0) (JS.Fin 1080)) element_C1
            "viewportWidthPercentage"
          = JS.VNum (JS.of_Z z))
  /\ (~ Qeq 1080 0 ->
        exists z,
          measured (host_with_viewport (JS.Fin 0) (JS.Fin 1080)) element_C1
            "viewportHeightPercentage"
          = JS.VNum (JS.of_Z z)).
Proof.
  apply (@C8_percentage_of_a_zero_viewport
           (host_with_viewport (JS.Fin 0) (JS.Fin 1080)) element_C1
           300 250 100 50 350 350 0 1080).
  - reflexivity.
  - reflexivity.
  - intros p Hp. simpl in Hp. injection Hp as <-. eexists. reflexivity.
Defined.

(** C8, as stated, fails: in a viewport of width zero the slot of C1 has a
    [viewportWidthPercentage] of [Infinity], and a slot of width zero has
    [NaN]. *)
Lemma C8_counterexample :
  measured (host_with_viewport (JS.of_Z 0) (JS.of_Z 1080)) element_C1
    "viewportWidthPercentage" = JS.VNum JS.PInf
  /\ measured (host_with_viewport (JS.of_Z 0) (JS.of_Z 1080))
       (slot_with_rect (finite_rect 0 250 100 50 50 350))
       "viewportWidthPercentage" = JS.VNum JS.NaN
  /\ JS.isFinite JS.PInf = false
  /\ JS.isFinite JS.NaN = false.
Proof. repeat split; reflexivity. Qed.

(* ------------------------------------------------------------------ *)
(** ** Failures while reading the layout *)

Lemma calculateAdSlotSpace_never_throws host element :
  exists r, RevB.calculateAdSlotSpace host element = JS.Returns r.
Proof.
  destruct element as [el|]; [|eexists; reflexivity].
  unfold RevB.calculateAdSlotSpace.
  destruct (getBoundingClientRect el) as [rect|];
    [|eexists; reflexivity].
  destruct (parentElement el) as [p|]; cbn [JS.bind JS.try_catch].
  - destruct (getBoundingClientRect p); cbn [JS.bind JS.try_catch];
      eexists; reflexivity.
  - eexists; reflexivity.
Qed.

Lemma get_set_same k v o : JS.get k (JS.set k v o) = Some v.
Proof.
  induction o as [|[k' v'] o IH]; simpl.
  - now rewrite String.eqb_refl.
  - destruct (String.eqb k k') eqn:E; simpl.
    + now rewrite String.eqb_refl.
    + now rewrite E.
Qed.

Lemma get_set_other k k' v o :
  k <> k' -> JS.get k (JS.set k' v o) = JS.get k o.
Proof.
  intros Hne. induction o as [|[k2 v2] o IH]; simpl.
  - apply String.eqb_neq in Hne. now rewrite Hne.
  - destruct (String.eqb k' k2) eqn:E; simpl.
    + apply String.eqb_eq in E. subst k2.
      apply String.eqb_neq in Hne. now rewrite Hne.
    + now rewrite IH.
Qed.

Section CollectFacts.

Variable document : Document.t.
Variable calc : option Element -> JS.outcome (option JS.value).
Hypothesis calc_returns : forall e, exists r, calc e = JS.Returns r.

Lemma collect_each_app l1 l2 acc :
  collect_each document calc (l1 ++ l2)%list acc
  = JS.bind (collect_each document calc l1 acc)
      (collect_each document calc l2).
Proof.
  revert acc. induction l1 as [|[u|] l1 IH]; intros acc; simpl.
  - reflexivity.
  - destruct (code_is_falsy (AdUnit.code u)); [apply IH|].
    destruct (calc (findAdSlotElement document (code_key (AdUnit.code u))))
      as [[d|]|]; simpl; [apply IH|apply IH|reflexivity].
  - reflexivity.
Qed.

(** Over ad units none of which is [null] the collection returns, and a
    measurement already recorded for a slot stays the measurement of that
    slot. *)
Lemma collect_each_keeps code el m units :
  findAdSlotElement document code = Some el ->
  calc (Some el) = JS.Returns (Some m) ->
  forall acc,
    exists sd,
      collect_each document calc (map Some units) acc = JS.Returns sd
      /\ (JS.get code acc = Some m -> JS.get code sd = Some m).
Proof.
  intros Hfind Hcalc. induction units as [|u units IH]; intros acc; simpl.
  - exists acc. split; [reflexivity|auto].
  - destruct (code_is_falsy (AdUnit.code u)); [apply IH|].
    destruct (calc_returns
                (findAdSlotElement document (code_key (AdUnit.code u))))
      as [r Hr].
    rewrite Hr. simpl. destruct r as [d|]; [|apply IH].
    destruct (IH (JS.set (code_key (AdUnit.code u)) d acc)) as (sd & Hsd & Hk).
    exists sd. split; [exact Hsd|]. intros Hacc. apply Hk.
    destruct (string_dec code (code_key (AdUnit.code u))) as [E|Hne].
    + rewrite <- E in Hr |- *. rewrite get_set_same.
      rewrite Hfind, Hcalc in Hr. congruence.
    + rewrite get_set_other by exact Hne. exact Hacc.
Qed.

Lemma collect_measures_slot code el m before adUnit after :
  AdUnit.code adUnit = Some code ->
  code <> "" ->
  findAdSlotElement document code = Some el ->
  calc (Some el) = JS.Returns (Some m) ->
  exists stretchData,
    collect document calc (Some (map Some (before ++ adUnit :: after)%list))
    = JS.Returns stretchData
    /\ JS.get code stretchData = Some m.
Proof.
  intros Hcode Hne Hfind Hcalc. unfold collect.
  rewrite map_app, collect_each_app.
  destruct (@collect_each_keeps code el m before Hfind Hcalc [])
    as (sd1 & H1 & _).
  rewrite H1. cbn [JS.bind map collect_each].
  rewrite Hcode. cbn [code_is_falsy code_key].
  apply String.eqb_neq in Hne. rewrite Hne.
  rewrite Hfind, Hcalc. cbn [JS.bind].
  destruct (@collect_each_keeps code el m after Hfind Hcalc (JS.set code m sd1))
    as (sd2 & H2 & Hk).
  exists sd2. split; [exact H2|]. apply Hk. apply get_set_same.
Qed.

End CollectFacts.

(** C5: [calculateAdSlotSpace(null)] returns [null]; the function never
    throws, and returns [null] when reading the rectangle of the element or
    of its parent throws; and in [collectResponsiveStretchData] a slot whose
    element is found and measured is recorded with that measurement whatever
    happens to the slots before and after it. *)
Theorem C5_layout_failures_are_contained :
  (forall host, RevB.calculateAdSlotSpace host None = JS.Returns None)
  /\ (forall host element,
        exists r, RevB.calculateAdSlotSpace host element = JS.Returns r)
  /\ (forall host el,
        getBoundingClientRect el = JS.Throws ->
        RevB.calculateAdSlotSpace host (Some el) = JS.Returns None)
  /\ (forall host el p,
        parentElement el = Some p ->
        getBoundingClientRect p = JS.Throws ->
        RevB.calculateAdSlotSpace host (Some el) = JS.Returns None)
  /\ (forall host code el m before adUnit after,
        AdUnit.code adUnit = Some code ->
        code <> "" ->
        findAdSlotElement (Host.document host) code = Some el ->
        RevB.calculateAdSlotSpace host (Some el) = JS.Returns (Some m) ->
        exists stretchData,
          RevB.collectResponsiveStretchData host
            (Some (map Some (before ++ adUnit :: after)%list))
          = JS.Returns stretchData
          /\ JS.get code stretchData = Some m).
Proof.
  split; [reflexivity|]. split; [apply calculateAdSlotSpace_never_throws|].
  split; [|split].
  - intros host el H. unfold RevB.calculateAdSlotSpace. now rewrite H.
  - intros host el p Hp H. unfold RevB.calculateAdSlotSpace.
    rewrite Hp, H. now destruct (getBoundingClientRect el).
  - intros host code el m before adUnit after Hcode Hne Hfind Hcalc.
    unfold RevB.collectResponsiveStretchData.
    eapply collect_measures_slot; eauto.
    apply calculateAdSlotSpace_never_throws.
Qed.

Lemma C5_witness :
  exists stretchData,
    RevB.collectResponsiveStretchData host_C5
      (Some (map Some ([adUnit_of_code "slot-1"]
                       ++ adUnit_of_code "slot-2" :: [])%list))
    = JS.Returns stretchData
    /\ JS.get "slot-2" stretchData = Some measurement_C1.
Proof.
  destruct C5_layout_failures_are_contained as (_ & _ & _ & _ & H).
  apply (H host_C5 "slot-2" element_C1 measurement_C1
           [adUnit_of_code "slot-1"] (adUnit_of_code "slot-2") []).
  - reflexivity.
  - discriminate.
  - reflexivity.
  - reflexivity.
Defined.

(** In the host of the witness the first slot cannot be read and is left
    out, the second one is measured. *)
Example collect_skips_unreadable_slot :
  RevB.collectResponsiveStretchData host_C5
    (Some [Some (adUnit_of_code "slot-1"); Some (adUnit_of_code "slot-2")])
  = JS.Returns [("slot-2", measurement_C1)].
Proof. reflexivity. Qed.

(* ------------------------------------------------------------------ *)
(** ** The order of numbers *)

Lemma le_refl_num a : a <> JS.NaN -> JS.le a a = true.
Proof.
  destruct a as [q| | |]; intros H; try reflexivity; [|congruence].
  simpl. now rewrite (proj1 (Qeq_alt q q) (Qeq_refl q)).
Qed.

Lemma le_trans_num a b c :
  JS.le a b = true -> JS.le b c = true -> JS.le a c = true.
Proof.
  destruct a as [x| | |], b as [y| | |], c as [z| | |]; simpl;
    try congruence; try reflexivity.
  intros H1 H2.
  destruct (Qcompare x y) eqn:E1; try discriminate;
  destruct (Qcompare y z) eqn:E2; try discriminate;
  destruct (Qcompare x z) eqn:E3; try reflexivity; exfalso;
  try apply Qeq_alt in E1; try apply Qeq_alt in E2;
  try apply Qlt_alt in E1; try apply Qlt_alt in E2;
  apply Qgt_alt in E3.
  - rewrite E1, E2 in E3. now apply (Qlt_irrefl z).
  - rewrite E1 in E3. apply (Qlt_irrefl y). now apply Qlt_trans with z.
  - rewrite <- E2 in E3. apply (Qlt_irrefl x). now apply Qlt_trans with y.
  - apply (Qlt_irrefl x). apply Qlt_trans with y; [exact E1|].
    now apply Qlt_trans with z.
Qed.

Lemma Math_min_not_NaN a b :
  a <> JS.NaN -> b <> JS.NaN -> JS.Math_min a b <> JS.NaN.
Proof.
  intros Ha Hb. unfold JS.Math_min.
  destruct a, b; try congruence; destruct (JS.lt _ _); congruence.
Qed.

Lemma Math_min_cases a b :
  a <> JS.NaN -> b <> JS.NaN -> JS.Math_min a b = a \/ JS.Math_min a b = b.
Proof.
  intros Ha Hb. unfold JS.Math_min.
  destruct a, b; try congruence; destruct (JS.lt _ _); auto.
Qed.

Lemma Math_min_le_l a b :
  a <> JS.NaN -> b <> JS.NaN -> JS.le (JS.Math_min a b) a = true.
Proof.
  intros Ha Hb. unfold JS.Math_min.
  destruct a as [x| | |], b as [y| | |]; try congruence; simpl;
    try reflexivity.
  - destruct (Qcompare y x) eqn:E; simpl.
    + now rewrite (proj1 (Qeq_alt x x) (Qeq_refl x)).
    + rewrite E. reflexivity.
    + now rewrite (proj1 (Qeq_alt x x) (Qeq_refl x)).
  - now rewrite (proj1 (Qeq_alt x x) (Qeq_refl x)).
Qed.

Lemma Math_min_le_r a b :
  a <> JS.NaN -> b <> JS.NaN -> JS.le (JS.Math_min a b) b = true.
Proof.
  intros Ha Hb. unfold JS.Math_min.
  destruct a as [x| | |], b as [y| | |]; try congruence; simpl;
    try reflexivity.
  - destruct (Qcompare y x) eqn:E; simpl.
    + rewrite <- Qcompare_antisym in E.
      destruct (Qcompare x y); simpl in E; try discriminate; reflexivity.
    + now rewrite (proj1 (Qeq_alt y y) (Qeq_refl y)).
    + rewrite <- Qcompare_antisym in E.
      destruct (Qcompare x y); simpl in E; try discriminate; reflexivity.
  - now rewrite (proj1 (Qeq_alt y y) (Qeq_refl y)).
Qed.

(* ------------------------------------------------------------------ *)
(** ** The walk up the ancestors *)

Lemma Element_induction (P : Element -> Prop) :
  (forall r s b p, (forall e, p = Some e -> P e) -> P (mkElement r s b p)) ->
  forall e, P e.
Proof.
  intros H. fix IH 1. intros [r s b [p|]]; apply H; intros e E.
  - injection E as <-. apply IH.
  - discriminate E.
Qed.

Lemma walk_spec e :
  forall bound,
    Forall readable (walked e) ->
    bound <> JS.NaN ->
    exists r,
      RevA.walk e bound = JS.Returns r
      /\ r <> JS.NaN
      /\ JS.le r bound = true
      /\ (r = bound \/ In r (constraints (walked e)))
      /\ (forall w, In w (constraints (walked e)) -> JS.le r w = true).
Proof.
  induction e as [rect style isBody parent IH] using Element_induction.
  intros bound Hread Hbound. cbn [RevA.walk walked] in *.
  destruct isBody.
  - exists bound. repeat split; auto using le_refl_num.
    all: try (intros w []).
  - inversion Hread as [|x l (s & r & Hs & Hr & Hw) Hrest]; subst.
    cbn [getComputedStyle getBoundingClientRect] in Hs, Hr. subst rect style.
    cbn [JS.bind]. fold (in_flow s).
    unfold constraints. cbn [flat_map]. fold (constraints).
    unfold constraint at 1. cbn [getComputedStyle getBoundingClientRect].
    set (bound' := if in_flow s then JS.Math_min bound (DOMRect.width r)
                   else bound).
    assert (Hb' : bound' <> JS.NaN).
    { unfold bound'. destruct (in_flow s); auto using Math_min_not_NaN. }
    assert (Hle : JS.le bound' bound = true).
    { unfold bound'. destruct (in_flow s);
        auto using Math_min_le_l, le_refl_num. }
    assert (Hin : bound' = bound
                  \/ (in_flow s = true /\ bound' = DOMRect.width r)).
    { unfold bound'. destruct (in_flow s); auto.
      destruct (Math_min_cases Hbound Hw); auto. }
    assert (Hlw : in_flow s = true -> JS.le bound' (DOMRect.width r) = true).
    { unfold bound'. intros ->. auto using Math_min_le_r. }
    assert (Tail : exists r0,
               match parent with
               | Some p => RevA.walk p bound'
               | None => JS.Returns bound'
               end = JS.Returns r0
               /\ r0 <> JS.NaN
               /\ JS.le r0 bound' = true
               /\ (r0 = bound'
                   \/ In r0 (constraints match parent with
                                         | Some p => walked p
                                         | None => []
                                         end))
               /\ (forall w,
                     In w (constraints match parent with
                                       | Some p => walked p
                                       | None => []
                                       end) -> JS.le r0 w = true)).
    { destruct parent as [p|].
      - apply (IH p eq_refl bound' Hrest Hb').
      - exists bound'. repeat split; auto using le_refl_num.
        all: try (intros w []). }
    destruct Tail as (r0 & Hwalk & Hr0 & Hr0le & Hr0in & Hr0all).
    exists r0. split; [exact Hwalk|]. split; [exact Hr0|].
    split; [eauto using le_trans_num|]. split.
    + destruct Hr0in as [->|Hin0].
      * destruct Hin as [->|[Hf ->]]; [now left|].
        right. rewrite Hf. apply in_or_app. left. now left.
      * right. apply in_or_app. now right.
    + intros w Hw0. apply in_app_or in Hw0. destruct Hw0 as [Hw0|Hw0].
      * unfold constraint in Hw0.
        cbn [getComputedStyle getBoundingClientRect] in Hw0.
        destruct (in_flow s) eqn:Hf; simpl in Hw0; [|contradiction].
        destruct Hw0 as [<-|[]]. eauto using le_trans_num.
      * auto.
Qed.

(** C6, as amended: over a chain whose layout can be read,
    [getMaxAvailableWidth] is the least width among the element itself and
    its ancestors below [document.body] that are neither [display: contents]
    nor absolutely positioned, and [Infinity] when there is none; from any
    bound the walk only lowers it; and with an absolutely positioned parent
    the result is the lesser of the widths of the slot and of the
    grandparent, whatever the width of the parent. *)
Theorem C6_maxAvailableWidth_is_least_width_on_the_walk :
  forall el,
    Forall readable (walked el) ->
    (exists r,
       RevA.getMaxAvailableWidth (Some el) = JS.Returns r
       /\ is_minimum_of r (constraints (walked el)))
    /\ (forall bound,
          bound <> JS.NaN ->
          exists r,
            RevA.walk el bound = JS.Returns r /\ JS.le r bound = true)
    /\ (forall slot middle outer : Q,
          RevA.getMaxAvailableWidth
            (Some (chain3 (JS.Fin slot) (JS.Fin middle) (JS.Fin outer)))
          = JS.Returns (JS.Math_min (JS.Fin slot) (JS.Fin outer))
          /\ JS.le (JS.Math_min (JS.Fin slot) (JS.Fin outer)) (JS.Fin outer)
             = true
          /\ (JS.le (JS.Fin outer) (JS.Fin slot) = true ->
              JS.le (JS.Fin outer) (JS.Math_min (JS.Fin slot) (JS.Fin outer))
              = true)).
Proof.
  intros el Hread. split; [|split].
  - destruct (@walk_spec el JS.PInf Hread) as (r & Hr & _ & _ & Hin & Hall);
      [discriminate|].
    exists r. split; [exact Hr|]. split; assumption.
  - intros bound Hb.
    destruct (@walk_spec el bound Hread Hb) as (r & Hr & _ & Hle & _).
    exists r. split; assumption.
  - intros slot middle outer. split; [reflexivity|]. split.
    + apply Math_min_le_r; discriminate.
    + intros Hle. destruct (@Math_min_cases (JS.Fin slot) (JS.Fin outer))
        as [-> | ->]; try discriminate; [exact Hle|].
      apply le_refl_num. discriminate.
Qed.

Lemma readable_chain3 (slot middle outer : Q) :
  Forall readable
    (walked (chain3 (JS.Fin slot) (JS.Fin middle) (JS.Fin outer))).
Proof.
  cbn [walked chain3 document_body].
  repeat constructor; (do 2 eexists; repeat split; [discriminate]).
Defined.

Lemma C6_witness :
  (exists r,
     RevA.getMaxAvailableWidth
       (Some (chain3 (JS.Fin 1000) (JS.Fin 200) (JS.Fin 800)))
     = JS.Returns r
     /\ is_minimum_of r
          (constraints
             (walked (chain3 (JS.Fin 1000) (JS.Fin 200) (JS.Fin 800)))))
  /\ RevA.getMaxAvailableWidth
       (Some (chain3 (JS.Fin 1000) (JS.Fin 200) (JS.Fin 800)))
     = JS.Returns (JS.Fin 800).
Proof.
  destruct (@C6_maxAvailableWidth_is_least_width_on_the_walk
              (chain3 (JS.Fin 1000) (JS.Fin 200) (JS.Fin 800))
              (readable_chain3 1000 200 800)) as (H1 & _ & H3).
  split; [exact H1|]. destruct (H3 1000 200 800) as (E & _). exact E.
Defined.

(** C6, as stated, fails: for a slot 300 wide in a container 1200 wide the
    only ancestor below [document.body] is the container, yet
    [getMaxAvailableWidth] is 300, the width of the slot itself. *)
Lemma C6_counterexample :
  RevA.getMaxAvailableWidth (Some slot_in_container)
  = JS.Returns (JS.of_Z 300)
  /\ constraints (ancestors slot_in_container) = [JS.of_Z 1200]
  /\ ~ is_minimum_of (JS.of_Z 300) (constraints (ancestors slot_in_container)).
Proof.
  split; [reflexivity|]. split; [reflexivity|].
  intros [[H|H] _]; [discriminate H|].
  cbn in H. destruct H as [H|[]]. discriminate H.
Qed.

(* ------------------------------------------------------------------ *)
(** ** Which scope is written *)

Lemma scopes_exclusive cfg :
  global_scope_fires cfg && bidder_scope_fires cfg = false.
Proof.
  unfold global_scope_fires, bidder_scope_fires.
  destruct (bidders_of cfg) as [[|c codes]|v]; simpl;
    destruct (globalEnabled cfg); rewrite ?andb_false_r; reflexivity.
Qed.

Lemma merge_impressions_fragments imp sd req :
  ReqBidsConfig.ortb2Fragments (snd (merge_impressions imp sd req))
  = ReqBidsConfig.ortb2Fragments req.
Proof.
  unfold merge_impressions. destruct (ReqBidsConfig.adUnits req) as [l|];
    [|reflexivity].
  destruct (merge_imps imp sd l). reflexivity.
Qed.

Section ScopeFrames.

Variable payload : JS.value.
Variable imp : JS.value -> JS.value.
Variable sd : JS.obj.
Variable cfg : ModuleConfig.t.

Lemma addStretchData_global_untouched req :
  global_scope_fires cfg = false ->
  global_fragment (snd (addStretchData payload imp sd cfg req))
  = global_fragment req.
Proof.
  intros Hg. unfold addStretchData, JS.seq, global_fragment. rewrite Hg.
  cbn [JS.ret].
  destruct (bidder_scope_fires cfg).
  - unfold merge_bidder at 1.
    destruct (ReqBidsConfig.ortb2Fragments req) as [f|] eqn:Ef.
    + destruct (impLevelEnabled cfg); cbn [JS.ret snd].
      * rewrite merge_impressions_fragments. reflexivity.
      * reflexivity.
    + cbn [snd]. now rewrite Ef.
  - cbn [JS.ret]. destruct (impLevelEnabled cfg); cbn [JS.ret snd].
    + now rewrite merge_impressions_fragments.
    + reflexivity.
Qed.

Lemma addStretchData_bidder_untouched req :
  bidder_scope_fires cfg = false ->
  bidder_fragment (snd (addStretchData payload imp sd cfg req))
  = bidder_fragment req.
Proof.
  intros Hb. unfold addStretchData, JS.seq, bidder_fragment. rewrite Hb.
  cbn [JS.ret].
  destruct (global_scope_fires cfg).
  - unfold merge_global at 1.
    destruct (ReqBidsConfig.ortb2Fragments req) as [f|] eqn:Ef.
    + destruct (impLevelEnabled cfg); cbn [JS.ret snd].
      * rewrite merge_impressions_fragments. reflexivity.
      * reflexivity.
    + cbn [snd]. now rewrite Ef.
  - cbn [JS.ret]. destruct (impLevelEnabled cfg); cbn [JS.ret snd].
    + now rewrite merge_impressions_fragments.
    + reflexivity.
Qed.

End ScopeFrames.

Lemma bidder_scope_fires_iff cfg :
  bidder_scope_fires cfg = true
  <-> exists c codes, bidders_of cfg = BiddersArray (c :: codes).
Proof.
  unfold bidder_scope_fires. split.
  - destruct (bidders_of cfg) as [[|c codes]|v]; simpl; try discriminate.
    intros _. now exists c, codes.
  - intros (c & codes & ->). reflexivity.
Qed.

Lemma global_scope_fires_iff cfg :
  global_scope_fires cfg = true
  <-> globalEnabled cfg = true
      /\ (bidders_of cfg = BiddersArray []
          \/ exists v, bidders_of cfg = BiddersOther v).
Proof.
  unfold global_scope_fires. split.
  - destruct (globalEnabled cfg); [|discriminate].
    destruct (bidders_of cfg) as [[|c codes]|v]; simpl; try discriminate;
      intros _; split; eauto.
  - intros (-> & [-> | (v & ->)]); simpl; [reflexivity|].
    now rewrite orb_true_r.
Qed.

(** C10: in one call of [addStretchDataToORTB2] the global merge and the
    bidder merge never both run.  The global one runs only when [bidders] is
    an empty array or is not an array (and the global flag is not [false]);
    the bidder one runs only when [bidders] is a non-empty array.  So with a
    non-empty array the global fragment is left as it was, whatever the
    global flag, and otherwise the bidder fragment is left as it was; in
    both revisions. *)
Theorem C10_global_and_bidder_scopes_are_exclusive :
  forall moduleConfig,
    global_scope_fires moduleConfig && bidder_scope_fires moduleConfig = false
    /\ (global_scope_fires moduleConfig = true
        <-> globalEnabled moduleConfig = true
            /\ (bidders_of moduleConfig = BiddersArray []
                \/ exists v, bidders_of moduleConfig = BiddersOther v))
    /\ (bidder_scope_fires moduleConfig = true
        <-> exists c codes, bidders_of moduleConfig = BiddersArray (c :: codes))
    /\ (forall host req stretchData,
          bidder_scope_fires moduleConfig = true ->
          global_fragment
            (snd (RevB.addStretchDataToORTB2 host req stretchData moduleConfig))
          = global_fragment req
          /\ global_fragment
               (snd (RevA.addStretchDataToORTB2 host req stretchData
                       moduleConfig))
             = global_fragment req)
    /\ (forall host req stretchData,
          bidder_scope_fires moduleConfig = false ->
          bidder_fragment
            (snd (RevB.addStretchDataToORTB2 host req stretchData moduleConfig))
          = bidder_fragment req
          /\ bidder_fragment
               (snd (RevA.addStretchDataToORTB2 host req stretchData
                       moduleConfig))
             = bidder_fragment req).
Proof.
  intros cfg. split; [apply scopes_exclusive|].
  split; [apply global_scope_fires_iff|].
  split; [apply bidder_scope_fires_iff|]. split.
  - intros host req sd Hb.
    assert (Hg : global_scope_fires cfg = false).
    { pose proof (scopes_exclusive cfg) as H. rewrite Hb in H.
      now rewrite andb_true_r in H. }
    split; apply addStretchData_global_untouched; exact Hg.
  - intros host req sd Hb.
    split; apply addStretchData_bidder_untouched; exact Hb.
Qed.

Lemma C10_witness :
  global_fragment
    (snd (RevB.addStretchDataToORTB2 host_C1 request_C10 stretchData_C10
            config_appnexus))
  = global_fragment request_C10
  /\ global_fragment
       (snd (RevA.addStretchDataToORTB2 host_C1 request_C10 stretchData_C10
               config_appnexus))
     = global_fragment request_C10.
Proof.
  destruct (C10_global_and_bidder_scopes_are_exclusive config_appnexus)
    as (_ & _ & _ & H & _).
  apply (H host_C1 request_C10 stretchData_C10). reflexivity.
Defined.

(* ------------------------------------------------------------------ *)
(** ** The completion callback *)

Lemma measure_and_merge_returns collect add adUnits cfg w :
  exists w',
    measure_and_merge collect add adUnits cfg w = (JS.Returns tt, w')
    /\ World.calls w' = World.calls w
    /\ World.timers w' = World.timers w.
Proof.
  unfold measure_and_merge, JS.attempt, JS.seq, JS.lift, JS.ret.
  destruct (collect (Some adUnits)) as [sd|]; [|eauto].
  destruct (negb (Utils.isEmpty (JS.VObj sd))); [|eauto].
  unfold on_request. destruct (World.request w) as [req|]; [|eauto].
  destruct (add req sd cfg) as [[[]|] req']; eauto.
Qed.

(** With a callback that returns, a call of [getBidRequestData] invokes it
    once: at once in the width-only revision, and once the timer has run in
    the full-geometry revision; whatever the request, and whether the
    collection or the merge throws. *)
Lemma callback_invoked_once_when_it_returns
  host _moduleConfig (callback : Callback) moduleConfig w :
  (forall n, callback n = false) ->
  World.timers w = [] ->
  (exists w',
     RevA.getBidRequestData host _moduleConfig callback moduleConfig w
     = (JS.Returns tt, w')
     /\ World.calls w' = S (World.calls w))
  /\ (exists w',
        RevB.getBidRequestData host _moduleConfig callback moduleConfig w
        = (JS.Returns tt, w')
        /\ World.calls (RevB.run_timers host _moduleConfig w')
           = S (World.calls w)
        /\ World.timers (RevB.run_timers host _moduleConfig w') = []).
Proof.
  intros Hcb Ht. split.
  - unfold RevA.getBidRequestData, JS.attempt, JS.seq, JS.read, JS.throw.
    destruct (World.request w) as [req|].
    + destruct (adUnits_isEmpty (adUnits_of host req)).
      * unfold invoke. rewrite Hcb. eauto.
      * destruct (measure_and_merge_returns
                    (RevA.collectResponsiveStretchData host)
                    (RevA.addStretchDataToORTB2 host) (adUnits_of host req)
                    (config_or moduleConfig _moduleConfig) w)
          as (w' & -> & Hc & _).
        unfold invoke. rewrite Hcb. eexists. split; [reflexivity|].
        simpl. now rewrite Hc.
    + unfold invoke. rewrite Hcb. eauto.
  - unfold RevB.getBidRequestData, JS.attempt, JS.seq, JS.read, JS.throw.
    destruct (World.request w) as [req|].
    + destruct (adUnits_isEmpty (adUnits_of host req)).
      * unfold invoke. rewrite Hcb. eexists. split; [reflexivity|].
        unfold RevB.run_timers. simpl. rewrite Ht. simpl. auto.
      * unfold setTimeout. eexists. split; [reflexivity|].
        unfold RevB.run_timers. cbn [World.timers World.calls World.request].
        rewrite Ht. cbn [app fold_left RevB.run_task]. unfold JS.seq.
        match goal with
        | |- context [measure_and_merge ?c ?a ?u ?m ?x] =>
            destruct (measure_and_merge_returns c a u m x)
              as (w' & -> & Hc & Ht')
        end.
        unfold invoke. rewrite Hcb. cbn [snd World.calls World.timers].
        rewrite Hc, Ht'. auto.
    + unfold invoke. rewrite Hcb. eexists. split; [reflexivity|].
      unfold RevB.run_timers. simpl. rewrite Ht. simpl. auto.
Qed.

(** C4: a callback that throws when it is first invoked is invoked twice.
    With no ad units both revisions invoke it inside the outer [try] (lines
    263 and 631) and again in its [catch] (lines 283 and 654); the width-only
    revision does the same after a measurement (lines 280 and 283).  The
    deferred invocation of the full-geometry revision (line 650) is outside
    the [try] and happens once. *)
Theorem C4_throwing_callback_is_invoked_twice :
  World.calls
    (RevB.run_timers host_C5 empty_config
       (snd (RevB.getBidRequestData host_C5 empty_config throws_once None
               (world_of request_without_adUnits)))) = 2%nat
  /\ World.calls
       (snd (RevA.getBidRequestData host_C5 empty_config throws_once None
               (world_of request_without_adUnits))) = 2%nat
  /\ World.calls
       (snd (RevA.getBidRequestData host_C5 empty_config throws_once None
               (world_of request_slot_2))) = 2%nat
  /\ World.calls
       (RevB.run_timers host_C5 empty_config
          (snd (RevB.getBidRequestData host_C5 empty_config throws_once None
                  (world_of request_slot_2)))) = 1%nat.
Proof. repeat split; vm_compute; reflexivity. Qed.

(* ------------------------------------------------------------------ *)
(** ** Objects *)

Lemma value_induction (P : JS.value -> Prop) :
  P JS.VUndefined ->
  P JS.VNull ->
  (forall b, P (JS.VBool b)) ->
  (forall n, P (JS.VNum n)) ->
  (forall s, P (JS.VStr s)) ->
  (forall items, Forall P items -> P (JS.VArr items)) ->
  (forall fields, Forall (fun kv => P (snd kv)) fields -> P (JS.VObj fields)) ->
  forall v, P v.
Proof.
  intros Hu Hn Hb Hnum Hs Ha Ho. fix IH 1. intros [| |b|n|s|items|fields].
  - exact Hu.
  - exact Hn.
  - apply Hb.
  - apply Hnum.
  - apply Hs.
  - apply Ha. induction items as [|x items IHi]; constructor.
    + apply IH.
    + exact IHi.
  - apply Ho. induction fields as [|[k x] fields IHf]; constructor.
    + apply IH.
    + exact IHf.
Qed.

Lemma set_set_same k v1 v2 o : JS.set k v2 (JS.set k v1 o) = JS.set k v2 o.
Proof.
  induction o as [|[k' v'] o IH]; simpl.
  - now rewrite String.eqb_refl.
  - destruct (String.eqb k k') eqn:E; simpl.
    + now rewrite String.eqb_refl.
    + now rewrite E, IH.
Qed.

Lemma set_comm k k' a b o :
  k <> k' -> JS.get k o <> None ->
  JS.set k a (JS.set k' b o) = JS.set k' b (JS.set k a o).
Proof.
  intros Hne. induction o as [|[k2 v2] o IH]; simpl; [congruence|].
  pose proof (proj2 (String.eqb_neq k k') Hne) as Ekk'.
  assert (Ek'k : String.eqb k' k = false)
    by (apply String.eqb_neq; congruence).
  destruct (String.eqb k k2) eqn:E1; destruct (String.eqb k' k2) eqn:E2;
    intros Hget; simpl.
  - apply String.eqb_eq in E1, E2. congruence.
  - rewrite E1, Ek'k. reflexivity.
  - rewrite E2, Ekk'. reflexivity.
  - rewrite E1, E2, IH by exact Hget. reflexivity.
Qed.

Lemma get_none_keys k o : JS.get k o = None <-> ~ In k (map fst o).
Proof.
  induction o as [|[k' v'] o IH]; simpl.
  - split; auto.
  - destruct (String.eqb k k') eqn:E.
    + apply String.eqb_eq in E. subst. split; [discriminate|].
      intros H. exfalso. apply H. now left.
    + apply String.eqb_neq in E. rewrite IH. split.
      * intros H [H'|H']; [congruence|auto].
      * intros H H'. apply H. now right.
Qed.

Lemma distinct_cons k l :
  distinct (k :: l) = true <-> ~ In k l /\ distinct l = true.
Proof.
  simpl. rewrite andb_true_iff, negb_true_iff. split; intros [H1 H2];
    split; auto.
  - intros Hin. assert (existsb (String.eqb k) l = true).
    { apply existsb_exists. exists k. split; [exact Hin|].
      apply String.eqb_refl. }
    congruence.
  - destruct (existsb (String.eqb k) l) eqn:E; [|reflexivity].
    apply existsb_exists in E. destruct E as (x & Hx & Ex).
    apply String.eqb_eq in Ex. subst x. contradiction.
Qed.

(* ------------------------------------------------------------------ *)
(** ** Deep merge *)

Lemma mergeDeepHelper_obj sf tf :
  Utils.mergeDeepHelper (JS.VObj sf) (JS.VObj tf)
  = JS.VObj (Utils.merge_fields sf tf).
Proof.
  simpl. f_equal. unfold Utils.merge_fields. revert tf.
  induction sf as [|[k v] sf IH]; intros tf; simpl; [reflexivity|apply IH].
Qed.

Lemma mergeDeepHelper_not_object s t :
  JS.isPlainObject t = false -> Utils.mergeDeepHelper s t = t.
Proof. destruct s, t; simpl; intros; try reflexivity; discriminate. Qed.

Lemma mergeDeepHelper_truthy s t :
  JS.truthy t = true -> JS.truthy (Utils.mergeDeepHelper s t) = true.
Proof. destruct s, t; simpl; auto. Qed.

Lemma merge_entry_as_set recur k v t :
  Utils.merge_entry recur k v t
  = JS.set k (entry_value recur v (JS.prop t k)) t.
Proof.
  unfold Utils.merge_entry, entry_value.
  destruct v; try reflexivity.
  - destruct (JS.prop t k); reflexivity.
  - destruct (JS.truthy (JS.prop t k)); [reflexivity|].
    unfold JS.prop at 1. rewrite get_set_same. apply set_set_same.
Qed.

Lemma merge_fields_cons k v sf tf :
  Utils.merge_fields ((k, v) :: sf) tf
  = Utils.merge_fields sf
      (JS.set k (entry_value (Utils.mergeDeepHelper v) v (JS.prop tf k)) tf).
Proof.
  unfold Utils.merge_fields. simpl. now rewrite merge_entry_as_set.
Qed.

Lemma prop_set_same k v o : JS.prop (JS.set k v o) k = v.
Proof. unfold JS.prop. now rewrite get_set_same. Qed.

Lemma prop_set_other k k' v o :
  k <> k' -> JS.prop (JS.set k' v o) k = JS.prop o k.
Proof. intros H. unfold JS.prop. now rewrite get_set_other. Qed.

(** A key the source does not have is left alone. *)
Lemma get_merge_fields_other k sf :
  ~ In k (map fst sf) ->
  forall tf, JS.get k (Utils.merge_fields sf tf) = JS.get k tf.
Proof.
  induction sf as [|[k' v] sf IH]; intros Hk tf; [reflexivity|].
  rewrite merge_fields_cons, IH.
  - apply get_set_other. intros ->. apply Hk. now left.
  - intros H. apply Hk. now right.
Qed.

(** Writing a key that exists and that the source does not have commutes
    with the merge. *)
Lemma set_merge_fields_comm k x sf :
  ~ In k (map fst sf) ->
  forall tf,
    JS.get k tf <> None ->
    JS.set k x (Utils.merge_fields sf tf)
    = Utils.merge_fields sf (JS.set k x tf).
Proof.
  induction sf as [|[k' v] sf IH]; intros Hk tf Hget; [reflexivity|].
  assert (Hne : k <> k') by (intros ->; apply Hk; now left).
  rewrite !merge_fields_cons, IH.
  - rewrite set_comm by assumption.
    rewrite (@prop_set_other k' k) by congruence. reflexivity.
  - intros H. apply Hk. now right.
  - rewrite get_set_other by exact Hne. exact Hget.
Qed.

(** The value the merge leaves at a key of the source. *)
Lemma get_merge_fields_same k v sf :
  distinct (map fst sf) = true ->
  JS.get k sf = Some v ->
  forall tf,
    JS.get k (Utils.merge_fields sf tf)
    = Some (entry_value (Utils.mergeDeepHelper v) v (JS.prop tf k)).
Proof.
  induction sf as [|[k' v'] sf IH]; intros Hd Hget tf; [discriminate|].
  cbn [map fst] in Hd. apply distinct_cons in Hd. destruct Hd as [Hnin Hd].
  rewrite merge_fields_cons. simpl in Hget.
  destruct (String.eqb k k') eqn:E.
  - apply String.eqb_eq in E. subst k'. injection Hget as ->.
    rewrite get_merge_fields_other by exact Hnin. apply get_set_same.
  - apply String.eqb_neq in E. rewrite (IH Hd Hget).
    now rewrite prop_set_other.
Qed.

Lemma is_plain_obj fields :
  is_plain (JS.VObj fields) = true
  <-> distinct (map fst fields) = true
      /\ Forall (fun kv => is_plain (snd kv) = true) fields.
Proof.
  cbn [is_plain]. rewrite andb_true_iff.
  assert (H : forall l,
             (fix all (l : list (string * JS.value)) : bool :=
                match l with
                | [] => true
                | (_, x) :: rest => is_plain x && all rest
                end) l = true
             <-> Forall (fun kv => is_plain (snd kv) = true) l).
  { induction l as [|[k x] l IH]; [split; auto|].
    rewrite andb_true_iff, IH. split.
    - intros [H1 H2]. constructor; assumption.
    - intros H. inversion H; subst. split; assumption. }
  now rewrite H.
Qed.

Lemma same_shape_obj fa fb :
  same_shape (JS.VObj fa) (JS.VObj fb) = true
  <-> Forall2 (fun a b => fst a = fst b /\ same_shape (snd a) (snd b) = true)
        fa fb.
Proof.
  cbn [same_shape]. revert fb.
  induction fa as [|[ka xa] fa IH]; intros [|[kb xb] fb].
  - split; auto.
  - split; [discriminate|]. intros H. inversion H.
  - split; [discriminate|]. intros H. inversion H.
  - rewrite !andb_true_iff, IH, String.eqb_eq. split.
    + intros [[H1 H2] H3]. constructor; auto.
    + intros H. inversion H as [|? ? ? ? [H1 H2] H3]; subst. auto.
Qed.

Lemma same_shape_leaf a b :
  same_shape a b = true ->
  JS.isPlainObject a = false ->
  forall recur old, entry_value recur b old = b.
Proof.
  destruct a, b; simpl; intros H Ha recur old;
    try reflexivity; discriminate.
Qed.

Lemma entry_value_absorbs v1 v2 old :
  is_plain v1 = true ->
  same_shape v1 v2 = true ->
  (forall t, Utils.mergeDeepHelper v2 (Utils.mergeDeepHelper v1 t)
             = Utils.mergeDeepHelper v2 t) ->
  entry_value (Utils.mergeDeepHelper v2) v2
    (entry_value (Utils.mergeDeepHelper v1) v1 old)
  = entry_value (Utils.mergeDeepHelper v2) v2 old.
Proof.
  intros Hp Hs IH.
  destruct (JS.isPlainObject v1) eqn:Ho.
  - destruct v1 as [| | | | | |f1]; try discriminate.
    destruct v2 as [| | | | | |f2]; try discriminate.
    cbn [entry_value].
    set (o' := if JS.truthy old then old else JS.VObj []).
    assert (Ht : JS.truthy o' = true).
    { unfold o'. destruct (JS.truthy old) eqn:E; [exact E|reflexivity]. }
    rewrite (mergeDeepHelper_truthy (JS.VObj f1) o' Ht). apply IH.
  - rewrite !(same_shape_leaf v1 v2 Hs Ho). reflexivity.
Qed.

Lemma merge_fields_absorbs f1 f2 :
  Forall
    (fun kv =>
       forall s2, same_shape (snd kv) s2 = true ->
       forall t, Utils.mergeDeepHelper s2 (Utils.mergeDeepHelper (snd kv) t)
                 = Utils.mergeDeepHelper s2 t) f1 ->
  distinct (map fst f1) = true ->
  Forall (fun kv => is_plain (snd kv) = true) f1 ->
  Forall2 (fun a b => fst a = fst b /\ same_shape (snd a) (snd b) = true)
    f1 f2 ->
  forall tf,
    Utils.merge_fields f2 (Utils.merge_fields f1 tf)
    = Utils.merge_fields f2 tf.
Proof.
  intros HIH Hd Hp Hs. induction Hs as [|[k v1] [k2 v2] r1 r2 [Hk Hv] Hs IH];
    intros tf; [reflexivity|].
  cbn [fst snd] in Hk, Hv. subst k2.
  inversion HIH as [|? ? IHv HIH']; subst.
  inversion Hp as [|? ? Hpv Hp']; subst.
  cbn [map fst] in Hd. apply distinct_cons in Hd. destruct Hd as [Hnin Hd].
  cbn [snd] in IHv, Hpv.
  rewrite (merge_fields_cons k v1 r1 tf).
  rewrite (merge_fields_cons k v2 r2).
  unfold JS.prop at 1. rewrite get_merge_fields_other by exact Hnin.
  fold (JS.prop (JS.set k (entry_value (Utils.mergeDeepHelper v1) v1
                             (JS.prop tf k)) tf) k).
  rewrite prop_set_same.
  rewrite set_merge_fields_comm;
    [|exact Hnin|rewrite get_set_same; discriminate].
  rewrite set_set_same.
  rewrite (entry_value_absorbs v1 v2 (JS.prop tf k) Hpv Hv (IHv v2 Hv)).
  rewrite (IH HIH' Hd Hp').
  now rewrite merge_fields_cons.
Qed.

(** Merging a source, then a source of the same shape, leaves what merging
    the second alone leaves. *)
Lemma mergeDeepHelper_absorbs s1 :
  is_plain s1 = true ->
  forall s2,
    same_shape s1 s2 = true ->
    forall t,
      Utils.mergeDeepHelper s2 (Utils.mergeDeepHelper s1 t)
      = Utils.mergeDeepHelper s2 t.
Proof.
  induction s1 as [| | | | | |f1 IH] using value_induction;
    intros Hp s2 Hs t; try reflexivity.
  destruct s2 as [| | | | | |f2]; try discriminate.
  destruct t as [| | | | | |tf]; try reflexivity.
  rewrite !mergeDeepHelper_obj. f_equal.
  apply is_plain_obj in Hp. destruct Hp as [Hd Hp].
  apply same_shape_obj in Hs.
  apply merge_fields_absorbs; try assumption.
  clear - IH Hp.
  induction f1 as [|kv f1 IHf]; constructor;
    inversion IH; inversion Hp; subst; auto.
Qed.

Lemma same_shape_refl v : is_plain v = true -> same_shape v v = true.
Proof.
  induction v as [| | | | | |f IH] using value_induction; intros Hp;
    try reflexivity; try discriminate.
  apply is_plain_obj in Hp. destruct Hp as [_ Hp].
  apply same_shape_obj.
  induction f as [|[k x] f IHf]; constructor.
  - split; [reflexivity|].
    inversion IH; subst. inversion Hp; subst. auto.
  - inversion IH; subst. inversion Hp; subst. auto.
Qed.

(** [mergeDeep] is idempotent on the values the provider builds. *)
Lemma mergeDeep_absorbs s1 s2 t :
  is_plain s1 = true ->
  same_shape s1 s2 = true ->
  Utils.mergeDeep (Utils.mergeDeep t s1) s2 = Utils.mergeDeep t s2.
Proof.
  intros Hp Hs. unfold Utils.mergeDeep.
  destruct (JS.isPlainObject s2) eqn:E2.
  - destruct (JS.isPlainObject s1) eqn:E1.
    + now apply mergeDeepHelper_absorbs.
    + reflexivity.
  - destruct (JS.isPlainObject s1) eqn:E1; [|reflexivity].
    destruct s1, s2; try discriminate.
Qed.

(* ------------------------------------------------------------------ *)
(** ** The payloads are plain *)

Lemma in_keys_set k k' v o :
  In k (map fst (JS.set k' v o)) <-> k = k' \/ In k (map fst o).
Proof.
  induction o as [|[k2 v2] o IH]; simpl.
  - intuition.
  - destruct (String.eqb k' k2) eqn:E; simpl.
    + apply String.eqb_eq in E. subst k2. intuition.
    + rewrite IH. intuition.
Qed.

Lemma distinct_set k v o :
  distinct (map fst o) = true -> distinct (map fst (JS.set k v o)) = true.
Proof.
  induction o as [|[k2 v2] o IH]; intros Hd; [reflexivity|].
  cbn [map fst] in Hd. apply distinct_cons in Hd. destruct Hd as [Hnin Hd].
  simpl. destruct (String.eqb k k2) eqn:E.
  - apply String.eqb_eq in E. subst k2. cbn [map fst].
    apply distinct_cons. auto.
  - cbn [map fst]. apply distinct_cons. split; [|auto].
    rewrite in_keys_set. intros [H|H]; [|contradiction].
    subst k2. now rewrite String.eqb_refl in E.
Qed.

Lemma Forall_set (P : string * JS.value -> Prop) k v o :
  P (k, v) -> Forall P o -> Forall P (JS.set k v o).
Proof.
  intros Hv. induction 1 as [|[k2 v2] o Hx Ho IH]; simpl.
  - constructor; [exact Hv|constructor].
  - destruct (String.eqb k k2); constructor; auto.
Qed.

Lemma Forall2_set (R : string * JS.value -> string * JS.value -> Prop)
  k v1 v2 o1 o2 :
  R (k, v1) (k, v2) ->
  Forall2 (fun a b => fst a = fst b /\ R a b) o1 o2 ->
  Forall2 (fun a b => fst a = fst b /\ R a b) (JS.set k v1 o1)
    (JS.set k v2 o2).
Proof.
  intros Hv. induction 1 as [|[ka xa] [kb xb] o1 o2 [Hk Hx] Ho IH]; simpl.
  - constructor; [split; [reflexivity|exact Hv]|constructor].
  - cbn [fst] in Hk. subst kb.
    destruct (String.eqb k ka); constructor; auto.
Qed.

Lemma bidderConfig_plain codes data :
  is_plain data = true -> is_plain (bidderConfig_of codes data) = true.
Proof.
  intros Hp. unfold bidderConfig_of. apply is_plain_obj.
  assert (H : forall o,
             distinct (map fst o) = true
             /\ Forall (fun kv => is_plain (snd kv) = true) o ->
             distinct
               (map fst (fold_left (fun o b => JS.set b data o) codes o))
             = true
             /\ Forall (fun kv => is_plain (snd kv) = true)
                  (fold_left (fun o b => JS.set b data o) codes o)).
  { induction codes as [|c codes IH]; intros o [Hd Hf]; [auto|].
    simpl. apply IH. split; [now apply distinct_set|].
    apply Forall_set; assumption. }
  apply H. split; [reflexivity|constructor].
Qed.

Lemma bidderConfig_shape codes d1 d2 :
  same_shape d1 d2 = true ->
  same_shape (bidderConfig_of codes d1) (bidderConfig_of codes d2) = true.
Proof.
  intros Hs. unfold bidderConfig_of. apply same_shape_obj.
  assert (H : forall o1 o2,
             Forall2
               (fun a b => fst a = fst b
                           /\ same_shape (snd a) (snd b) = true) o1 o2 ->
             Forall2
               (fun a b => fst a = fst b
                           /\ same_shape (snd a) (snd b) = true)
               (fold_left (fun o b => JS.set b d1 o) codes o1)
               (fold_left (fun o b => JS.set b d2 o) codes o2)).
  { induction codes as [|c codes IH]; intros o1 o2 Ho; [exact Ho|].
    simpl. apply IH.
    apply (@Forall2_set
             (fun a b => same_shape (snd a) (snd b) = true)); assumption. }
  apply H. constructor.
Qed.

Lemma spine_plain path leaf :
  is_plain leaf = true -> is_plain (spine path leaf) = true.
Proof.
  intros Hp. induction path as [|k path IH]; [exact Hp|].
  cbn [spine]. apply is_plain_obj. split; [reflexivity|].
  constructor; [exact IH|constructor].
Qed.

Lemma spine_shape path l1 l2 :
  same_shape l1 l2 = true ->
  same_shape (spine path l1) (spine path l2) = true.
Proof.
  intros Hs. induction path as [|k path IH]; [exact Hs|].
  cbn [spine]. apply same_shape_obj.
  constructor; [split; [reflexivity|exact IH]|constructor].
Qed.

Lemma site_ext_data_spine payload :
  site_ext_data payload = spine scope_path payload.
Proof. reflexivity. Qed.

Lemma impData_spine stretchInfo :
  RevB.impData stretchInfo = spine imp_path stretchInfo.
Proof. reflexivity. Qed.

Lemma responsiveStretch_plain host sd :
  is_plain (JS.VObj sd) = true ->
  is_plain (RevB.responsiveStretch host sd) = true.
Proof.
  intros Hp. unfold RevB.responsiveStretch. apply is_plain_obj.
  split; [reflexivity|]. repeat constructor. exact Hp.
Qed.

Lemma responsiveStretch_shape host1 host2 sd :
  is_plain (JS.VObj sd) = true ->
  same_shape (RevB.responsiveStretch host1 sd)
    (RevB.responsiveStretch host2 sd) = true.
Proof.
  intros Hp. unfold RevB.responsiveStretch. apply same_shape_obj.
  repeat constructor. cbn [snd]. now apply same_shape_refl.
Qed.

Lemma prop_plain sd k :
  is_plain (JS.VObj sd) = true -> is_plain (JS.prop sd k) = true.
Proof.
  intros Hp. apply is_plain_obj in Hp. destruct Hp as [_ Hp].
  unfold JS.prop. induction Hp as [|[k' x] sd Hx Hp IH]; [reflexivity|].
  simpl. destruct (String.eqb k k'); [exact Hx|exact IH].
Qed.

(* ------------------------------------------------------------------ *)
(** ** The measurements the provider collects are plain *)

Lemma calculateAdSlotSpace_plain host element m :
  RevB.calculateAdSlotSpace host element = JS.Returns (Some m) ->
  is_plain m = true.
Proof.
  destruct element as [el|]; [|discriminate].
  unfold RevB.calculateAdSlotSpace.
  destruct (getBoundingClientRect el) as [rect|]; [|discriminate].
  destruct (parentElement el) as [p|]; cbn [JS.bind JS.try_catch].
  - destruct (getBoundingClientRect p); cbn [JS.bind JS.try_catch];
      [|discriminate].
    intros [= <-]. reflexivity.
  - intros [= <-]. reflexivity.
Qed.

Lemma collect_each_plain document calc :
  (forall e m, calc e = JS.Returns (Some m) -> is_plain m = true) ->
  forall units acc sd,
    is_plain (JS.VObj acc) = true ->
    collect_each document calc units acc = JS.Returns sd ->
    is_plain (JS.VObj sd) = true.
Proof.
  intros Hcalc. induction units as [|[u|] units IH]; intros acc sd Hacc H;
    simpl in H.
  - now injection H as <-.
  - destruct (code_is_falsy (AdUnit.code u)); [eauto|].
    destruct (calc (findAdSlotElement document (code_key (AdUnit.code u))))
      as [[d|]|] eqn:E; simpl in H; [|eauto|discriminate].
    eapply IH; [|exact H].
    apply is_plain_obj in Hacc. destruct Hacc as [Hd Hf].
    apply is_plain_obj. split; [now apply distinct_set|].
    apply Forall_set; [|exact Hf]. cbn [snd]. eauto.
  - discriminate.
Qed.

(** A map of measurements [collectResponsiveStretchData] returns is
    plain. *)
Lemma collectResponsiveStretchData_plain host adUnits stretchData :
  RevB.collectResponsiveStretchData host adUnits = JS.Returns stretchData ->
  is_plain (JS.VObj stretchData) = true.
Proof.
  unfold RevB.collectResponsiveStretchData, collect.
  destruct adUnits as [l|]; [|now intros [= <-]].
  apply collect_each_plain; [|reflexivity].
  intros e m. apply calculateAdSlotSpace_plain.
Qed.

(* ------------------------------------------------------------------ *)
(** ** Merging twice *)

Lemma mergeDeep_truthy t s :
  JS.truthy t = true -> JS.truthy (Utils.mergeDeep t s) = true.
Proof.
  intros H. unfold Utils.mergeDeep.
  destruct (JS.isPlainObject s); [now apply mergeDeepHelper_truthy|exact H].
Qed.

Lemma or_else_truthy a b :
  JS.truthy b = true -> JS.truthy (JS.or_else a b) = true.
Proof. intros H. unfold JS.or_else. destruct (JS.truthy a) eqn:E; auto. Qed.

Lemma or_else_of_truthy a b : JS.truthy a = true -> JS.or_else a b = a.
Proof. intros H. unfold JS.or_else. now rewrite H. Qed.

(** The three switches of [addStretchData], case by case. *)
Ltac case_switches cfg :=
  destruct (global_scope_fires cfg), (bidder_scope_fires cfg),
    (impLevelEnabled cfg).

Lemma merge_impressions_eq imp sd req :
  merge_impressions imp sd req
  = (fst (merged_units imp sd (ReqBidsConfig.adUnits req)),
     ReqBidsConfig.make (ReqBidsConfig.ortb2Fragments req)
       (snd (merged_units imp sd (ReqBidsConfig.adUnits req)))).
Proof.
  unfold merge_impressions, merged_units. destruct req as [fr [l|]];
    cbn [ReqBidsConfig.adUnits ReqBidsConfig.ortb2Fragments];
    [|reflexivity].
  destruct (merge_imps imp sd l). reflexivity.
Qed.

(** The request [addStretchData] leaves, component by component. *)
Lemma addStretchData_eq payload imp sd cfg req :
  addStretchData payload imp sd cfg req
  = let units := merged_units imp sd (ReqBidsConfig.adUnits req) in
    match ReqBidsConfig.ortb2Fragments req with
    | None =>
        if global_scope_fires cfg || bidder_scope_fires cfg
        then (JS.Throws, req)
        else if impLevelEnabled cfg
             then (fst units, ReqBidsConfig.make None (snd units))
             else (JS.Returns tt, req)
    | Some f =>
        let f' :=
          Fragments.make
            (if global_scope_fires cfg
             then Utils.mergeDeep (Fragments.global f) (site_ext_data payload)
             else Fragments.global f)
            (if bidder_scope_fires cfg
             then Utils.mergeDeep (Fragments.bidder f)
                    (bidderConfig_of (bidders_codes (bidders_of cfg))
                       (site_ext_data payload))
             else Fragments.bidder f) in
        if impLevelEnabled cfg
        then (fst units, ReqBidsConfig.make (Some f') (snd units))
        else (JS.Returns tt,
              ReqBidsConfig.make (Some f') (ReqBidsConfig.adUnits req))
    end.
Proof.
  unfold addStretchData, JS.seq, JS.ret, merge_global, merge_bidder.
  destruct req as [[[g b]|] au];
    cbn [ReqBidsConfig.ortb2Fragments ReqBidsConfig.adUnits];
    case_switches cfg;
    cbn [ReqBidsConfig.ortb2Fragments ReqBidsConfig.adUnits orb
         Fragments.global Fragments.bidder];
    rewrite ?merge_impressions_eq; reflexivity.
Qed.

Section Twice.

Variables p1 p2 : JS.value.
Variable imp : JS.value -> JS.value.
Variable sd : JS.obj.
Variable cfg : ModuleConfig.t.

Hypothesis p1_plain : is_plain p1 = true.
Hypothesis p1_p2 : same_shape p1 p2 = true.
Hypothesis imp_plain : forall k, is_plain (imp (JS.prop sd k)) = true.

Lemma merge_imp_twice u :
  merge_imp imp sd (merge_imp imp sd u) = merge_imp imp sd u.
Proof.
  unfold merge_imp. destruct (JS.truthy (JS.prop sd (code_key (AdUnit.code u))))
    eqn:E; cbn [AdUnit.code AdUnit.ortb2Imp AdUnit.others]; rewrite E;
    [|reflexivity].
  f_equal. rewrite or_else_of_truthy.
  - apply mergeDeep_absorbs; [apply imp_plain|].
    apply same_shape_refl. apply imp_plain.
  - apply mergeDeep_truthy. now apply or_else_truthy.
Qed.

Lemma merge_imps_twice l :
  merge_imps imp sd (snd (merge_imps imp sd l)) = merge_imps imp sd l.
Proof.
  induction l as [|[u|] l IH]; [reflexivity| |reflexivity].
  cbn [merge_imps]. destruct (merge_imps imp sd l) as [o l'] eqn:E.
  cbn [snd merge_imps] in *. rewrite merge_imp_twice, IH. reflexivity.
Qed.

Lemma site_ext_data_absorbs t :
  Utils.mergeDeep (Utils.mergeDeep t (site_ext_data p1)) (site_ext_data p2)
  = Utils.mergeDeep t (site_ext_data p2).
Proof.
  apply mergeDeep_absorbs; rewrite !site_ext_data_spine.
  - now apply spine_plain.
  - now apply spine_shape.
Qed.

Lemma bidderConfig_absorbs codes t :
  Utils.mergeDeep
    (Utils.mergeDeep t (bidderConfig_of codes (site_ext_data p1)))
    (bidderConfig_of codes (site_ext_data p2))
  = Utils.mergeDeep t (bidderConfig_of codes (site_ext_data p2)).
Proof.
  apply mergeDeep_absorbs.
  - apply bidderConfig_plain. rewrite site_ext_data_spine.
    now apply spine_plain.
  - apply bidderConfig_shape. rewrite !site_ext_data_spine.
    now apply spine_shape.
Qed.

Lemma merged_units_twice au :
  merged_units imp sd (snd (merged_units imp sd au))
  = merged_units imp sd au.
Proof.
  destruct au as [l|]; [|reflexivity]. unfold merged_units.
  pose proof (merge_imps_twice l) as H.
  destruct (merge_imps imp sd l) as [o l']. cbn [snd] in *.
  now rewrite H.
Qed.

Lemma addStretchData_twice req :
  addStretchData p2 imp sd cfg (snd (addStretchData p1 imp sd cfg req))
  = addStretchData p2 imp sd cfg req.
Proof.
  rewrite (addStretchData_eq p1 imp sd cfg req).
  destruct req as [[[g b]|] au];
    cbn [ReqBidsConfig.ortb2Fragments ReqBidsConfig.adUnits].
  - destruct (impLevelEnabled cfg) eqn:EI; cbn [snd];
      rewrite !addStretchData_eq, EI;
      cbn [ReqBidsConfig.ortb2Fragments ReqBidsConfig.adUnits
           Fragments.global Fragments.bidder];
      rewrite ?merged_units_twice;
      destruct (global_scope_fires cfg), (bidder_scope_fires cfg);
      rewrite ?site_ext_data_absorbs, ?bidderConfig_absorbs; reflexivity.
  - destruct (global_scope_fires cfg || bidder_scope_fires cfg) eqn:EGB;
      [cbn [snd]; rewrite addStretchData_eq;
       cbn [ReqBidsConfig.ortb2Fragments]; now rewrite EGB|].
    destruct (impLevelEnabled cfg) eqn:EI; cbn [snd];
      rewrite !addStretchData_eq, EI, EGB;
      cbn [ReqBidsConfig.ortb2Fragments ReqBidsConfig.adUnits];
      rewrite ?merged_units_twice; reflexivity.
Qed.

End Twice.

(* ------------------------------------------------------------------ *)
(** ** Reading a merged value along a path *)

Lemma same_shape_get (f1 f2 : JS.obj) k :
  Forall2 (fun a b => fst a = fst b /\ same_shape (snd a) (snd b) = true)
    f1 f2 ->
  match JS.get k f1, JS.get k f2 with
  | Some v1, Some v2 => same_shape v1 v2 = true
  | None, None => True
  | _, _ => False
  end.
Proof.
  induction 1 as [|[ka xa] [kb xb] f1 f2 [Hk Hx] Hf IH]; [exact I|].
  cbn [fst snd] in Hk, Hx. subst kb. simpl.
  destruct (String.eqb k ka); [exact Hx|exact IH].
Qed.

Lemma same_shape_keys (f1 f2 : JS.obj) :
  Forall2 (fun a b => fst a = fst b /\ same_shape (snd a) (snd b) = true)
    f1 f2 ->
  map fst f1 = map fst f2.
Proof.
  induction 1 as [|a b f1 f2 [Hk _] Hf IH]; [reflexivity|].
  simpl. now rewrite Hk, IH.
Qed.

Lemma get_path_of_leaf q v :
  JS.isPlainObject v = false -> q <> [] -> JS.get_path q v = None.
Proof. destruct q, v; simpl; intros; try reflexivity; congruence. Qed.

(** Two sources of the same shape that agree under a path leave the same
    value under that path. *)
Lemma get_path_merge q :
  forall s1 s2,
    is_plain s1 = true ->
    same_shape s1 s2 = true ->
    JS.get_path q s1 = JS.get_path q s2 ->
    forall t,
      JS.get_path q (Utils.mergeDeepHelper s1 t)
      = JS.get_path q (Utils.mergeDeepHelper s2 t).
Proof.
  induction q as [|k q IH]; intros s1 s2 Hp Hs Hq t.
  - cbn in Hq. injection Hq as ->. reflexivity.
  - destruct s1 as [| | | | | |f1]; destruct s2 as [| | | | | |f2];
      try discriminate Hs; try reflexivity.
    destruct t as [| | | | | |tf]; try reflexivity.
    rewrite !mergeDeepHelper_obj. cbn [JS.get_path].
    apply is_plain_obj in Hp. destruct Hp as [Hd Hp].
    apply same_shape_obj in Hs.
    pose proof (same_shape_get k Hs) as Hk.
    pose proof (same_shape_keys Hs) as Hkeys.
    cbn [JS.get_path] in Hq.
    destruct (JS.get k f1) as [v1|] eqn:E1;
      destruct (JS.get k f2) as [v2|] eqn:E2; try contradiction.
    + rewrite (@get_merge_fields_same k v1 f1 Hd E1).
      rewrite (@get_merge_fields_same k v2 f2)
        by (rewrite <- ?Hkeys; auto).
      destruct (JS.isPlainObject v1) eqn:Ho.
      * destruct v1 as [| | | | | |g1]; try discriminate.
        destruct v2 as [| | | | | |g2]; try discriminate.
        cbn [entry_value]. apply IH; [|exact Hk|exact Hq].
        clear - Hp E1. induction Hp as [|[k' x] f1 Hx Hp IHp];
          [discriminate|].
        simpl in E1. destruct (String.eqb k k').
        -- injection E1 as <-. exact Hx.
        -- auto.
      * rewrite (same_shape_leaf v1 v2 Hk Ho).
        assert (Hl : forall recur old, entry_value recur v1 old = v1).
        { destruct v1; try reflexivity; try discriminate.
          destruct v2; discriminate. }
        rewrite Hl. exact Hq.
    + apply get_none_keys in E1, E2.
      rewrite !get_merge_fields_other by assumption. reflexivity.
Qed.

Lemma get_path_mergeDeep q s1 s2 t :
  is_plain s1 = true ->
  same_shape s1 s2 = true ->
  JS.get_path q s1 = JS.get_path q s2 ->
  JS.get_path q (Utils.mergeDeep t s1) = JS.get_path q (Utils.mergeDeep t s2).
Proof.
  intros Hp Hs Hq. unfold Utils.mergeDeep.
  destruct (JS.isPlainObject s1) eqn:E1.
  - destruct s1, s2; try discriminate. now apply get_path_merge.
  - destruct s1, s2; try discriminate; reflexivity.
Qed.

Lemma get_path_app p q v :
  JS.get_path (p ++ q)%list v
  = match JS.get_path p v with
    | Some v' => JS.get_path q v'
    | None => None
    end.
Proof.
  revert v. induction p as [|k p IH]; intros v; [reflexivity|].
  cbn [app JS.get_path]. destruct v; try reflexivity.
  destruct (JS.get k fields); [apply IH|reflexivity].
Qed.

Lemma get_path_spine path leaf : JS.get_path path (spine path leaf) = Some leaf.
Proof.
  induction path as [|k path IH]; [reflexivity|].
  cbn [spine JS.get_path JS.get]. now rewrite String.eqb_refl.
Qed.

Lemma get_fold_set c data codes :
  forall o,
    JS.get c (fold_left (fun o b => JS.set b data o) codes o)
    = if existsb (String.eqb c) codes then Some data else JS.get c o.
Proof.
  induction codes as [|b codes IH]; intros o; [reflexivity|].
  cbn [fold_left existsb]. rewrite IH.
  destruct (existsb (String.eqb c) codes); [now rewrite orb_true_r|].
  rewrite orb_false_r. destruct (String.eqb c b) eqn:E.
  - apply String.eqb_eq in E. subst b. apply get_set_same.
  - apply String.eqb_neq in E. now apply get_set_other.
Qed.

(* ------------------------------------------------------------------ *)
(** ** What a single merge leaves does not depend on the instant *)

Section Once.

Variables p1 p2 : JS.value.
Variable imp : JS.value -> JS.value.
Variable sd : JS.obj.
Variable cfg : ModuleConfig.t.

Hypothesis p1_plain : is_plain p1 = true.
Hypothesis p1_p2 : same_shape p1 p2 = true.

Lemma addStretchData_adUnits_any_payload req :
  ReqBidsConfig.adUnits (snd (addStretchData p1 imp sd cfg req))
  = ReqBidsConfig.adUnits (snd (addStretchData p2 imp sd cfg req)).
Proof.
  rewrite !addStretchData_eq. destruct req as [[f|] au];
    cbn [ReqBidsConfig.ortb2Fragments ReqBidsConfig.adUnits];
    case_switches cfg; reflexivity.
Qed.

Lemma addStretchData_global_path q req :
  JS.get_path q (site_ext_data p1) = JS.get_path q (site_ext_data p2) ->
  read_fragment (global_fragment (snd (addStretchData p1 imp sd cfg req))) q
  = read_fragment (global_fragment (snd (addStretchData p2 imp sd cfg req))) q.
Proof.
  intros Hq. rewrite !addStretchData_eq. unfold global_fragment.
  destruct req as [[f|] au];
    cbn [ReqBidsConfig.ortb2Fragments ReqBidsConfig.adUnits];
    case_switches cfg;
    cbn [snd orb ReqBidsConfig.ortb2Fragments option_map Fragments.global
         read_fragment]; try reflexivity.
  all: apply get_path_mergeDeep; rewrite ?site_ext_data_spine;
    auto using spine_plain, spine_shape.
Qed.

Lemma addStretchData_bidder_path q req :
  JS.get_path q
    (bidderConfig_of (bidders_codes (bidders_of cfg)) (site_ext_data p1))
  = JS.get_path q
      (bidderConfig_of (bidders_codes (bidders_of cfg)) (site_ext_data p2)) ->
  read_fragment (bidder_fragment (snd (addStretchData p1 imp sd cfg req))) q
  = read_fragment (bidder_fragment (snd (addStretchData p2 imp sd cfg req))) q.
Proof.
  intros Hq. rewrite !addStretchData_eq. unfold bidder_fragment.
  destruct req as [[f|] au];
    cbn [ReqBidsConfig.ortb2Fragments ReqBidsConfig.adUnits];
    case_switches cfg;
    cbn [snd orb ReqBidsConfig.ortb2Fragments option_map Fragments.bidder
         read_fragment]; try reflexivity.
  all: apply get_path_mergeDeep; try exact Hq.
  all: try (apply bidderConfig_plain; rewrite site_ext_data_spine;
            auto using spine_plain).
  all: apply bidderConfig_shape; rewrite !site_ext_data_spine;
    auto using spine_shape.
Qed.

End Once.

Lemma adUnits_path_of_payload host sd :
  JS.get_path adUnits_path (site_ext_data (RevB.responsiveStretch host sd))
  = Some (JS.VObj sd).
Proof. reflexivity. Qed.

Lemma bidder_adUnits_path_of_payload host sd codes bidder :
  JS.get_path (bidder :: adUnits_path)
    (bidderConfig_of codes (site_ext_data (RevB.responsiveStretch host sd)))
  = if existsb (String.eqb bidder) codes then Some (JS.VObj sd) else None.
Proof.
  unfold bidderConfig_of. cbn [JS.get_path]. rewrite get_fold_set.
  destruct (existsb (String.eqb bidder) codes); reflexivity.
Qed.

Lemma impData_plain sd k :
  is_plain (JS.VObj sd) = true ->
  is_plain (RevB.impData (JS.prop sd k)) = true.
Proof.
  intros Hp. rewrite impData_spine. apply spine_plain. now apply prop_plain.
Qed.

(** C3: merging at one instant and then again, with the same measurements
    and the same configuration, leaves exactly what the single merge of the
    second instant leaves, and throws exactly when that one does.  So the
    ad units of the request, with their impression payloads, are those a
    single merge leaves, and so are the maps of measurements of the global
    and of every bidder scope; when the viewport and the clock have not
    changed between the two calls the whole request is the same. *)
Theorem C3_merging_twice_is_merging_once :
  forall host1 host2 req stretchData moduleConfig,
    is_plain (JS.VObj stretchData) = true ->
    let once :=
      RevB.addStretchDataToORTB2 host1 req stretchData moduleConfig in
    let twice :=
      RevB.addStretchDataToORTB2 host2 (snd once) stretchData moduleConfig in
    twice = RevB.addStretchDataToORTB2 host2 req stretchData moduleConfig
    /\ ReqBidsConfig.adUnits (snd twice) = ReqBidsConfig.adUnits (snd once)
    /\ read_fragment (global_fragment (snd twice)) adUnits_path
       = read_fragment (global_fragment (snd once)) adUnits_path
    /\ (forall bidder,
          read_fragment (bidder_fragment (snd twice)) (bidder :: adUnits_path)
          = read_fragment (bidder_fragment (snd once))
              (bidder :: adUnits_path))
    /\ (Host.viewportSize host1 = Host.viewportSize host2 ->
        Host.now host1 = Host.now host2 ->
        twice = once).
Proof.
  intros host1 host2 req sd cfg Hp once twice.
  assert (Htwice : twice
                   = RevB.addStretchDataToORTB2 host2 req sd cfg).
  { unfold twice, once, RevB.addStretchDataToORTB2.
    apply addStretchData_twice.
    - now apply responsiveStretch_plain.
    - now apply responsiveStretch_shape.
    - intros k. now apply impData_plain. }
  split; [exact Htwice|]. rewrite Htwice.
  unfold once, RevB.addStretchDataToORTB2.
  split; [apply addStretchData_adUnits_any_payload|].
  split; [|split].
  - apply addStretchData_global_path.
    + now apply responsiveStretch_plain.
    + now apply responsiveStretch_shape.
    + now rewrite !adUnits_path_of_payload.
  - intros bidder. apply addStretchData_bidder_path.
    + now apply responsiveStretch_plain.
    + now apply responsiveStretch_shape.
    + now rewrite !bidder_adUnits_path_of_payload.
  - intros Hv Hn. unfold RevB.responsiveStretch. now rewrite Hv, Hn.
Qed.

Lemma C3_witness :
  let once :=
    RevB.addStretchDataToORTB2 host_C1 request_C3 stretchData_C10
      empty_config in
  let twice :=
    RevB.addStretchDataToORTB2 (later_host host_C1) (snd once)
      stretchData_C10 empty_config in
  twice
  = RevB.addStretchDataToORTB2 (later_host host_C1) request_C3
      stretchData_C10 empty_config
  /\ ReqBidsConfig.adUnits (snd twice) = ReqBidsConfig.adUnits (snd once)
  /\ read_fragment (global_fragment (snd twice)) adUnits_path
     = read_fragment (global_fragment (snd once)) adUnits_path
  /\ (forall bidder,
        read_fragment (bidder_fragment (snd twice)) (bidder :: adUnits_path)
        = read_fragment (bidder_fragment (snd once)) (bidder :: adUnits_path))
  /\ (Host.viewportSize host_C1 = Host.viewportSize (later_host host_C1) ->
      Host.now host_C1 = Host.now (later_host host_C1) ->
      twice = once).
Proof.
  apply (@C3_merging_twice_is_merging_once host_C1 (later_host host_C1)
           request_C3 stretchData_C10 empty_config).
  reflexivity.
Defined.

(** In the request of the witness the second merge changes the timestamp
    and nothing else. *)
Example merging_twice_example :
  let once :=
    snd (RevB.addStretchDataToORTB2 host_C1 request_C3 stretchData_C10
           empty_config) in
  let twice :=
    snd (RevB.addStretchDataToORTB2 (later_host host_C1) once
           stretchData_C10 empty_config) in
  read_fragment (global_fragment once) (scope_path ++ ["timestamp"])%list
  = Some (JS.VNum (JS.of_Z 1640995200000))
  /\ read_fragment (global_fragment twice) (scope_path ++ ["timestamp"])%list
     = Some (JS.VNum (JS.of_Z 1640995200250))
  /\ read_fragment (global_fragment twice) adUnits_path
     = Some (JS.VObj stretchData_C10)
  /\ read_fragment (global_fragment twice) ["site"; "page"]
     = Some (JS.VStr "index.html").
Proof. repeat split; reflexivity. Qed.

(* ------------------------------------------------------------------ *)
(** ** What the merge leaves alone *)

Lemma falsy_not_object v : JS.truthy v = false -> JS.isPlainObject v = false.
Proof. destruct v; simpl; intros; try reflexivity; discriminate. Qed.

Lemma misses_nonempty q s : misses q s = true -> q <> [].
Proof. destruct q; [discriminate|congruence]. Qed.

Lemma get_path_or_empty q v :
  q <> [] -> JS.get_path q (JS.or_else v (JS.VObj [])) = JS.get_path q v.
Proof.
  intros Hq. unfold JS.or_else. destruct (JS.truthy v) eqn:E; [reflexivity|].
  rewrite (@get_path_of_leaf q v) by auto using falsy_not_object.
  destruct q; [congruence|reflexivity].
Qed.

(** A path that leaves the source reads the same before and after the
    merge. *)
Lemma get_path_misses q :
  forall s t,
    misses q s = true ->
    JS.get_path q (Utils.mergeDeepHelper s t) = JS.get_path q t.
Proof.
  induction q as [|k q IH]; intros s t Hm; [discriminate|].
  destruct s as [| | | | | |fs]; try discriminate.
  destruct t as [| | | | | |tf]; try reflexivity.
  rewrite mergeDeepHelper_obj. cbn [JS.get_path misses] in *.
  destruct (JS.get k fs) as [v|] eqn:E.
  - apply andb_true_iff in Hm. destruct Hm as [Hm Hq].
    apply andb_true_iff in Hm. destruct Hm as [Hd Hv].
    rewrite (@get_merge_fields_same k v fs Hd E).
    destruct v as [| | | | | |g]; try discriminate.
    cbn [entry_value]. rewrite (IH _ _ Hq).
    pose proof (@misses_nonempty q _ Hq) as Hne.
    unfold JS.prop. destruct (JS.get k tf) as [old|].
    + fold (JS.or_else old (JS.VObj [])). now apply get_path_or_empty.
    + destruct q; [congruence|reflexivity].
  - apply get_none_keys in E. now rewrite get_merge_fields_other.
Qed.

Lemma get_path_mergeDeep_misses q s t :
  misses q s = true -> JS.get_path q (Utils.mergeDeep t s) = JS.get_path q t.
Proof.
  intros H. unfold Utils.mergeDeep.
  destruct (JS.isPlainObject s); [now apply get_path_misses|reflexivity].
Qed.

Lemma misses_spine w leaf :
  forall q, diverges q w = true -> misses q (spine w leaf) = true.
Proof.
  induction w as [|k' w IH]; intros [|k q] H; try discriminate.
  cbn [spine misses JS.get]. cbn [diverges] in H.
  destruct (String.eqb k k') eqn:E; [|reflexivity].
  rewrite (IH q H). cbn [map fst distinct existsb negb andb].
  destruct w; [destruct q; discriminate|reflexivity].
Qed.

Lemma distinct_fold_set data codes :
  forall o,
    distinct (map fst o) = true ->
    distinct (map fst (fold_left (fun o b => JS.set b data o) codes o)) = true.
Proof.
  induction codes as [|c codes IH]; intros o Hd; [exact Hd|].
  simpl. apply IH. now apply distinct_set.
Qed.

Lemma misses_bidderConfig bidder q codes data :
  (existsb (String.eqb bidder) codes = true -> misses q data = true) ->
  misses (bidder :: q) (bidderConfig_of codes data) = true.
Proof.
  intros H. unfold bidderConfig_of. cbn [misses]. rewrite get_fold_set.
  destruct (existsb (String.eqb bidder) codes); [|reflexivity].
  rewrite distinct_fold_set by reflexivity. rewrite (H eq_refl).
  specialize (H eq_refl). destruct q, data; try discriminate. reflexivity.
Qed.

Lemma misses_impData_A stretchInfo q :
  diverges q imp_path = true ->
  diverges q wmax_path = true ->
  misses q (RevA.impData stretchInfo) = true.
Proof.
  intros Hi Hw. unfold RevA.impData.
  destruct (RevA.has_wmax stretchInfo).
  - destruct q as [|k q]; [discriminate|].
    cbn [JS.set String.eqb Ascii.eqb Bool.eqb misses JS.get].
    cbn [diverges imp_path wmax_path] in Hi, Hw.
    destruct (String.eqb k "ext") eqn:E1.
    + change (JS.VObj
                [("data", JS.VObj [("responsiveStretch", stretchInfo)])])
        with (spine ["data"; "responsiveStretch"] stretchInfo).
      rewrite (misses_spine _ _ _ Hi). reflexivity.
    + destruct (String.eqb k "banner") eqn:E2; [|reflexivity].
      change (JS.VObj
                [("wmax", JS.member stretchInfo "maxAvailableWidth")])
        with (spine ["wmax"] (JS.member stretchInfo "maxAvailableWidth")).
      rewrite (misses_spine _ _ _ Hw). reflexivity.
  - change (misses q (spine imp_path stretchInfo) = true).
    now apply misses_spine.
Qed.

Lemma addStretchData_fragments_present payload imp sd cfg req :
  ReqBidsConfig.ortb2Fragments (snd (addStretchData payload imp sd cfg req))
  = None
  <-> ReqBidsConfig.ortb2Fragments req = None.
Proof.
  rewrite addStretchData_eq. destruct req as [[f|] au];
    cbn [ReqBidsConfig.ortb2Fragments ReqBidsConfig.adUnits];
    case_switches cfg; cbn [snd orb ReqBidsConfig.ortb2Fragments];
    split; intros H; try reflexivity; discriminate H.
Qed.

Section Kept.

Variable payload : JS.value.
Variable imp : JS.value -> JS.value.
Variable sd : JS.obj.
Variable cfg : ModuleConfig.t.
Variable written : list (list string).

Hypothesis imp_misses :
  forall stretchInfo q,
    (forall w, In w written -> diverges q w = true) ->
    misses q (imp stretchInfo) = true.

Lemma merge_imp_kept u :
  unit_kept written (Some u) (Some (merge_imp imp sd u)).
Proof.
  unfold merge_imp, unit_kept.
  destruct (JS.truthy (JS.prop sd (code_key (AdUnit.code u)))); [|auto].
  cbn [AdUnit.code AdUnit.others AdUnit.ortb2Imp].
  split; [reflexivity|]. split; [reflexivity|]. intros q Hq.
  pose proof (imp_misses (JS.prop sd (code_key (AdUnit.code u))) q Hq) as Hm.
  rewrite (get_path_mergeDeep_misses _ _ _ Hm).
  apply get_path_or_empty. exact (@misses_nonempty q _ Hm).
Qed.

Lemma merge_imps_kept l :
  Forall2 (unit_kept written) l (snd (merge_imps imp sd l)).
Proof.
  induction l as [|[u|] l IH].
  - constructor.
  - cbn [merge_imps]. destruct (merge_imps imp sd l) as [o l'].
    cbn [snd] in *. constructor; [apply merge_imp_kept|exact IH].
  - cbn [merge_imps snd]. constructor; [exact I|].
    clear. induction l as [|[u|] l IH]; constructor; auto.
    + cbn. auto.
    + exact I.
Qed.

Lemma units_kept_refl au : units_kept written au au.
Proof.
  destruct au as [l|]; [|exact I]. cbn.
  induction l as [|[u|] l IH]; constructor; auto.
  - cbn. auto.
  - exact I.
Qed.

Lemma addStretchData_units_kept req :
  units_kept written (ReqBidsConfig.adUnits req)
    (ReqBidsConfig.adUnits (snd (addStretchData payload imp sd cfg req))).
Proof.
  rewrite addStretchData_eq.
  assert (Hm : units_kept written (ReqBidsConfig.adUnits req)
                 (snd (merged_units imp sd (ReqBidsConfig.adUnits req)))).
  { unfold merged_units. destruct (ReqBidsConfig.adUnits req) as [l|];
      [|exact I].
    pose proof (merge_imps_kept l) as H.
    destruct (merge_imps imp sd l) as [o l']. exact H. }
  destruct req as [[f|] au];
    cbn [ReqBidsConfig.ortb2Fragments ReqBidsConfig.adUnits] in *;
    case_switches cfg;
    cbn [snd orb ReqBidsConfig.adUnits];
    auto using units_kept_refl.
Qed.

Lemma addStretchData_global_kept q req :
  diverges q scope_path = true ->
  read_fragment
    (global_fragment (snd (addStretchData payload imp sd cfg req))) q
  = read_fragment (global_fragment req) q.
Proof.
  intros Hq. rewrite addStretchData_eq. unfold global_fragment.
  destruct req as [[f|] au];
    cbn [ReqBidsConfig.ortb2Fragments ReqBidsConfig.adUnits];
    case_switches cfg;
    cbn [snd orb ReqBidsConfig.ortb2Fragments option_map Fragments.global
         read_fragment]; try reflexivity.
  all: apply get_path_mergeDeep_misses; rewrite site_ext_data_spine;
    now apply misses_spine.
Qed.

Lemma addStretchData_bidder_kept bidder q req :
  (existsb (String.eqb bidder) (bidders_codes (bidders_of cfg)) = true ->
   diverges q scope_path = true) ->
  read_fragment
    (bidder_fragment (snd (addStretchData payload imp sd cfg req)))
    (bidder :: q)
  = read_fragment (bidder_fragment req) (bidder :: q).
Proof.
  intros Hq. rewrite addStretchData_eq. unfold bidder_fragment.
  destruct req as [[f|] au];
    cbn [ReqBidsConfig.ortb2Fragments ReqBidsConfig.adUnits];
    case_switches cfg;
    cbn [snd orb ReqBidsConfig.ortb2Fragments option_map Fragments.bidder
         read_fragment]; try reflexivity.
  all: apply get_path_mergeDeep_misses; apply misses_bidderConfig;
    intros H; rewrite site_ext_data_spine; apply misses_spine; auto.
Qed.

End Kept.

(** C9, as amended: in both revisions every path of the global fragment
    that leaves [site.ext.data.responsiveStretch] reads after the merge as
    before, and so does every path of the bidder fragment that is under
    another bidder than the configured ones or leaves that path under a
    configured one.  Every ad unit keeps its [code] and its other
    properties; in the full-geometry revision every path of its [ortb2Imp]
    that leaves [ext.data.responsiveStretch] reads as before, and in the
    width-only revision every path that leaves both that one and
    [banner.wmax]. *)
Theorem C9_merge_leaves_other_paths_alone :
  forall host req stretchData moduleConfig,
    let afterB :=
      RevB.addStretchDataToORTB2 host req stretchData moduleConfig in
    let afterA :=
      RevA.addStretchDataToORTB2 host req stretchData moduleConfig in
    (forall q,
       diverges q scope_path = true ->
       read_fragment (global_fragment (snd afterB)) q
       = read_fragment (global_fragment req) q
       /\ read_fragment (global_fragment (snd afterA)) q
          = read_fragment (global_fragment req) q)
    /\ (forall bidder q,
          (existsb (String.eqb bidder)
             (bidders_codes (bidders_of moduleConfig)) = true ->
           diverges q scope_path = true) ->
          read_fragment (bidder_fragment (snd afterB)) (bidder :: q)
          = read_fragment (bidder_fragment req) (bidder :: q)
          /\ read_fragment (bidder_fragment (snd afterA)) (bidder :: q)
             = read_fragment (bidder_fragment req) (bidder :: q))
    /\ units_kept [imp_path] (ReqBidsConfig.adUnits req)
         (adUnits_after afterB)
    /\ units_kept [imp_path; wmax_path] (ReqBidsConfig.adUnits req)
         (adUnits_after afterA)
    /\ (ReqBidsConfig.ortb2Fragments (snd afterB) = None
        <-> ReqBidsConfig.ortb2Fragments req = None)
    /\ (ReqBidsConfig.ortb2Fragments (snd afterA) = None
        <-> ReqBidsConfig.ortb2Fragments req = None).
Proof.
  intros host req sd cfg afterB afterA.
  unfold afterB, afterA, adUnits_after, RevB.addStretchDataToORTB2,
    RevA.addStretchDataToORTB2.
  split; [|split; [|split; [|split; [|split]]]].
  - intros q Hq. split; now apply addStretchData_global_kept.
  - intros bidder q Hq. split; now apply addStretchData_bidder_kept.
  - apply addStretchData_units_kept. intros si q Hq.
    rewrite impData_spine. apply misses_spine. apply Hq. now left.
  - apply addStretchData_units_kept. intros si q Hq.
    apply misses_impData_A; apply Hq; cbn; auto.
  - apply addStretchData_fragments_present.
  - apply addStretchData_fragments_present.
Qed.

Lemma C9_witness :
  read_fragment
    (global_fragment
       (snd (RevB.addStretchDataToORTB2 host_C1 request_C9 stretchData_C10
               empty_config))) ["site"; "page"]
  = read_fragment (global_fragment request_C9) ["site"; "page"]
  /\ read_fragment
       (global_fragment
          (snd (RevA.addStretchDataToORTB2 host_C1 request_C9
                  stretchData_C10 empty_config))) ["site"; "page"]
     = read_fragment (global_fragment request_C9) ["site"; "page"].
Proof.
  destruct (C9_merge_leaves_other_paths_alone host_C1 request_C9
              stretchData_C10 empty_config) as (H & _).
  apply (H ["site"; "page"]). reflexivity.
Defined.

(** C9, as stated, fails in the width-only revision: the impression merge
    also writes [banner.wmax], which is none of the three scope paths. *)
Lemma C9_counterexample :
  let before :=
    AdUnit.make (Some "slot-2") (JS.VObj []) [] in
  let req :=
    ReqBidsConfig.make (Some (Fragments.make (JS.VObj []) (JS.VObj [])))
      (Some [Some before]) in
  exists after,
    adUnits_after
      (RevA.addStretchDataToORTB2 host_C1 req stretchData_A empty_config)
    = Some [Some after]
    /\ JS.get_path wmax_path (AdUnit.ortb2Imp before) = None
    /\ JS.get_path wmax_path (AdUnit.ortb2Imp after)
       = Some (JS.VNum (JS.of_Z 300))
    /\ diverges wmax_path imp_path = true.
Proof.
  cbv zeta. eexists. split; [reflexivity|]. repeat split; reflexivity.
Qed.

(* ------------------------------------------------------------------ *)
(** ** The unit tests of the provider, on the embedding *)

(** 'should calculate correct space measurements' (lines 776-789). *)
Example test_calculateAdSlotSpace :
  measured host_C1 element_C1 "width" = JS.VNum (JS.of_Z 300)
  /\ measured host_C1 element_C1 "height" = JS.VNum (JS.of_Z 250)
  /\ measured host_C1 element_C1 "stretchLeft" = JS.VNum (JS.of_Z 50)
  /\ measured host_C1 element_C1 "stretchRight" = JS.VNum (JS.of_Z 1570)
  /\ measured host_C1 element_C1 "stretchUp" = JS.VNum (JS.of_Z 100)
  /\ measured host_C1 element_C1 "stretchDown" = JS.VNum (JS.of_Z 730)
  /\ measured host_C1 element_C1 "isVisible" = JS.VBool true
  /\ measured host_C1 element_C1 "parentWidth" = JS.VNum (JS.of_Z 1200)
  /\ measured host_C1 element_C1 "parentHeight" = JS.VNum (JS.of_Z 800).
Proof. repeat split; reflexivity. Qed.

(** 'should add data to specific bidders' (lines 912-918). *)
Example test_specific_bidders :
  read_fragment
    (bidder_fragment
       (snd (RevB.addStretchDataToORTB2 host_C1 test_request
               test_stretchData (test_config ["appnexus"] true))))
    ("appnexus" :: adUnits_path)
  = Some (JS.VObj test_stretchData).
Proof. reflexivity. Qed.

(** 'should add data to global ORTB2 when no bidders specified' (lines
    920-927). *)
Example test_global :
  read_fragment
    (global_fragment
       (snd (RevB.addStretchDataToORTB2 host_C1 test_request
               test_stretchData (test_config [] true))))
    adUnits_path
  = Some (JS.VObj test_stretchData).
Proof. reflexivity. Qed.

(** 'should add impression-level data' (lines 929-934). *)
Example test_impression_level :
  match
    first_ortb2Imp
      (snd (RevB.addStretchDataToORTB2 host_C1 test_request
              test_stretchData (test_config ["appnexus"] true)))
  with
  | Some imp => JS.get_path imp_path imp
  | None => None
  end
  = JS.get "ad-unit-1" test_stretchData.
Proof. reflexivity. Qed.

(** 'should respect configuration flags' (lines 936-942). *)
Example test_impLevel_disabled :
  first_ortb2Imp
    (snd (RevB.addStretchDataToORTB2 host_C1 test_request test_stretchData
            (test_config ["appnexus"] false)))
  = Some (JS.VObj []).
Proof. reflexivity. Qed.

(* ================================================================== *)
(** * Further properties of the code *)
(* ================================================================== *)

(* ------------------------------------------------------------------ *)
(** ** The measurement record *)

Lemma parent_finite_readable el : parent_finite el -> parent_readable el.
Proof. intros H p Hp. destruct (H p Hp) as (r & Hr & _). eauto. Qed.

(** [isVisible] of a box whose width is [right - left] and whose height is
    [bottom - top], in a viewport of positive size: the box and the viewport
    overlap in a rectangle of positive width and height. *)
Theorem isVisible_iff_overlap :
  forall host el (w h t l r b vw vh : Q),
    Host.viewportSize host = Viewport.make (JS.Fin vw) (JS.Fin vh) ->
    getBoundingClientRect el = JS.Returns (finite_rect w h t l r b) ->
    parent_readable el ->
    Qeq w (r - l) ->
    Qeq h (b - t) ->
    0 < vw ->
    0 < vh ->
    (measured host el "isVisible" = JS.VBool true
     <-> Qmax l 0 < Qmin r vw /\ Qmax t 0 < Qmin b vh)
    /\ (measured host el "isVisible" = JS.VBool true
        \/ measured host el "isVisible" = JS.VBool false).
Proof.
  intros host el w h t l r b vw vh Hvp Hrect Hparent Hw Hh Hvw Hvh.
  destruct (calculateAdSlotSpace_readable host Hrect Hparent)
    as (m & Hm & _ & _ & _ & _ & _ & _ & HV & _).
  unfold measured. rewrite Hm. unfold JS.member, JS.prop. rewrite HV, Hvp.
  cbn [DOMRect.width DOMRect.height DOMRect.top DOMRect.left DOMRect.right
       DOMRect.bottom finite_rect Viewport.width Viewport.height].
  assert (G : forall x y : Q, JS.lt (JS.Fin x) (JS.Fin y) = true <-> x < y).
  { intros x y. cbn [JS.lt]. rewrite Qlt_alt.
    destruct (Qcompare x y); split; congruence. }
  assert (B : forall e, JS.VBool e = JS.VBool true <-> e = true).
  { intros e. split; [intros [= ->]|intros ->]; reflexivity. }
  split.
  - rewrite B, !andb_true_iff. unfold JS.gt, JS.of_Z. rewrite !G.
    rewrite !Q.max_lub_lt_iff, !Q.min_glb_lt_iff.
    change (inject_Z 0) with 0. intuition lra.
  - match goal with |- context [JS.VBool ?e] => destruct e end; auto.
Qed.

Lemma isVisible_iff_overlap_witness :
  (measured host_C1 element_C1 "isVisible" = JS.VBool true
   <-> Qmax 50 0 < Qmin 350 1920 /\ Qmax 100 0 < Qmin 350 1080)
  /\ (measured host_C1 element_C1 "isVisible" = JS.VBool true
      \/ measured host_C1 element_C1 "isVisible" = JS.VBool false).
Proof.
  apply (@isVisible_iff_overlap host_C1 element_C1
           300 250 100 50 350 350 1920 1080).
  - reflexivity.
  - reflexivity.
  - intros p Hp. simpl in Hp. injection Hp as <-. eexists. reflexivity.
  - reflexivity.
  - reflexivity.
  - reflexivity.
  - reflexivity.
Defined.

Lemma calculateAdSlotSpace_sizes host el rect :
  getBoundingClientRect el = JS.Returns rect ->
  parent_readable el ->
  exists m,
    RevB.calculateAdSlotSpace host (Some el)
    = JS.Returns (Some (JS.VObj m))
    /\ JS.get "width" m
       = Some (JS.VNum (JS.Math_round (DOMRect.width rect)))
    /\ JS.get "height" m
       = Some (JS.VNum (JS.Math_round (DOMRect.height rect))).
Proof.
  intros Hrect Hparent. destruct el as [r s b p]. simpl in Hrect. subst r.
  unfold RevB.calculateAdSlotSpace.
  cbn [getBoundingClientRect parentElement JS.bind].
  destruct p as [p|].
  - destruct (Hparent p eq_refl) as [pr Hpr]. rewrite Hpr.
    cbn [JS.bind JS.try_catch]. eexists. split; [reflexivity|].
    split; reflexivity.
  - cbn [JS.bind JS.try_catch]. eexists. split; [reflexivity|].
    split; reflexivity.
Qed.

(** The rounding of a finite number, between the number less a half and the
    number plus a half. *)
Lemma round_bounds (q : Q) :
  inject_Z (Qfloor (q + (1 # 2))) <= q + (1 # 2)
  /\ q - (1 # 2) < inject_Z (Qfloor (q + (1 # 2))).
Proof.
  split; [apply Qfloor_le|].
  pose proof (Qlt_floor (q + (1 # 2))) as H.
  rewrite inject_Z_plus in H. change (inject_Z 1) with 1 in H. lra.
Qed.

(** [totalAvailableWidth] is the rounding of the sum, not the sum of the
    roundings: it is within one pixel of [width + stretchLeft +
    stretchRight], and [totalAvailableHeight] within one pixel of [height +
    stretchUp + stretchDown]. *)
Theorem total_within_one_pixel_of_the_parts :
  forall host el (w h t l r b vw vh : Q),
    Host.viewportSize host = Viewport.make (JS.Fin vw) (JS.Fin vh) ->
    getBoundingClientRect el = JS.Returns (finite_rect w h t l r b) ->
    parent_readable el ->
    (exists total width stretchLeft stretchRight : Z,
       measured host el "totalAvailableWidth" = JS.VNum (JS.of_Z total)
       /\ measured host el "width" = JS.VNum (JS.of_Z width)
       /\ measured host el "stretchLeft" = JS.VNum (JS.of_Z stretchLeft)
       /\ measured host el "stretchRight" = JS.VNum (JS.of_Z stretchRight)
       /\ (Z.abs (total - (width + stretchLeft + stretchRight)) <= 1)%Z)
    /\ (exists total height stretchUp stretchDown : Z,
          measured host el "totalAvailableHeight" = JS.VNum (JS.of_Z total)
          /\ measured host el "height" = JS.VNum (JS.of_Z height)
          /\ measured host el "stretchUp" = JS.VNum (JS.of_Z stretchUp)
          /\ measured host el "stretchDown" = JS.VNum (JS.of_Z stretchDown)
          /\ (Z.abs (total - (height + stretchUp + stretchDown)) <= 1)%Z).
Proof.
  intros host el w h t l r b vw vh Hvp Hrect Hparent.
  destruct (calculateAdSlotSpace_readable host Hrect Hparent)
    as (m & Hm & HL & HR & HU & HD & HTW & HTH & _).
  destruct (calculateAdSlotSpace_sizes host Hrect Hparent)
    as (m' & Hm' & HW & HH).
  rewrite Hm in Hm'. injection Hm' as <-.
  unfold measured. rewrite Hm. unfold JS.member, JS.prop.
  rewrite HL, HR, HU, HD, HTW, HTH, HW, HH, Hvp.
  cbn [DOMRect.width DOMRect.height DOMRect.top DOMRect.left DOMRect.right
       DOMRect.bottom finite_rect Viewport.width Viewport.height JS.add
       JS.sub JS.neg JS.Math_round].
  assert (K : forall x y z : Q,
            (Z.abs (Qfloor (x + y + z + (1 # 2))
                    - (Qfloor (x + (1 # 2)) + Qfloor (y + (1 # 2))
                       + Qfloor (z + (1 # 2)))) <= 1)%Z).
  { intros x y z.
    destruct (round_bounds x) as [X1 X2], (round_bounds y) as [Y1 Y2],
      (round_bounds z) as [Z1 Z2], (round_bounds (x + y + z)) as [S1 S2].
    set (a := Qfloor (x + (1 # 2))) in *.
    set (b0 := Qfloor (y + (1 # 2))) in *.
    set (c := Qfloor (z + (1 # 2))) in *.
    set (d := Qfloor (x + y + z + (1 # 2))) in *.
    assert (Hlt : (d - (a + b0 + c) < 2)%Z).
    { rewrite Zlt_Qlt. unfold Z.sub.
      rewrite !inject_Z_plus, inject_Z_opp, !inject_Z_plus.
      change (inject_Z 2) with 2. lra. }
    assert (Hgt : (-2 < d - (a + b0 + c))%Z).
    { rewrite Zlt_Qlt. unfold Z.sub.
      rewrite !inject_Z_plus, inject_Z_opp, !inject_Z_plus.
      change (inject_Z (-2)) with (-2). lra. }
    lia. }
  split; do 4 eexists; repeat (split; [reflexivity|]); apply K.
Qed.

Lemma total_within_one_pixel_witness :
  (exists total width stretchLeft stretchRight : Z,
     measured host_C1 element_C1 "totalAvailableWidth"
     = JS.VNum (JS.of_Z total)
     /\ measured host_C1 element_C1 "width" = JS.VNum (JS.of_Z width)
     /\ measured host_C1 element_C1 "stretchLeft"
        = JS.VNum (JS.of_Z stretchLeft)
     /\ measured host_C1 element_C1 "stretchRight"
        = JS.VNum (JS.of_Z stretchRight)
     /\ (Z.abs (total - (width + stretchLeft + stretchRight)) <= 1)%Z)
  /\ (exists total height stretchUp stretchDown : Z,
        measured host_C1 element_C1 "totalAvailableHeight"
        = JS.VNum (JS.of_Z total)
        /\ measured host_C1 element_C1 "height" = JS.VNum (JS.of_Z height)
        /\ measured host_C1 element_C1 "stretchUp"
           = JS.VNum (JS.of_Z stretchUp)
        /\ measured host_C1 element_C1 "stretchDown"
           = JS.VNum (JS.of_Z stretchDown)
        /\ (Z.abs (total - (height + stretchUp + stretchDown)) <= 1)%Z).
Proof.
  apply (@total_within_one_pixel_of_the_parts host_C1 element_C1
           300 250 100 50 350 350 1920 1080).
  - reflexivity.
  - reflexivity.
  - intros p Hp. simpl in Hp. injection Hp as <-. eexists. reflexivity.
Defined.

(** The pixel is lost on a box half a pixel wide, half a pixel from either
    edge of a viewport a pixel and a half wide: the parts round to 1, 1 and
    1, the total to 2. *)
Example total_differs_from_the_parts :
  let host := host_with_viewport (JS.Fin (3 # 2)) (JS.of_Z 1080) in
  let el :=
    slot_with_rect (finite_rect (1 # 2) 250 100 (1 # 2) 1 350) in
  measured host el "totalAvailableWidth" = JS.VNum (JS.of_Z 2)
  /\ measured host el "width" = JS.VNum (JS.of_Z 1)
  /\ measured host el "stretchLeft" = JS.VNum (JS.of_Z 1)
  /\ measured host el "stretchRight" = JS.VNum (JS.of_Z 1).
Proof. repeat split; reflexivity. Qed.

Lemma percentage_bounds (x y : Q) :
  0 <= x -> x <= y -> 0 < y ->
  exists z,
    JS.Math_round (JS.mul (JS.div (JS.Fin x) (JS.Fin y)) (JS.of_Z 100))
    = JS.of_Z z
    /\ (0 <= z <= 100)%Z.
Proof.
  intros Hx Hxy Hy. unfold JS.div.
  destruct (Qcompare y 0) eqn:E.
  - apply Qeq_alt in E. lra.
  - apply Qlt_alt in E. lra.
  - cbn [JS.mul JS.of_Z JS.Math_round]. eexists. split; [reflexivity|].
    assert (H0 : 0 <= x / y) by (apply Qle_shift_div_l; lra).
    assert (H1 : x / y <= 1) by (apply Qle_shift_div_r; lra).
    change (inject_Z 100) with 100. split.
    + rewrite <- (Qfloor_Z 0). apply Qfloor_resp_le.
      change (inject_Z 0) with 0. lra.
    + assert (H : (Qfloor (x / y * 100 + (1 # 2))
                   <= Qfloor ((201 # 2)))%Z)
        by (apply Qfloor_resp_le; lra).
      exact H.
Qed.

(** The share of the viewport a box takes is between 0 and 100 when the box
    is no larger than the viewport. *)
Theorem percentages_between_0_and_100 :
  forall host el (w h t l r b vw vh : Q),
    Host.viewportSize host = Viewport.make (JS.Fin vw) (JS.Fin vh) ->
    getBoundingClientRect el = JS.Returns (finite_rect w h t l r b) ->
    parent_readable el ->
    0 <= w -> w <= vw -> 0 < vw ->
    0 <= h -> h <= vh -> 0 < vh ->
    exists pw ph : Z,
      measured host el "viewportWidthPercentage" = JS.VNum (JS.of_Z pw)
      /\ measured host el "viewportHeightPercentage" = JS.VNum (JS.of_Z ph)
      /\ (0 <= pw <= 100)%Z
      /\ (0 <= ph <= 100)%Z.
Proof.
  intros host el w h t l r b vw vh Hvp Hrect Hparent W0 W1 W2 H0 H1 H2.
  destruct (calculateAdSlotSpace_readable host Hrect Hparent)
    as (m & Hm & _ & _ & _ & _ & _ & _ & _ & HWP & HHP & _).
  unfold measured. rewrite Hm. unfold JS.member, JS.prop.
  rewrite HWP, HHP, Hvp.
  cbn [DOMRect.width DOMRect.height finite_rect Viewport.width
       Viewport.height].
  destruct (percentage_bounds W0 W1 W2) as (pw & -> & Hpw).
  destruct (percentage_bounds H0 H1 H2) as (ph & -> & Hph).
  exists pw, ph. auto.
Qed.

Lemma percentages_witness :
  exists pw ph : Z,
    measured host_C1 element_C1 "viewportWidthPercentage"
    = JS.VNum (JS.of_Z pw)
    /\ measured host_C1 element_C1 "viewportHeightPercentage"
       = JS.VNum (JS.of_Z ph)
    /\ (0 <= pw <= 100)%Z
    /\ (0 <= ph <= 100)%Z.
Proof.
  apply (@percentages_between_0_and_100 host_C1 element_C1
           300 250 100 50 350 350 1920 1080).
  - reflexivity.
  - reflexivity.
  - intros p Hp. simpl in Hp. injection Hp as <-. eexists. reflexivity.
  - discriminate.
  - discriminate.
  - reflexivity.
  - discriminate.
  - discriminate.
  - reflexivity.
Defined.

(** With a finite layout and a viewport of finite, non-zero size every
    field of the measurement is an integer, a boolean or [null]. *)
Theorem measurement_fields_are_integral :
  forall host el (w h t l r b vw vh : Q),
    Host.viewportSize host = Viewport.make (JS.Fin vw) (JS.Fin vh) ->
    getBoundingClientRect el = JS.Returns (finite_rect w h t l r b) ->
    parent_finite el ->
    ~ Qeq vw 0 ->
    ~ Qeq vh 0 ->
    exists m,
      RevB.calculateAdSlotSpace host (Some el)
      = JS.Returns (Some (JS.VObj m))
      /\ List.length m = 21%nat
      /\ Forall (fun kv => integral (snd kv)) m.
Proof.
  intros host el w h t l r b vw vh Hvp Hrect Hparent Hvw Hvh.
  destruct el as [rc s body p]. simpl in Hrect. subst rc.
  unfold RevB.calculateAdSlotSpace.
  cbn [getBoundingClientRect parentElement JS.bind]. rewrite Hvp.
  assert (P : forall x y : Q, ~ Qeq y 0 ->
            exists z,
              JS.Math_round
                (JS.mul (JS.div (JS.Fin x) (JS.Fin y)) (JS.of_Z 100))
              = JS.of_Z z).
  { intros x y Hy. unfold JS.div. destruct (Qcompare y 0) eqn:E.
    - exfalso. apply Hy. now apply Qeq_alt.
    - eexists. reflexivity.
    - eexists. reflexivity. }
  destruct (P w vw Hvw) as [pw Hpw]. destruct (P h vh Hvh) as [ph Hph].
  destruct p as [p|].
  - destruct (Hparent p eq_refl) as (pr & Hpr & Fw & Fh). rewrite Hpr.
    cbn [JS.bind JS.try_catch]. eexists. split; [reflexivity|].
    split; [reflexivity|].
    cbn [DOMRect.width DOMRect.height DOMRect.top DOMRect.left
         DOMRect.right DOMRect.bottom finite_rect Viewport.width
         Viewport.height JS.sub JS.add JS.neg].
    rewrite Hpw, Hph.
    destruct (DOMRect.width pr); try discriminate.
    destruct (DOMRect.height pr); try discriminate.
    repeat constructor; cbn [snd integral JS.Math_round]; eauto.
  - cbn [JS.bind JS.try_catch]. eexists. split; [reflexivity|].
    split; [reflexivity|].
    cbn [DOMRect.width DOMRect.height DOMRect.top DOMRect.left
         DOMRect.right DOMRect.bottom finite_rect Viewport.width
         Viewport.height JS.sub JS.add JS.neg].
    rewrite Hpw, Hph.
    repeat constructor; cbn [snd integral JS.Math_round]; eauto.
Qed.

Lemma measurement_fields_are_integral_witness :
  exists m,
    RevB.calculateAdSlotSpace host_C1 (Some element_C1)
    = JS.Returns (Some (JS.VObj m))
    /\ List.length m = 21%nat
    /\ Forall (fun kv => integral (snd kv)) m.
Proof.
  apply (@measurement_fields_are_integral host_C1 element_C1
           300 250 100 50 350 350 1920 1080).
  - reflexivity.
  - reflexivity.
  - intros p Hp. simpl in Hp. injection Hp as <-. eexists.
    repeat split; reflexivity.
  - discriminate.
  - discriminate.
Defined.

(* ------------------------------------------------------------------ *)
(** ** Looking a slot up *)

Lemma first_found_some l el :
  first_found l = Some el
  <-> exists before after,
        l = (before ++ JS.Returns (Some el) :: after)%list
        /\ Forall gives_up before.
Proof.
  induction l as [|s l IH]; cbn [first_found].
  - split; [discriminate|]. intros (before & after & H & _).
    destruct before; discriminate H.
  - destruct s as [[e|]|]; cbn [JS.try_catch].
    + split.
      * intros [= ->]. exists [], l. split; [reflexivity|constructor].
      * intros (before & after & H & Hb). destruct before as [|s0 before].
        -- now injection H as ->.
        -- injection H as <- _. inversion Hb as [|? ? [E|E] _]; discriminate E.
    + rewrite IH. split; intros (before & after & H & Hb).
      * exists (JS.Returns None :: before), after. subst l.
        split; [reflexivity|]. constructor; [now right|exact Hb].
      * destruct before as [|s0 before]; [discriminate H|].
        injection H as _ H. inversion Hb; subst. eauto.
    + rewrite IH. split; intros (before & after & H & Hb).
      * exists (JS.Throws :: before), after. subst l.
        split; [reflexivity|]. constructor; [now left|exact Hb].
      * destruct before as [|s0 before]; [discriminate H|].
        injection H as _ H. inversion Hb; subst. eauto.
Qed.

Lemma first_found_none l : first_found l = None <-> Forall gives_up l.
Proof.
  induction l as [|s l IH]; cbn [first_found].
  - split; [constructor|reflexivity].
  - destruct s as [[e|]|]; cbn [JS.try_catch].
    + split; [discriminate|]. intros H.
      inversion H as [|? ? [E|E] _]; discriminate E.
    + rewrite IH. split; intros H.
      * constructor; [now right|exact H].
      * now inversion H.
    + rewrite IH. split; intros H.
      * constructor; [now left|exact H].
      * now inversion H.
Qed.

(** [findAdSlotElement] returns the element of the first of the six lookups
    that finds one, the lookups before it having thrown or found nothing;
    it returns [null] exactly when every lookup throws or finds nothing; and
    an element found by [getElementById] is returned whatever the selectors
    would find. *)
Theorem findAdSlotElement_first_hit :
  forall document adUnitCode,
    (forall el,
       findAdSlotElement document adUnitCode = Some el
       <-> exists before after,
             strategies document adUnitCode
             = (before ++ JS.Returns (Some el) :: after)%list
             /\ Forall gives_up before)
    /\ (findAdSlotElement document adUnitCode = None
        <-> Forall gives_up (strategies document adUnitCode))
    /\ (forall el,
          Document.getElementById document adUnitCode
          = JS.Returns (Some el) ->
          findAdSlotElement document adUnitCode = Some el)
    /\ List.length (strategies document adUnitCode) = 6%nat.
Proof.
  intros document code. split; [|split; [|split]].
  - intros el. apply first_found_some.
  - apply first_found_none.
  - intros el H. unfold findAdSlotElement, strategies.
    cbn [first_found]. now rewrite H.
  - reflexivity.
Qed.

Lemma findAdSlotElement_first_hit_witness :
  findAdSlotElement document_C5 "slot-2" = Some element_C1.
Proof.
  destruct (findAdSlotElement_first_hit document_C5 "slot-2")
    as (_ & _ & H & _).
  apply H. reflexivity.
Defined.

(* ------------------------------------------------------------------ *)
(** ** Collecting the measurements *)

Section CollectSound.

Variable document : Document.t.
Variable calc : option Element -> JS.outcome (option JS.value).

Lemma collect_each_sound code m l :
  forall acc sd,
    collect_each document calc l acc = JS.Returns sd ->
    JS.get code sd = Some m ->
    JS.get code acc = Some m
    \/ exists u,
         In (Some u) l
         /\ AdUnit.code u = Some code
         /\ code <> ""
         /\ calc (findAdSlotElement document code) = JS.Returns (Some m).
Proof.
  induction l as [|[u|] l IH]; intros acc sd H Hget; cbn [collect_each] in H.
  - injection H as <-. now left.
  - destruct (code_is_falsy (AdUnit.code u)) eqn:Ef.
    + destruct (IH _ _ H Hget) as [Ha|(u' & Hin & Hu')]; [now left|].
      right. exists u'. split; [now right|exact Hu'].
    + destruct (calc (findAdSlotElement document (code_key (AdUnit.code u))))
        as [[d|]|] eqn:Ec; cbn [JS.bind] in H; [| |discriminate].
      * destruct (IH _ _ H Hget) as [Ha|(u' & Hin & Hu')].
        -- destruct (string_dec code (code_key (AdUnit.code u))) as [E|Hne].
           ++ right. exists u. split; [now left|].
              destruct (AdUnit.code u) as [c|] eqn:Eu; [|discriminate Ef].
              cbn [code_key] in E, Ec. subst c.
              rewrite get_set_same in Ha. injection Ha as ->.
              repeat split; auto.
              intros ->. discriminate Ef.
           ++ left. now rewrite get_set_other in Ha.
        -- right. exists u'. split; [now right|exact Hu'].
      * destruct (IH _ _ H Hget) as [Ha|(u' & Hin & Hu')]; [now left|].
        right. exists u'. split; [now right|exact Hu'].
  - discriminate.
Qed.

Lemma collect_each_skips l1 u l2 :
  code_is_falsy (AdUnit.code u) = true ->
  forall acc,
    collect_each document calc (l1 ++ Some u :: l2)%list acc
    = collect_each document calc (l1 ++ l2)%list acc.
Proof.
  intros Hf acc. rewrite !collect_each_app.
  destruct (collect_each document calc l1 acc) as [sd|]; [|reflexivity].
  cbn [JS.bind collect_each]. now rewrite Hf.
Qed.

End CollectSound.

(** Every entry of the map [collectResponsiveStretchData] returns is the
    measurement of the element found for the code of one of the ad units;
    so a code whose element is not found has no entry, and neither has a
    code no ad unit carries. *)
Theorem collected_entries_are_measurements :
  forall host adUnits stretchData,
    RevB.collectResponsiveStretchData host (Some adUnits)
    = JS.Returns stretchData ->
    (forall code m,
       JS.get code stretchData = Some m ->
       exists adUnit el,
         In (Some adUnit) adUnits
         /\ AdUnit.code adUnit = Some code
         /\ code <> ""
         /\ findAdSlotElement (Host.document host) code = Some el
         /\ RevB.calculateAdSlotSpace host (Some el) = JS.Returns (Some m))
    /\ (forall code,
          findAdSlotElement (Host.document host) code = None ->
          JS.get code stretchData = None).
Proof.
  intros host adUnits sd H.
  assert (S : forall code m,
            JS.get code sd = Some m ->
            exists adUnit el,
              In (Some adUnit) adUnits
              /\ AdUnit.code adUnit = Some code
              /\ code <> ""
              /\ findAdSlotElement (Host.document host) code = Some el
              /\ RevB.calculateAdSlotSpace host (Some el)
                 = JS.Returns (Some m)).
  { intros code m Hget.
    destruct (collect_each_sound _ _ code adUnits _ H Hget)
      as [Ha|(u & Hin & Hc & Hne & Hcalc)]; [discriminate Ha|].
    destruct (findAdSlotElement (Host.document host) code) as [el|] eqn:Ef;
      [|discriminate Hcalc].
    exists u, el. auto. }
  split; [exact S|].
  intros code Hnone. destruct (JS.get code sd) as [m|] eqn:E; [|reflexivity].
  destruct (S code m E) as (u & el & _ & _ & _ & Hf & _). congruence.
Qed.

Lemma collected_entries_witness :
  (forall code m,
     JS.get code [("slot-2", measurement_C1)] = Some m ->
     exists adUnit el,
       In (Some adUnit)
         [Some (adUnit_of_code "slot-1"); Some (adUnit_of_code "slot-2")]
       /\ AdUnit.code adUnit = Some code
       /\ code <> ""
       /\ findAdSlotElement (Host.document host_C5) code = Some el
       /\ RevB.calculateAdSlotSpace host_C5 (Some el) = JS.Returns (Some m))
  /\ (forall code,
        findAdSlotElement (Host.document host_C5) code = None ->
        JS.get code [("slot-2", measurement_C1)] = None).
Proof.
  apply (@collected_entries_are_measurements host_C5
           [Some (adUnit_of_code "slot-1"); Some (adUnit_of_code "slot-2")]).
  reflexivity.
Defined.

(** What [collectResponsiveStretchData] does at the edges: a missing or
    empty list gives the empty map; an ad unit without a code, or with an
    empty one, is passed over as if it were not in the list; a [null] entry
    after ad units that are not [null] throws. *)
Theorem collect_edge_cases :
  forall host,
    RevB.collectResponsiveStretchData host None = JS.Returns []
    /\ RevB.collectResponsiveStretchData host (Some []) = JS.Returns []
    /\ (forall before adUnit after,
          code_is_falsy (AdUnit.code adUnit) = true ->
          RevB.collectResponsiveStretchData host
            (Some (before ++ Some adUnit :: after)%list)
          = RevB.collectResponsiveStretchData host
              (Some (before ++ after)%list))
    /\ (forall before after,
          RevB.collectResponsiveStretchData host
            (Some (map Some before ++ None :: after)%list)
          = JS.Throws).
Proof.
  intros host. split; [reflexivity|]. split; [reflexivity|]. split.
  - intros before u after Hf.
    unfold RevB.collectResponsiveStretchData, collect.
    now apply collect_each_skips.
  - intros before after.
    unfold RevB.collectResponsiveStretchData, collect.
    rewrite collect_each_app.
    assert (H : forall acc,
              exists sd,
                collect_each (Host.document host)
                  (RevB.calculateAdSlotSpace host) (map Some before) acc
                = JS.Returns sd).
    { induction before as [|u before IH]; intros acc; cbn [map collect_each].
      - eauto.
      - destruct (code_is_falsy (AdUnit.code u)); [apply IH|].
        destruct (calculateAdSlotSpace_never_throws host
                    (findAdSlotElement (Host.document host)
                       (code_key (AdUnit.code u)))) as [r ->].
        cbn [JS.bind]. destruct r; apply IH. }
    destruct (H []) as [sd ->]. reflexivity.
Qed.

Lemma collect_edge_cases_witness :
  RevB.collectResponsiveStretchData host_C5
    (Some ([Some (adUnit_of_code "slot-2")]
           ++ Some (AdUnit.make None JS.VUndefined []) :: [])%list)
  = RevB.collectResponsiveStretchData host_C5
      (Some ([Some (adUnit_of_code "slot-2")] ++ [])%list).
Proof.
  destruct (collect_edge_cases host_C5) as (_ & _ & H & _).
  apply H. reflexivity.
Defined.

(* ------------------------------------------------------------------ *)
(** ** The width-only measurement *)

Lemma walk_cut_at_body e :
  forall bound, RevA.walk (cut_at_body e) bound = RevA.walk e bound.
Proof.
  induction e as [rect style isBody parent IH] using Element_induction.
  intros bound. cbn [cut_at_body]. destruct isBody; [reflexivity|].
  cbn [RevA.walk]. destruct style as [s|]; [|reflexivity].
  destruct rect as [r|]; [|reflexivity]. cbn [JS.bind].
  destruct parent as [p|]; [|reflexivity]. now apply IH.
Qed.

Lemma walk_unreadable e :
  forall bound,
    Exists unreadable (walked e) -> RevA.walk e bound = JS.Throws.
Proof.
  induction e as [rect style isBody parent IH] using Element_induction.
  intros bound H. cbn [walked] in H. cbn [RevA.walk].
  destruct isBody; [inversion H|].
  destruct style as [s|]; [|reflexivity].
  destruct rect as [r|]; [|reflexivity]. cbn [JS.bind].
  inversion H as [? ? [E|E]|? ? Hrest]; subst; try discriminate E.
  destruct parent as [p|]; [|inversion Hrest]. now apply IH.
Qed.

(** The walk of [getMaxAvailableWidth] reads nothing at [document.body] or
    above it; when the style or the rectangle of an element below cannot be
    read it throws, and the measurement of the slot is [null]; and
    [calculateAdSlotSpace] itself never throws. *)
Theorem walk_stops_at_body_and_fails_as_a_whole :
  forall host el,
    RevA.getMaxAvailableWidth (Some (cut_at_body el))
    = RevA.getMaxAvailableWidth (Some el)
    /\ (Exists unreadable (walked el) ->
        RevA.getMaxAvailableWidth (Some el) = JS.Throws
        /\ RevA.calculateAdSlotSpace host (Some el) = JS.Returns None)
    /\ (exists r, RevA.calculateAdSlotSpace host (Some el) = JS.Returns r)
    /\ RevA.calculateAdSlotSpace host None = JS.Returns None
    /\ RevA.getMaxAvailableWidth None = JS.Returns JS.PInf.
Proof.
  intros host el. split; [apply walk_cut_at_body|]. split; [|split].
  - intros H. pose proof (@walk_unreadable el JS.PInf H) as Hw.
    split; [exact Hw|]. unfold RevA.calculateAdSlotSpace.
    cbn [RevA.getMaxAvailableWidth]. rewrite Hw.
    now destruct (getBoundingClientRect el).
  - unfold RevA.calculateAdSlotSpace.
    destruct (getBoundingClientRect el); cbn [JS.bind JS.try_catch];
      [|eauto].
    destruct (RevA.getMaxAvailableWidth (Some el));
      cbn [JS.bind JS.try_catch]; eauto.
  - split; reflexivity.
Qed.

Lemma walk_fails_witness :
  RevA.getMaxAvailableWidth (Some chain_with_unreadable_parent) = JS.Throws
  /\ RevA.calculateAdSlotSpace host_C1 (Some chain_with_unreadable_parent)
     = JS.Returns None.
Proof.
  destruct (walk_stops_at_body_and_fails_as_a_whole host_C1
              chain_with_unreadable_parent) as (_ & H & _).
  apply H. cbn [walked chain_with_unreadable_parent document_body].
  apply Exists_cons_tl. apply Exists_cons_hd. right. reflexivity.
Defined.

Lemma Math_round_le a b :
  JS.le a b = true -> JS.le (JS.Math_round a) (JS.Math_round b) = true.
Proof.
  destruct a as [x| | |], b as [y| | |]; cbn [JS.le JS.Math_round JS.of_Z];
    try congruence.
  intros H.
  assert (Hxy : x <= y).
  { apply Qle_alt. intros E. now rewrite E in H. }
  assert (Hz : (Qfloor (x + (1 # 2)) <= Qfloor (y + (1 # 2)))%Z)
    by (apply Qfloor_resp_le; lra).
  rewrite Zle_Qle in Hz. apply (proj1 (Qle_alt _ _)) in Hz.
  clear H.
  destruct (Qcompare (inject_Z _) (inject_Z _)); try reflexivity.
  now elim Hz.
Qed.

(** In the width-only revision the [maxAvailableWidth] of a slot that is
    neither [display: contents] nor absolutely positioned is never above
    its own [width]. *)
Theorem maxAvailableWidth_at_most_own_width :
  forall host rect style parent,
    in_flow style = true ->
    Forall readable
      (walked (mkElement (JS.Returns rect) (JS.Returns style) false parent)) ->
    exists a b,
      measured_A host
        (mkElement (JS.Returns rect) (JS.Returns style) false parent)
        "maxAvailableWidth" = JS.VNum a
      /\ measured_A host
           (mkElement (JS.Returns rect) (JS.Returns style) false parent)
           "width" = JS.VNum b
      /\ JS.le a b = true.
Proof.
  intros host rect style parent Hflow Hread.
  set (el := mkElement (JS.Returns rect) (JS.Returns style) false parent) in *.
  destruct (@walk_spec el JS.PInf Hread) as (r & Hr & _ & _ & _ & Hall);
    [discriminate|].
  assert (Hle : JS.le r (DOMRect.width rect) = true).
  { apply Hall. unfold el. cbn [walked constraints flat_map].
    apply in_or_app. left. unfold constraint.
    cbn [getComputedStyle getBoundingClientRect]. rewrite Hflow. now left. }
  unfold measured_A, RevA.calculateAdSlotSpace.
  cbn [RevA.getMaxAvailableWidth]. rewrite Hr.
  unfold el at 1 2. cbn [getBoundingClientRect JS.bind JS.try_catch].
  do 2 eexists. split; [reflexivity|]. split; [reflexivity|].
  now apply Math_round_le.
Qed.

Lemma readable_slot_in_container : Forall readable (walked slot_in_container).
Proof.
  cbn [walked slot_in_container document_body].
  repeat constructor; (do 2 eexists; repeat split; [discriminate]).
Defined.

Lemma maxAvailableWidth_at_most_own_width_witness :
  exists a b,
    measured_A host_C1 slot_in_container "maxAvailableWidth" = JS.VNum a
    /\ measured_A host_C1 slot_in_container "width" = JS.VNum b
    /\ JS.le a b = true.
Proof.
  apply (@maxAvailableWidth_at_most_own_width host_C1
           (rect_of_width (JS.of_Z 300)) static_style
           (Some
              (mkElement (JS.Returns (rect_of_width (JS.of_Z 1200)))
                 (JS.Returns static_style) false (Some document_body)))).
  - reflexivity.
  - exact readable_slot_in_container.
Defined.

Lemma truthy_of_Z z : JS.truthy (JS.VNum (JS.of_Z z)) = negb (Z.eqb z 0).
Proof.
  cbn [JS.truthy JS.of_Z]. f_equal. unfold Qeq_bool, inject_Z. cbn.
  now rewrite Z.mul_1_r.
Qed.

(** In the width-only revision the impression payload of a measurement
    carries [banner.wmax], equal to [maxAvailableWidth], when that is an
    integer other than zero; it carries none when [maxAvailableWidth] is
    zero, [Infinity] (no element of the walk constrains the slot) or
    [NaN]. *)
Theorem wmax_follows_maxAvailableWidth :
  forall host el m mw,
    RevA.calculateAdSlotSpace host (Some el) = JS.Returns (Some m) ->
    RevA.getMaxAvailableWidth (Some el) = JS.Returns mw ->
    JS.member m "maxAvailableWidth" = JS.VNum (JS.Math_round mw)
    /\ (forall z,
          JS.Math_round mw = JS.of_Z z -> z <> 0%Z ->
          JS.get_path wmax_path (RevA.impData m)
          = Some (JS.VNum (JS.of_Z z)))
    /\ (JS.Math_round mw = JS.of_Z 0 \/ mw = JS.PInf \/ mw = JS.NaN ->
        JS.get_path wmax_path (RevA.impData m) = None)
    /\ JS.get_path imp_path (RevA.impData m) = Some m.
Proof.
  intros host el m mw Hm Hmw. unfold RevA.calculateAdSlotSpace in Hm.
  rewrite Hmw in Hm.
  destruct (getBoundingClientRect el) as [rect|]; [|discriminate Hm].
  cbn [JS.bind JS.try_catch] in Hm. injection Hm as <-.
  split; [reflexivity|].
  unfold RevA.impData, RevA.has_wmax.
  cbn [JS.member JS.prop JS.get String.eqb Ascii.eqb Bool.eqb].
  split; [|split].
  - intros z Hz Hnz. rewrite Hz, truthy_of_Z.
    apply Z.eqb_neq in Hnz. rewrite Hnz. reflexivity.
  - intros [H|[->| ->]]; [rewrite H|..]; reflexivity.
  - destruct (JS.truthy _ && _); reflexivity.
Qed.

Lemma wmax_follows_maxAvailableWidth_witness :
  JS.get_path wmax_path (RevA.impData measurement_A)
  = Some (JS.VNum (JS.of_Z 300)).
Proof.
  destruct (@wmax_follows_maxAvailableWidth host_C1 slot_in_container
              measurement_A (JS.of_Z 300) eq_refl eq_refl) as (_ & H & _).
  apply (H 300%Z); [reflexivity|discriminate].
Defined.

(* ------------------------------------------------------------------ *)
(** ** What a merge writes where the request has room *)

Lemma set_absent k v o :
  JS.get k o = None -> JS.set k v o = (o ++ [(k, v)])%list.
Proof.
  induction o as [|[k' x] o IH]; intros H; [reflexivity|].
  simpl in *. destruct (String.eqb k k'); [discriminate|].
  now rewrite IH.
Qed.

Lemma get_app_absent k (o o' : JS.obj) :
  JS.get k o = None -> JS.get k (o ++ o')%list = JS.get k o'.
Proof.
  induction o as [|[k' x] o IH]; intros H; [reflexivity|].
  simpl in *. destruct (String.eqb k k'); [discriminate|auto].
Qed.

(** A plain object merged into an empty one is that object. *)
Lemma mergeDeepHelper_into_empty s :
  is_plain s = true ->
  JS.isPlainObject s = true ->
  Utils.mergeDeepHelper s (JS.VObj []) = s.
Proof.
  induction s as [| | | | | |sf IH] using value_induction;
    try discriminate.
  intros Hp _. rewrite mergeDeepHelper_obj. f_equal.
  apply is_plain_obj in Hp. destruct Hp as [Hd Hp].
  assert (G : forall acc,
             (forall k, In k (map fst sf) -> JS.get k acc = None) ->
             Utils.merge_fields sf acc = (acc ++ sf)%list).
  { clear - IH Hd Hp. induction sf as [|[k v] sf IHsf]; intros acc Hacc.
    - now rewrite app_nil_r.
    - cbn [map fst] in Hd. apply distinct_cons in Hd.
      destruct Hd as [Hnin Hd].
      inversion IH as [|? ? Hv IH']; subst.
      inversion Hp as [|? ? Hpv Hp']; subst. cbn [snd] in Hv, Hpv.
      rewrite merge_fields_cons.
      assert (Hk : JS.get k acc = None) by (apply Hacc; now left).
      assert (He : entry_value (Utils.mergeDeepHelper v) v (JS.prop acc k)
                   = v).
      { unfold JS.prop. rewrite Hk.
        destruct v; try reflexivity.
        cbn [entry_value JS.truthy]. now apply Hv. }
      rewrite He, set_absent by exact Hk.
      rewrite IHsf; auto.
      + now rewrite <- app_assoc.
      + intros k' Hin. rewrite get_app_absent.
        * simpl. destruct (String.eqb k' k) eqn:E; [|reflexivity].
          apply String.eqb_eq in E. subst k'. contradiction.
        * apply Hacc. now right. }
  apply (G []). reflexivity.
Qed.

Lemma get_plain k (sf : JS.obj) v :
  Forall (fun kv => is_plain (snd kv) = true) sf ->
  JS.get k sf = Some v -> is_plain v = true.
Proof.
  induction 1 as [|[k' x] sf Hx _ IH]; [discriminate|].
  simpl. destruct (String.eqb k k'); [now intros [= <-]|exact IH].
Qed.

(** What a plain source holds under a path is what the merge leaves there
    when the target had room along that path. *)
Lemma get_path_merge_vacant q :
  forall s t v,
    is_plain s = true ->
    vacant q t = true ->
    JS.get_path q s = Some v ->
    JS.get_path q (Utils.mergeDeepHelper s t) = Some v.
Proof.
  induction q as [|k q IH]; intros s t v Hp Hv Hq; [discriminate Hv|].
  destruct t as [| | | | | |tf]; try discriminate Hv.
  destruct s as [| | | | | |sf]; try discriminate Hq.
  rewrite mergeDeepHelper_obj. cbn [JS.get_path vacant] in *.
  apply is_plain_obj in Hp. destruct Hp as [Hd Hp].
  destruct (JS.get k sf) as [sv|] eqn:E; [|discriminate Hq].
  rewrite (@get_merge_fields_same k sv sf Hd E).
  pose proof (get_plain _ Hp E) as Hsv.
  assert (Hroom : forall old,
             JS.truthy old = false ->
             JS.get_path q (entry_value (Utils.mergeDeepHelper sv) sv old)
             = Some v).
  { intros old Hold. destruct sv; cbn [entry_value]; try exact Hq.
    - discriminate Hsv.
    - rewrite Hold, mergeDeepHelper_into_empty by auto. exact Hq. }
  unfold JS.prop. destruct (JS.get k tf) as [old|]; [|now apply Hroom].
  destruct (JS.truthy old) eqn:Hold; [|now apply Hroom].
  apply andb_true_iff in Hv. destruct Hv as [Ho Hv].
  destruct q as [|k' q']; [discriminate Hv|].
  destruct sv; try discriminate Hq.
  cbn [entry_value]. rewrite Hold. now apply IH.
Qed.

Lemma get_path_mergeDeep_vacant q s t v :
  is_plain s = true ->
  vacant q t = true ->
  JS.get_path q s = Some v ->
  JS.get_path q (Utils.mergeDeep t s) = Some v.
Proof.
  intros Hp Hv Hq. unfold Utils.mergeDeep.
  destruct q as [|k q]; [discriminate Hv|].
  destruct s; try discriminate Hq.
  now apply get_path_merge_vacant.
Qed.

Lemma in_existsb_eqb k l : In k l -> existsb (String.eqb k) l = true.
Proof.
  intros H. apply existsb_exists. exists k. split; [exact H|].
  apply String.eqb_refl.
Qed.

(** The measurements [collectResponsiveStretchData] returns arrive whole in
    every scope that fires: after [addStretchDataToORTB2] the global
    fragment, and the fragment of each configured bidder, holds under
    [site.ext.data.responsiveStretch] exactly the viewport, the map of
    measurements and the timestamp, provided the fragment had room there
    (no value in the way that is not an object, and nothing under
    [responsiveStretch] yet). *)
Theorem scopes_receive_the_measurements :
  forall host adUnits stretchData moduleConfig fragments units,
    RevB.collectResponsiveStretchData host adUnits = JS.Returns stretchData ->
    let after :=
      snd (RevB.addStretchDataToORTB2 host
             (ReqBidsConfig.make (Some fragments) units) stretchData
             moduleConfig) in
    (global_scope_fires moduleConfig = true ->
     vacant scope_path (Fragments.global fragments) = true ->
     read_fragment (global_fragment after) scope_path
     = Some (RevB.responsiveStretch host stretchData))
    /\ (bidder_scope_fires moduleConfig = true ->
        forall bidder,
          In bidder (bidders_codes (bidders_of moduleConfig)) ->
          vacant (bidder :: scope_path) (Fragments.bidder fragments) = true ->
          read_fragment (bidder_fragment after) (bidder :: scope_path)
          = Some (RevB.responsiveStretch host stretchData)).
Proof.
  intros host adUnits sd cfg f au Hc after.
  apply collectResponsiveStretchData_plain in Hc.
  pose proof (@responsiveStretch_plain host sd Hc) as Hp.
  subst after. unfold RevB.addStretchDataToORTB2.
  rewrite addStretchData_eq.
  cbn [ReqBidsConfig.ortb2Fragments ReqBidsConfig.adUnits].
  split.
  - intros HG Hv. rewrite HG. unfold global_fragment.
    destruct (impLevelEnabled cfg);
      cbn [snd ReqBidsConfig.ortb2Fragments option_map Fragments.global
           read_fragment];
      (apply get_path_mergeDeep_vacant;
       [rewrite site_ext_data_spine; now apply spine_plain
       |exact Hv|apply get_path_spine]).
  - intros HB bidder Hin Hv. rewrite HB. unfold bidder_fragment.
    destruct (impLevelEnabled cfg);
      cbn [snd ReqBidsConfig.ortb2Fragments option_map Fragments.bidder
           read_fragment];
      (apply get_path_mergeDeep_vacant;
       [apply bidderConfig_plain; rewrite site_ext_data_spine;
        now apply spine_plain
       |exact Hv
       |unfold bidderConfig_of; cbn [JS.get_path]; rewrite get_fold_set;
        rewrite (in_existsb_eqb _ _ Hin); apply get_path_spine]).
Qed.

Lemma scopes_receive_the_measurements_witness :
  read_fragment
    (global_fragment
       (snd (RevB.addStretchDataToORTB2 host_C5 request_C9 stretchData_C10
               empty_config))) scope_path
  = Some (RevB.responsiveStretch host_C5 stretchData_C10)
  /\ read_fragment
       (bidder_fragment
          (snd (RevB.addStretchDataToORTB2 host_C5 request_C9
                  stretchData_C10 config_appnexus)))
       ("appnexus" :: scope_path)
     = Some (RevB.responsiveStretch host_C5 stretchData_C10).
Proof.
  split.
  - apply (proj1
             (@scopes_receive_the_measurements host_C5
                (Some [Some (adUnit_of_code "slot-2")]) stretchData_C10
                empty_config _ _ eq_refl));
      reflexivity.
  - apply (proj2
             (@scopes_receive_the_measurements host_C5
                (Some [Some (adUnit_of_code "slot-2")]) stretchData_C10
                config_appnexus _ _ eq_refl));
      [reflexivity|now left|reflexivity].
Defined.

Section Served.

Variable sd : JS.obj.
Hypothesis sd_plain : is_plain (JS.VObj sd) = true.

Lemma merge_imp_served u :
  unit_served sd (Some u) (Some (merge_imp RevB.impData sd u)).
Proof.
  unfold unit_served, merge_imp.
  destruct (JS.truthy (JS.prop sd (code_key (AdUnit.code u)))) eqn:E;
    cbn [AdUnit.code AdUnit.others AdUnit.ortb2Imp].
  - repeat split; [discriminate|]. intros _ Hv.
    apply get_path_mergeDeep_vacant;
      [now apply impData_plain|exact Hv|].
    rewrite impData_spine. apply get_path_spine.
  - repeat split. discriminate.
Qed.

Lemma merge_imps_served l :
  forall l',
    merge_imps RevB.impData sd l = (JS.Returns tt, l') ->
    Forall2 (unit_served sd) l l'.
Proof.
  induction l as [|[u|] l IH]; intros l' H; simpl in H.
  - injection H as <-. constructor.
  - destruct (merge_imps RevB.impData sd l) as [o r]. injection H as -> <-.
    constructor; [apply merge_imp_served|now apply IH].
  - discriminate H.
Qed.

End Served.

(** The impression step serves every ad unit of the request when the call
    returns, the ad units measured and the ad units of the request being
    coded with keys the map of measurements does not inherit from
    [Object.prototype] (under [toString], say, the code finds a function
    where the map has no measurement and writes it): a unit keeps its [code] and its other properties; a unit without
    a measurement under its code is left as it is; a unit with one reads
    it back under [ortb2Imp.ext.data.responsiveStretch] when its
    [ortb2Imp], or the empty object that stands in for a missing one, had
    room there. *)
Theorem impressions_receive_their_measurement :
  forall host collected stretchData moduleConfig req units,
    RevB.collectResponsiveStretchData host (Some collected)
    = JS.Returns stretchData ->
    own_codes collected = true ->
    ReqBidsConfig.adUnits req = Some units ->
    own_codes units = true ->
    impLevelEnabled moduleConfig = true ->
    fst (RevB.addStretchDataToORTB2 host req stretchData moduleConfig)
    = JS.Returns tt ->
    exists units',
      adUnits_after
        (RevB.addStretchDataToORTB2 host req stretchData moduleConfig)
      = Some units'
      /\ Forall2 (unit_served stretchData) units units'.
Proof.
  intros host collected sd cfg req l Hc _ Hl _ Hi.
  apply collectResponsiveStretchData_plain in Hc.
  unfold adUnits_after, RevB.addStretchDataToORTB2.
  rewrite addStretchData_eq, Hl, Hi. unfold merged_units.
  destruct (merge_imps RevB.impData sd l) as [o l'] eqn:E.
  destruct (ReqBidsConfig.ortb2Fragments req) as [f|].
  - cbn [fst snd ReqBidsConfig.adUnits]. intros ->.
    exists l'. split; [reflexivity|]. now apply merge_imps_served.
  - destruct (global_scope_fires cfg || bidder_scope_fires cfg);
      [discriminate|].
    cbn [fst snd ReqBidsConfig.adUnits]. intros ->.
    exists l'. split; [reflexivity|]. now apply merge_imps_served.
Qed.

Lemma impressions_receive_their_measurement_witness :
  exists units',
    adUnits_after
      (RevB.addStretchDataToORTB2 host_C5 request_C9 stretchData_C10
         empty_config)
    = Some units'
    /\ Forall2 (unit_served stretchData_C10)
         [Some (AdUnit.make (Some "slot-2")
                  (JS.VObj [("ext", JS.VObj [("gpid", JS.VStr "/1/slot")])])
                  [("mediaTypes", JS.VObj [])])]
         units'.
Proof.
  apply (@impressions_receive_their_measurement host_C5
           [Some (adUnit_of_code "slot-2")] stretchData_C10
           empty_config request_C9 _ eq_refl eq_refl eq_refl eq_refl
           eq_refl eq_refl).
Defined.

Lemma merge_imps_throws imp sd l :
  fst (merge_imps imp sd l) = JS.Throws <-> In None l.
Proof.
  induction l as [|[u|] l IH]; simpl.
  - split; [discriminate|contradiction].
  - destruct (merge_imps imp sd l) as [o r]. cbn [fst] in *.
    rewrite IH. split; [now right|]. intros [H|H]; [discriminate|exact H].
  - split; [now left|reflexivity].
Qed.

(** [addStretchDataToORTB2] throws in two cases only, in either revision:
    a scope fires on a request without [ortb2Fragments], and then nothing
    at all is written, the impression step included; or the impression
    step is enabled and meets a [null] entry among the ad units. *)
Theorem addStretchData_throws_iff :
  forall payload imp stretchData moduleConfig req,
    (fst (addStretchData payload imp stretchData moduleConfig req)
     = JS.Throws
     <-> (ReqBidsConfig.ortb2Fragments req = None
          /\ global_scope_fires moduleConfig
             || bidder_scope_fires moduleConfig = true)
         \/ (impLevelEnabled moduleConfig = true
             /\ exists units,
                  ReqBidsConfig.adUnits req = Some units /\ In None units))
    /\ (ReqBidsConfig.ortb2Fragments req = None ->
        global_scope_fires moduleConfig || bidder_scope_fires moduleConfig
        = true ->
        addStretchData payload imp stretchData moduleConfig req
        = (JS.Throws, req)).
Proof.
  intros payload imp sd cfg req. rewrite addStretchData_eq.
  assert (U : fst (merged_units imp sd (ReqBidsConfig.adUnits req))
              = JS.Throws
              <-> exists units,
                    ReqBidsConfig.adUnits req = Some units /\ In None units).
  { unfold merged_units. destruct (ReqBidsConfig.adUnits req) as [l|].
    - pose proof (merge_imps_throws imp sd l) as H.
      destruct (merge_imps imp sd l) as [o r]. cbn [fst] in *.
      rewrite H. split.
      + intros Hin. now exists l.
      + intros (l0 & [= <-] & Hin). exact Hin.
    - split; [discriminate|]. intros (l0 & Heq & _). discriminate Heq. }
  cbv zeta.
  destruct (ReqBidsConfig.ortb2Fragments req) as [f|].
  - split; [|discriminate].
    destruct (impLevelEnabled cfg); cbn [fst].
    + rewrite U. split.
      * intros H. right. now split.
      * intros [[Hf _]|[_ H]]; [discriminate Hf|exact H].
    + split; [discriminate|].
      intros [[Hf _]|[Hf _]]; discriminate Hf.
  - destruct (global_scope_fires cfg || bidder_scope_fires cfg).
    + split; [|reflexivity]. cbn [fst]. split; [|reflexivity].
      intros _. left. now split.
    + split; [|discriminate].
      destruct (impLevelEnabled cfg); cbn [fst].
      * rewrite U. split.
        -- intros H. right. now split.
        -- intros [[_ Hf]|[_ H]]; [discriminate Hf|exact H].
      * split; [discriminate|].
        intros [[_ Hf]|[Hf _]]; discriminate Hf.
Qed.

Lemma addStretchData_throws_inv payload imp sd cfg req :
  fst (addStretchData payload imp sd cfg req) = JS.Throws ->
  addStretchData payload imp sd cfg req = (JS.Throws, req)
  \/ exists units,
       ReqBidsConfig.adUnits req = Some units /\ In None units.
Proof.
  rewrite addStretchData_eq. unfold merged_units.
  destruct (ReqBidsConfig.adUnits req) as [l|] eqn:El.
  - pose proof (merge_imps_throws imp sd l) as H.
    destruct (merge_imps imp sd l) as [o r]. cbn [fst snd] in *.
    destruct (ReqBidsConfig.ortb2Fragments req) as [f|];
      case_switches cfg; cbn [fst orb]; intros E;
      try discriminate E; try (now left);
      right; exists l; (split; [reflexivity|now apply H]).
  - destruct (ReqBidsConfig.ortb2Fragments req) as [f|];
      case_switches cfg; cbn [fst orb]; intros E;
      try discriminate E; now left.
Qed.

Lemma addStretchData_throws_witness :
  RevB.addStretchDataToORTB2 host_C5
    (ReqBidsConfig.make None (Some [Some (adUnit_of_code "slot-2")]))
    stretchData_C10 empty_config
  = (JS.Throws,
     ReqBidsConfig.make None (Some [Some (adUnit_of_code "slot-2")])).
Proof.
  apply (proj2
           (addStretchData_throws_iff
              (RevB.responsiveStretch host_C5 stretchData_C10) RevB.impData
              stretchData_C10 empty_config
              (ReqBidsConfig.make None
                 (Some [Some (adUnit_of_code "slot-2")]))));
    reflexivity.
Defined.

(* ------------------------------------------------------------------ *)
(** ** [init] *)

Lemma in_if_singleton (b : bool) (x y : Warning) :
  In x (if b then [y] else []) <-> b = true /\ x = y.
Proof.
  destruct b; simpl; split.
  - intros [->|[]]. now split.
  - intros [_ ->]. now left.
  - contradiction.
  - intros [H _]. discriminate H.
Qed.

(** [init] never rejects a configuration: it returns [true] and keeps the
    configuration as it is, also when it warns.  A parameter it warns about
    is then read by [addStretchDataToORTB2] as follows: a [global] or an
    [impLevel] that is not a boolean counts as enabled, and a [bidders]
    that is not an array never fires the bidder scope and leaves the global
    scope to [global] alone. *)
Theorem init_warnings_and_what_the_merge_makes_of_them :
  forall moduleConfig,
    let kept := snd (fst (init moduleConfig)) in
    let warnings := snd (init moduleConfig) in
    fst (fst (init moduleConfig)) = true
    /\ kept = config_or moduleConfig empty_config
    /\ (In global_should_be_a_boolean warnings -> globalEnabled kept = true)
    /\ (In impLevel_should_be_a_boolean warnings ->
        impLevelEnabled kept = true)
    /\ (In bidders_should_be_an_array warnings ->
        bidder_scope_fires kept = false
        /\ global_scope_fires kept = globalEnabled kept).
Proof.
  intros mc. unfold init. cbn [fst snd].
  split; [reflexivity|]. split; [reflexivity|].
  destruct (ModuleConfig.params (config_or mc (ModuleConfig.make None)))
    as [[b g i]|] eqn:E;
    [|repeat split; contradiction].
  cbn [Params.bidders Params.global Params.impLevel].
  unfold globalEnabled, impLevelEnabled, bidder_scope_fires,
    global_scope_fires, bidders_of, globalEnabled.
  rewrite E. cbn [Params.bidders Params.global Params.impLevel].
  rewrite !in_app_iff, !in_if_singleton.
  split; [|split].
  - intros [[_ H]|[[H _]|[_ H]]]; try discriminate H.
    destruct g as [| |[|]| | | |]; try reflexivity; discriminate H.
  - intros [[_ H]|[[_ H]|[H _]]]; try discriminate H.
    destruct i as [| |[|]| | | |]; try reflexivity; discriminate H.
  - intros [[H _]|[[_ H]|[_ H]]]; try discriminate H.
    apply andb_true_iff in H. destruct H as [Ht Ha]. rewrite Ht.
    apply negb_true_iff in Ha. rewrite Ha. cbn [andb negb].
    split; [reflexivity|]. now rewrite orb_true_r, andb_true_r.
Qed.

Lemma init_warnings_witness :
  snd (init
         (Some
            (ModuleConfig.make
               (Some (Params.make (BiddersOther (JS.VStr "appnexus"))
                        (JS.VStr "yes") (JS.VNum (JS.of_Z 0)))))))
  = [bidders_should_be_an_array; global_should_be_a_boolean;
     impLevel_should_be_a_boolean]
  /\ bidder_scope_fires
       (ModuleConfig.make
          (Some (Params.make (BiddersOther (JS.VStr "appnexus"))
                   (JS.VStr "yes") (JS.VNum (JS.of_Z 0))))) = false.
Proof.
  split; [reflexivity|].
  apply (init_warnings_and_what_the_merge_makes_of_them
           (Some
              (ModuleConfig.make
                 (Some (Params.make (BiddersOther (JS.VStr "appnexus"))
                          (JS.VStr "yes") (JS.VNum (JS.of_Z 0))))))).
  simpl. now left.
Defined.

(* ------------------------------------------------------------------ *)
(** ** [getBidRequestData] *)

Lemma measure_and_merge_request collect add adUnits cfg req calls timers :
  World.request
    (snd (measure_and_merge collect add adUnits cfg
            (World.make (Some req) calls timers)))
  = Some
      match collect (Some adUnits) with
      | JS.Returns stretchData =>
          if Utils.isEmpty (JS.VObj stretchData) then req
          else snd (add req stretchData cfg)
      | JS.Throws => req
      end.
Proof.
  unfold measure_and_merge, JS.attempt, JS.seq, JS.lift, JS.ret.
  destruct (collect (Some adUnits)) as [sd|]; [|reflexivity].
  destruct (Utils.isEmpty (JS.VObj sd)); [reflexivity|].
  cbn [negb]. unfold on_request. cbn [World.request].
  destruct (add req sd cfg) as [[[]|] req']; reflexivity.
Qed.

Lemma invoke_request callback w :
  World.request (snd (invoke callback w)) = World.request w.
Proof. reflexivity. Qed.

(** What [getBidRequestData] leaves of the request, whatever the callback
    does.  The width-only revision has measured and merged when it returns.
    The full-geometry revision returns with the request as it was, and the
    request is measured and merged once the timer has run.  In both, the
    request is left as it was when there is no ad unit, when the collection
    throws and when it measures nothing. *)
Theorem getBidRequestData_request :
  forall host _moduleConfig callback moduleConfig req calls,
    let w := World.make (Some req) calls [] in
    let cfg := config_or moduleConfig _moduleConfig in
    World.request
      (snd (RevA.getBidRequestData host _moduleConfig callback moduleConfig
              w))
    = Some
        (request_after (RevA.collectResponsiveStretchData host)
           (RevA.addStretchDataToORTB2 host) host req cfg)
    /\ World.request
         (snd (RevB.getBidRequestData host _moduleConfig callback
                 moduleConfig w))
       = Some req
    /\ World.request
         (RevB.run_timers host _moduleConfig
            (snd (RevB.getBidRequestData host _moduleConfig callback
                    moduleConfig w)))
       = Some
           (request_after (RevB.collectResponsiveStretchData host)
              (RevB.addStretchDataToORTB2 host) host req cfg).
Proof.
  intros host mc0 callback mc req calls w cfg. subst w cfg.
  unfold request_after.
  split; [|split].
  - unfold RevA.getBidRequestData, JS.attempt, JS.seq, JS.read.
    cbn [World.request fst snd].
    destruct (adUnits_isEmpty (adUnits_of host req)).
    + unfold invoke at 1. cbn [World.calls fst snd].
      destruct (callback calls); reflexivity.
    + pose proof (measure_and_merge_request
                    (RevA.collectResponsiveStretchData host)
                    (RevA.addStretchDataToORTB2 host) (adUnits_of host req)
                    (config_or mc mc0) req calls []) as Hm.
      destruct (measure_and_merge_returns
                  (RevA.collectResponsiveStretchData host)
                  (RevA.addStretchDataToORTB2 host) (adUnits_of host req)
                  (config_or mc mc0) (World.make (Some req) calls []))
        as (w' & Hw & _).
      rewrite Hw in *. cbn [snd fst] in *.
      unfold invoke at 1. cbn [fst snd].
      destruct (callback (World.calls w')); cbn [fst snd World.request];
        exact Hm.
  - unfold RevB.getBidRequestData, JS.attempt, JS.seq, JS.read.
    cbn [World.request fst snd].
    destruct (adUnits_isEmpty (adUnits_of host req)).
    + unfold invoke at 1. cbn [World.calls fst snd].
      destruct (callback calls); reflexivity.
    + reflexivity.
  - unfold RevB.getBidRequestData, JS.attempt, JS.seq, JS.read.
    cbn [World.request fst snd].
    destruct (adUnits_isEmpty (adUnits_of host req)).
    + unfold invoke at 1. cbn [World.calls fst snd].
      destruct (callback calls); reflexivity.
    + unfold setTimeout, RevB.run_timers.
      cbn [fst snd World.request World.calls World.timers app fold_left
           RevB.run_task].
      unfold JS.seq.
      pose proof (measure_and_merge_request
                    (RevB.collectResponsiveStretchData host)
                    (RevB.addStretchDataToORTB2 host) (adUnits_of host req)
                    (config_or mc mc0) req calls []) as Hm.
      destruct (measure_and_merge_returns
                  (RevB.collectResponsiveStretchData host)
                  (RevB.addStretchDataToORTB2 host) (adUnits_of host req)
                  (config_or mc mc0) (World.make (Some req) calls []))
        as (w' & Hw & _).
      rewrite Hw in *. cbn [snd fst] in *. exact Hm.
Qed.

Lemma collect_each_returns_no_null document calc l :
  forall acc sd,
    collect_each document calc l acc = JS.Returns sd -> ~ In None l.
Proof.
  induction l as [|[u|] l IH]; intros acc sd H Hin; simpl in H.
  - contradiction.
  - destruct Hin as [Hin|Hin]; [discriminate Hin|].
    destruct (code_is_falsy (AdUnit.code u)); [now apply (IH _ _ H)|].
    destruct (calc (findAdSlotElement document (code_key (AdUnit.code u))))
      as [[d|]|]; simpl in H;
      [now apply (IH _ _ H)|now apply (IH _ _ H)|discriminate H].
  - discriminate H.
Qed.

Lemma request_after_all_or_nothing host calc payload imp req cfg :
  let collected := collect (Host.document host) calc in
  let add :=
    fun (req : ReqBidsConfig.t) (sd : JS.obj) (cfg : ModuleConfig.t) =>
      addStretchData (payload sd) imp sd cfg req in
  request_after collected add host req cfg = req
  \/ exists sd,
       collected (Some (adUnits_of host req)) = JS.Returns sd
       /\ add req sd cfg
          = (JS.Returns tt, request_after collected add host req cfg).
Proof.
  intros collected add. unfold request_after.
  destruct (adUnits_isEmpty (adUnits_of host req)); [now left|].
  destruct (collected (Some (adUnits_of host req))) as [sd|] eqn:Ec;
    [|now left].
  destruct (Utils.isEmpty (JS.VObj sd)); [now left|].
  destruct (fst (add req sd cfg)) as [[]|] eqn:Ea.
  - right. exists sd. split; [reflexivity|].
    rewrite <- Ea. apply surjective_pairing.
  - left. unfold add in *.
    destruct (addStretchData_throws_inv (payload sd) imp sd cfg req Ea)
      as [Hreq|(l & Hl & Hin)].
    + now rewrite Hreq.
    + exfalso. unfold collected, collect, adUnits_of in Ec.
      rewrite Hl in Ec.
      exact (collect_each_returns_no_null _ _ _ _ Ec Hin).
Qed.

(** The measurement of [getBidRequestData] is all or nothing, in either
    revision: the request it leaves is the request as it was, or the
    request a call of [addStretchDataToORTB2] that returned has left.  A
    request half merged is never left: a [null] ad unit, on which the
    impression step would throw after the scopes are written, has made the
    collection throw before, and a missing [ortb2Fragments] throws before
    anything is written. *)
Theorem getBidRequestData_all_or_nothing :
  forall host req moduleConfig,
    (request_after (RevA.collectResponsiveStretchData host)
       (RevA.addStretchDataToORTB2 host) host req moduleConfig = req
     \/ exists stretchData,
          RevA.collectResponsiveStretchData host
            (Some (adUnits_of host req)) = JS.Returns stretchData
          /\ RevA.addStretchDataToORTB2 host req stretchData moduleConfig
             = (JS.Returns tt,
                request_after (RevA.collectResponsiveStretchData host)
                  (RevA.addStretchDataToORTB2 host) host req moduleConfig))
    /\ (request_after (RevB.collectResponsiveStretchData host)
          (RevB.addStretchDataToORTB2 host) host req moduleConfig = req
        \/ exists stretchData,
             RevB.collectResponsiveStretchData host
               (Some (adUnits_of host req)) = JS.Returns stretchData
             /\ RevB.addStretchDataToORTB2 host req stretchData moduleConfig
                = (JS.Returns tt,
                   request_after (RevB.collectResponsiveStretchData host)
                     (RevB.addStretchDataToORTB2 host) host req
                     moduleConfig)).
Proof.
  intros host req cfg. split.
  - exact (request_after_all_or_nothing host
             (RevA.calculateAdSlotSpace host) (RevA.responsiveStretch host)
             RevA.impData req cfg).
  - exact (request_after_all_or_nothing host
             (RevB.calculateAdSlotSpace host) (RevB.responsiveStretch host)
             RevB.impData req cfg).
Qed.

(* ------------------------------------------------------------------ *)
(** ** The resize function of the integration example *)

Lemma restore_stretch node :
  Resize.restore (Resize.style node) (Resize.stretch node) = node.
Proof. destruct node as [b [w m s h]]. reflexivity. Qed.

Section ResizeFacts.

Variable layout : Resize.Page -> Resize.Metrics.
Variable fr : Resize.Frame.

Lemma traverse_spec rest :
  forall below depth,
    (depth <= 10)%nat ->
    exists n,
      (n + depth <= 10)%nat
      /\ Resize.traverse layout fr below rest depth
         = (below ++ map Resize.stretch (firstn n rest) ++ skipn n rest)%list
      /\ Forall (fun node => Resize.isBody node = false) (firstn n rest)
      /\ match skipn n rest with
         | [] => True
         | current :: above =>
             (n + depth = 10)%nat
             \/ Resize.isBody current = true
             \/ Resize.disrupted
                  (layout
                     (Resize.mkPage (Some fr)
                        (below ++ map Resize.stretch (firstn n rest)
                         ++ current :: above)))
                  (layout
                     (Resize.mkPage (Some fr)
                        (below ++ map Resize.stretch (firstn n rest)
                         ++ Resize.stretch current :: above)))
                = true
         end
      /\ (Z.abs
            (Resize.scrollHeight
               (layout
                  (Resize.mkPage (Some fr)
                     (Resize.traverse layout fr below rest depth)))
             - Resize.scrollHeight
                 (layout (Resize.mkPage (Some fr) (below ++ rest))))
          <= 50 * Z.of_nat n)%Z
      /\ (Resize.scrollWidth
            (layout
               (Resize.mkPage (Some fr)
                  (Resize.traverse layout fr below rest depth)))
          <= Resize.scrollWidth
               (layout (Resize.mkPage (Some fr) (below ++ rest)))
             + 100 * Z.of_nat n)%Z
      /\ (Z.abs
            (Resize.clientHeight
               (layout
                  (Resize.mkPage (Some fr)
                     (Resize.traverse layout fr below rest depth)))
             - Resize.clientHeight
                 (layout (Resize.mkPage (Some fr) (below ++ rest))))
          <= 50 * Z.of_nat n)%Z.
Proof.
  induction rest as [|c above IH]; intros below depth Hd.
  - exists 0%nat. cbn [Resize.traverse firstn skipn map app].
    rewrite app_nil_r. repeat split; try lia; try (now constructor).
  - cbn [Resize.traverse].
    destruct (Resize.isBody c) eqn:Hb; cbn [orb].
    { exists 0%nat. cbn [firstn skipn map app].
      repeat split; try lia; try (now constructor); auto. }
    destruct (depth <? 10)%nat eqn:Hlt; cbn [negb].
    2:{ apply Nat.ltb_ge in Hlt. exists 0%nat. cbn [firstn skipn map app].
        repeat split; try lia; try (now constructor); left; lia. }
    apply Nat.ltb_lt in Hlt.
    destruct (Resize.disrupted _ _) eqn:Hdis.
    { exists 0%nat. rewrite restore_stretch. cbn [firstn skipn map app].
      repeat split; try lia; try (now constructor); auto. }
    destruct (IH (below ++ [Resize.stretch c])%list (S depth)
                ltac:(lia))
      as (n & Hn & Heq & Hnb & Hstop & Hh & Hw & Hc).
    exists (S n). cbn [firstn skipn map].
    rewrite <- !app_assoc in *. cbn [app] in *.
    split; [lia|]. split; [exact Heq|].
    split; [constructor; assumption|].
    split.
    { destruct (skipn n above) as [|c' above']; [exact I|].
      destruct Hstop as [H|[H|H]]; [left; lia|auto|].
      rewrite <- !app_assoc in H. cbn [app] in H. auto. }
    unfold Resize.disrupted in Hdis.
    apply orb_false_iff in Hdis. destruct Hdis as [Hdis H3].
    apply orb_false_iff in Hdis. destruct Hdis as [H1 H2].
    rewrite Z.gtb_ltb, Z.ltb_ge in H1, H2, H3.
    repeat split; lia.
Qed.

End ResizeFacts.

(** [customResizeFn] changes nothing without a frame.  With one, it
    styles the frame and sets the three width properties on a run of
    ancestors that starts at the parent of the frame, is at most ten long
    and stops short of [document.body]; every other ancestor, the one whose
    change was reverted included, is left exactly as it was.  The run ends
    only where the ancestors end, at the tenth, at [document.body], or at
    an ancestor whose change disrupts the layout. *)
Theorem customResizeFn_stretches_a_run_of_ancestors :
  forall layout height page,
    (Resize.frame page = None ->
     Resize.customResizeFn layout height page = page)
    /\ (forall fr,
          Resize.frame page = Some fr ->
          let styled := Resize.style_frame height fr in
          exists n,
            (n <= 10)%nat
            /\ Resize.customResizeFn layout height page
               = Resize.mkPage (Some styled)
                   (map Resize.stretch (firstn n (Resize.ancestors page))
                    ++ skipn n (Resize.ancestors page))
            /\ Forall (fun node => Resize.isBody node = false)
                 (firstn n (Resize.ancestors page))
            /\ match skipn n (Resize.ancestors page) with
               | [] => True
               | current :: above =>
                   n = 10%nat
                   \/ Resize.isBody current = true
                   \/ Resize.disrupted
                        (layout
                           (Resize.mkPage (Some styled)
                              (map Resize.stretch
                                 (firstn n (Resize.ancestors page))
                               ++ current :: above)))
                        (layout
                           (Resize.mkPage (Some styled)
                              (map Resize.stretch
                                 (firstn n (Resize.ancestors page))
                               ++ Resize.stretch current :: above)))
                      = true
               end).
Proof.
  intros layout height page. unfold Resize.customResizeFn. split.
  - intros ->. reflexivity.
  - intros fr ->. cbv zeta.
    destruct (traverse_spec layout (Resize.style_frame height fr)
                (Resize.ancestors page) [] (le_0_n 10))
      as (n & Hn & Heq & Hnb & Hstop & _).
    exists n. cbn [app] in *. rewrite Nat.add_0_r in *.
    split; [exact Hn|]. split; [now rewrite Heq|].
    split; [exact Hnb|exact Hstop].
Qed.

Lemma customResizeFn_run_witness :
  exists n,
    (n <= 10)%nat
    /\ Resize.customResizeFn layout_growing (JS.VNum (JS.of_Z 250)) page_12
       = Resize.mkPage
           (Some
              (Resize.style_frame (JS.VNum (JS.of_Z 250))
                 (Resize.mkFrame JS.VUndefined
                    (Resize.mkStyle (Resize.Text "") (Resize.Text "")
                       (Resize.Text "") (Resize.Text "")))))
           (map Resize.stretch (firstn n (Resize.ancestors page_12))
            ++ skipn n (Resize.ancestors page_12)).
Proof.
  destruct (proj2
              (customResizeFn_stretches_a_run_of_ancestors layout_growing
                 (JS.VNum (JS.of_Z 250)) page_12) _ eq_refl)
    as (n & Hn & Heq & _).
  exists n. split; [exact Hn|exact Heq].
Defined.

(** The checks of [customResizeFn] bound each step, not the whole: between
    the page with the frame styled and the page the function leaves, the
    height of the document and the height of the viewport have moved by at
    most 500 and the width of the document has grown by at most 1000, ten
    times the thresholds of a step. *)
Theorem customResizeFn_drift_is_bounded :
  forall layout height page fr,
    Resize.frame page = Some fr ->
    let before :=
      layout
        (Resize.mkPage (Some (Resize.style_frame height fr))
           (Resize.ancestors page)) in
    let after := layout (Resize.customResizeFn layout height page) in
    (Z.abs (Resize.scrollHeight after - Resize.scrollHeight before) <= 500)%Z
    /\ (Resize.scrollWidth after <= Resize.scrollWidth before + 1000)%Z
    /\ (Z.abs (Resize.clientHeight after - Resize.clientHeight before)
        <= 500)%Z.
Proof.
  intros layout height page fr Hf. unfold Resize.customResizeFn.
  rewrite Hf. cbv zeta.
  destruct (traverse_spec layout (Resize.style_frame height fr)
              (Resize.ancestors page) [] (le_0_n 10))
    as (n & Hn & _ & _ & _ & Hh & Hw & Hc).
  cbn [app] in *. repeat split; lia.
Qed.

Lemma customResizeFn_drift_witness :
  (Z.abs
     (Resize.scrollHeight
        (layout_growing
           (Resize.customResizeFn layout_growing (JS.VNum (JS.of_Z 250))
              page_12))
      - Resize.scrollHeight
          (layout_growing
             (Resize.mkPage
                (Some
                   (Resize.style_frame (JS.VNum (JS.of_Z 250))
                      (Resize.mkFrame JS.VUndefined
                         (Resize.mkStyle (Resize.Text "") (Resize.Text "")
                            (Resize.Text "") (Resize.Text "")))))
                (Resize.ancestors page_12)))) <= 500)%Z.
Proof.
  apply (@customResizeFn_drift_is_bounded layout_growing
           (JS.VNum (JS.of_Z 250)) page_12 _ eq_refl).
Defined.

(** With steps of 40 each, under the threshold of 50, ten ancestors are
    stretched and the document is 400 higher. *)
Example drift_beyond_the_threshold_of_a_step :
  Resize.scrollHeight
    (layout_growing
       (Resize.customResizeFn layout_growing (JS.VNum (JS.of_Z 250))
          page_12))
  = 2400%Z
  /\ Resize.ancestors
       (Resize.customResizeFn layout_growing (JS.VNum (JS.of_Z 250)) page_12)
     = (repeat (Resize.stretch (plain_node false)) 10
        ++ repeat (plain_node false) 2 ++ [plain_node true])%list.
Proof. split; reflexivity. Qed.

(* ------------------------------------------------------------------ *)
(** ** The callback of [getBidRequestData], on an example *)

Lemma callback_invoked_once_witness :
  (exists w',
     RevA.getBidRequestData host_C5 empty_config returns None
       (world_of request_slot_2)
     = (JS.Returns tt, w')
     /\ World.calls w' = 1%nat)
  /\ (exists w',
        RevB.getBidRequestData host_C5 empty_config returns None
          (world_of request_slot_2)
        = (JS.Returns tt, w')
        /\ World.calls (RevB.run_timers host_C5 empty_config w') = 1%nat
        /\ World.timers (RevB.run_timers host_C5 empty_config w') = []).
Proof.
  apply (@callback_invoked_once_when_it_returns host_C5 empty_config returns
           None (world_of request_slot_2));
    [intros n; reflexivity|reflexivity].
Defined.
